(** * x-infra-kit: policy validation and configuration derivation

    A shallow embedding of the TypeScript sources of x-infra-kit
    (src/config, src/profiles, src/components, src/composites) and the
    properties of its validation and derivation engine.

    Conventions of the embedding.
    - A JavaScript string is a [string]; its characters are code units
      below 256.
    - A [number] is an integer, [Z] (the validators receive node counts and
      disk sizes).
    - An optional property [p?: T] is an [option T]; [None] is [undefined],
      and [a ?? d] is [nullish a d].
    - A constructor that can [throw] returns a [Result]; there is one
      constructor of [Error] per [throw] statement of the sources.

    The configuration classes and the profiles are embedded a second time,
    in the module [Runtime], over the values the type checker lets through
    besides: numbers that are fractions, infinities or [NaN], and properties
    present with the value [undefined]. The statements on what the
    overrides of a profile do, and on the policy a returned configuration
    satisfies, are made over it. *)

From Stdlib Require Import String Ascii ZArith QArith List Bool Lia DecimalString
  DecimalNat.
Import ListNotations.

Open Scope string_scope.
Open Scope Z_scope.

Set Implicit Arguments.

(* ================================================================= *)
(** ** Errors and results *)

(** The numeric bounds of [CONSTRAINTS]. *)
Inductive Bound := maxNodesBound | diskSizeBound | nodeCountBound.

(** One constructor per [throw new Error(...)], with the values the message
    interpolates. *)
Inductive Error :=
  | InvalidEnvironment (env : string)
      (* `Invalid environment '${env}'. Allowed: ...` *)
  | InvalidRegion (region : string)
      (* `Invalid region '${region}'. Allowed: ...` *)
  | InvalidMachineType (machineType : string)
      (* `Invalid machine type '${machineType}'. Allowed: ...` *)
  | OutOfRange (b : Bound) (value : Z)
      (* `maxNodes must be between 1 and 50 (got ...)` and its siblings *)
  | MinExceedsMax (minNodes maxNodes : Z)
      (* `minNodes (...) cannot be greater than maxNodes (...)` *)
  | MalformedCidrFormat (cidr : string)
      (* `masterCidr must be a /28 CIDR block ...` *)
  | MalformedCidrOctet (ip : string)
      (* `Invalid IP address in masterCidr: ...` *)
  | NotPrivateRange (ip : string)
      (* `masterCidr must be in RFC 1918 private range ...` *)
  | MisalignedBlock (ip : string)
      (* `masterCidr /28 block must be aligned ...` *)
  | EmptySecretList
      (* 'secretIds cannot be empty' *)
  | BlankSecretId
      (* 'secretId cannot be empty or whitespace' *)
  | SecretNotFound (secretId : string) (available : list string)
      (* `Secret '${secretId}' not found. Available: ...` *)
  | IncompleteIdentityConfig
      (* "workloadIdentity must contain 'saId', 'k8sNamespace', and 'k8sSaName'" *)
  | BlankProjectId
      (* 'projectId is required' *)
  | InvalidServiceAccountIdLength
      (* 'saId must be 6-30 characters' *)
  | BlankNamespace
      (* 'k8sNamespace is required' *)
  | BlankServiceAccountName
      (* 'k8sSaName is required' *)
  | SecretsNotConfigured
      (* "Secrets not configured. Provide 'secretIds' ..." *)
  | IdentityNotConfigured.
      (* "Workload Identity not configured. Provide 'workloadIdentity' ..." *)

(** The two [throw]s of the format and octet stages are both a malformed
    CIDR. *)
Definition isMalformedCidr (e : Error) : bool :=
  match e with
  | MalformedCidrFormat _ | MalformedCidrOctet _ => true
  | _ => false
  end.

Inductive Result (A : Type) : Type :=
  | Ok (a : A)
  | Err (e : Error).

Arguments Ok {A} a.
Arguments Err {A} e.

Definition bind {A B : Type} (r : Result A) (k : A -> Result B) : Result B :=
  match r with
  | Ok a => k a
  | Err e => Err e
  end.

Notation "x <- r ;; k" := (bind r (fun x => k))
  (at level 61, r at next level, right associativity).
Notation "r ;;; k" := (bind r (fun _ => k))
  (at level 61, right associativity).

(** [if (c) throw e]. *)
Definition throwIf (c : bool) (e : Error) : Result unit :=
  if c then Err e else Ok tt.

Definition isOk {A : Type} (r : Result A) : bool :=
  match r with Ok _ => true | Err _ => false end.

(** [a ?? d]. *)
Definition nullish {A : Type} (a : option A) (d : A) : A :=
  match a with Some v => v | None => d end.

(* ================================================================= *)
(** ** Strings *)

Module Str.

(** [!s] on a string: only the empty string is falsy. *)
Definition falsy (s : string) : bool :=
  match s with EmptyString => true | String _ _ => false end.

(** White space and line terminators below 256, the characters [trim]
    strips: TAB, LF, VT, FF, CR, SP and NBSP. *)
Definition isSpace (c : ascii) : bool :=
  let n := nat_of_ascii c in
  ((9 <=? n) && (n <=? 13))%nat || (n =? 32)%nat || (n =? 160)%nat.

Fixpoint trimStart (s : string) : string :=
  match s with
  | EmptyString => EmptyString
  | String c s' => if isSpace c then trimStart s' else s
  end.

Fixpoint rev (s : string) : string :=
  match s with
  | EmptyString => EmptyString
  | String c s' => rev s' ++ String c EmptyString
  end.

Definition trimEnd (s : string) : string := rev (trimStart (rev s)).

(** [s.trim()]. *)
Definition trim (s : string) : string := trimEnd (trimStart s).

Fixpoint forallb (p : ascii -> bool) (s : string) : bool :=
  match s with
  | EmptyString => true
  | String c s' => p c && forallb p s'
  end.

(** [\d]: an ASCII decimal digit. *)
Definition isDigit (c : ascii) : bool :=
  let n := nat_of_ascii c in ((48 <=? n) && (n <=? 57))%nat.

(** [s.split(sep)] for a one-character separator: the pieces between the
    separators, in order; always at least one piece. *)
Fixpoint split (sep : ascii) (s : string) : list string :=
  match s with
  | EmptyString => [EmptyString]
  | String c s' =>
      if Ascii.eqb c sep then EmptyString :: split sep s'
      else match split sep s' with
           | piece :: rest => String c piece :: rest
           | [] => [String c EmptyString]
           end
  end.

(** [Number(s)] on a string of decimal digits, the only strings the format
    check of [validateMasterCidr] lets reach it: its decimal value. *)
Definition digitValue (c : ascii) : Z := Z.of_nat (nat_of_ascii c) - 48.

Fixpoint NumberFrom (acc : Z) (s : string) : Z :=
  match s with
  | EmptyString => acc
  | String c s' => NumberFrom (10 * acc + digitValue c) s'
  end.

Definition Number (s : string) : Z := NumberFrom 0 s.

End Str.

(* ================================================================= *)
(** ** Regular expressions

    The fragment of JavaScript regular expressions that [cidrRegex] uses,
    with the backtracking, greedy matching of the language: [matchRe r s k]
    matches [r] at the start of [s] and hands every candidate rest to the
    continuation [k], longest repetition first. *)

Module Regex.

Inductive regex :=
  | Digit                                    (* \d *)
  | Lit (c : ascii)                          (* a literal character *)
  | Seq (r1 r2 : regex)                      (* r1 r2 *)
  | Repeat (lo hi : nat) (r : regex).        (* r{lo,hi} *)

(** [r{lo,hi}] with [m] the matcher of [r]: [lo] iterations are still
    owed and at most [more] are allowed; another iteration is tried before
    stopping. *)
Fixpoint repeat (m : string -> (string -> bool) -> bool) (k : string -> bool)
    (lo more : nat) (s : string) {struct more} : bool :=
  let stop := match lo with O => k s | S _ => false end in
  match more with
  | O => stop
  | S more' => m s (fun s' => repeat m k (Nat.pred lo) more' s') || stop
  end.

Fixpoint matchRe (r : regex) (s : string) (k : string -> bool) : bool :=
  match r with
  | Digit =>
      match s with
      | String c s' => Str.isDigit c && k s'
      | EmptyString => false
      end
  | Lit a =>
      match s with
      | String c s' => Ascii.eqb c a && k s'
      | EmptyString => false
      end
  | Seq r1 r2 => matchRe r1 s (fun s' => matchRe r2 s' k)
  | Repeat lo hi r1 => repeat (matchRe r1) k lo hi s
  end.

(** [/^r$/.test(s)]: the whole of [s] must match. *)
Definition test (r : regex) (s : string) : bool :=
  matchRe r s Str.falsy.

End Regex.

(* ================================================================= *)
(** ** src/config/constraints.ts *)

Module Constraints.

Definition ALLOWED_ENVIRONMENTS : list string := ["dev"; "staging"; "prod"].

Definition ALLOWED_REGIONS : list string :=
  ["europe-west1"; "europe-west3"; "europe-west4"; "us-central1"; "us-east1"].

Definition ALLOWED_MACHINE_TYPES : list string :=
  ["e2-micro"; "e2-small"; "e2-medium"; "e2-standard-2"; "e2-standard-4";
   "n2-standard-2"; "n2-standard-4"; "n2-standard-8"; "n2-highmem-2";
   "n2-highmem-4"].

Record Range := { min : Z; max : Z }.

Record ConstraintTable :=
  { maxNodes : Range; diskSize : Range; nodeCount : Range }.

Definition CONSTRAINTS : ConstraintTable :=
  {| maxNodes := {| min := 1; max := 50 |};
     diskSize := {| min := 30; max := 200 |};
     nodeCount := {| min := 1; max := 20 |} |}.

(** [list.includes(s)] on strings. *)
Definition includes (l : list string) (s : string) : bool :=
  existsb (String.eqb s) l.

Definition validateEnvironment (env : string) : Result unit :=
  throwIf (negb (includes ALLOWED_ENVIRONMENTS env)) (InvalidEnvironment env).

Definition validateRegion (region : string) : Result unit :=
  throwIf (negb (includes ALLOWED_REGIONS region)) (InvalidRegion region).

Definition validateMachineType (machineType : string) : Result unit :=
  throwIf (negb (includes ALLOWED_MACHINE_TYPES machineType))
          (InvalidMachineType machineType).

(** The three bound validators, on integers; [Runtime.validateMaxNodes] and
    its siblings are the same on every number. *)
Definition validateMaxNodes (n : Z) : Result unit :=
  throwIf ((n <? min (maxNodes CONSTRAINTS)) || (n >? max (maxNodes CONSTRAINTS)))
          (OutOfRange maxNodesBound n).

Definition validateDiskSize (n : Z) : Result unit :=
  throwIf ((n <? min (diskSize CONSTRAINTS)) || (n >? max (diskSize CONSTRAINTS)))
          (OutOfRange diskSizeBound n).

Definition validateNodeCount (n : Z) : Result unit :=
  throwIf ((n <? min (nodeCount CONSTRAINTS)) || (n >? max (nodeCount CONSTRAINTS)))
          (OutOfRange nodeCountBound n).

(** [/^(\d{1,3}\.){3}\d{1,3}\/28$/] *)
Definition cidrRegex : Regex.regex :=
  Regex.Seq
    (Regex.Repeat 3 3
       (Regex.Seq (Regex.Repeat 1 3 Regex.Digit) (Regex.Lit ".")))
    (Regex.Seq (Regex.Repeat 1 3 Regex.Digit)
       (Regex.Seq (Regex.Lit "/") (Regex.Seq (Regex.Lit "2") (Regex.Lit "8")))).

(** [a[0]] of the array a [split] returns, which is never empty. *)
Definition first (pieces : list string) : string :=
  match pieces with
  | piece :: _ => piece
  | [] => EmptyString
  end.

(** Comparisons of [octets[i]], which is [undefined] out of range: every
    comparison with [undefined] is false, and [undefined % 16] is [NaN],
    different from 0. *)
Definition eqAt (octets : list Z) (i : nat) (v : Z) : bool :=
  match nth_error octets i with Some o => o =? v | None => false end.

Definition geAt (octets : list Z) (i : nat) (v : Z) : bool :=
  match nth_error octets i with Some o => o >=? v | None => false end.

Definition leAt (octets : list Z) (i : nat) (v : Z) : bool :=
  match nth_error octets i with Some o => o <=? v | None => false end.

Definition remNonZeroAt (octets : list Z) (i : nat) (m : Z) : bool :=
  match nth_error octets i with
  | Some o => negb (Z.rem o m =? 0)
  | None => true
  end.

Definition isPrivate (octets : list Z) : bool :=
  eqAt octets 0 10
  || (eqAt octets 0 172 && geAt octets 1 16 && leAt octets 1 31)
  || (eqAt octets 0 192 && eqAt octets 1 168).

Definition validateMasterCidr (cidr : string) : Result unit :=
  throwIf (negb (Regex.test cidrRegex cidr)) (MalformedCidrFormat cidr) ;;;
  let ip := first (Str.split "/" cidr) in
  let octets := map Str.Number (Str.split "." ip) in
  throwIf (existsb (fun o => (o <? 0) || (o >? 255)) octets)
          (MalformedCidrOctet ip) ;;;
  throwIf (negb (isPrivate octets)) (NotPrivateRange ip) ;;;
  throwIf (remNonZeroAt octets 3 16) (MisalignedBlock ip).

End Constraints.

(* ================================================================= *)
(** ** src/config/network.ts *)

Module NetworkConfigArgs.

Record t := {
  projectId : string;
  region : string;
  env : string;
  prefix : string;
  cidr : option string;
  podCidr : option string;
  serviceCidr : option string;
  podRangeName : option string;
  serviceRangeName : option string
}.

End NetworkConfigArgs.

Module NetworkConfig.

Record t := {
  projectId : string;
  region : string;
  env : string;
  prefix : string;
  cidr : string;
  podCidr : string;
  serviceCidr : string;
  podRangeName : string;
  serviceRangeName : string
}.

(** [new NetworkConfig(args)] *)
Definition new (args : NetworkConfigArgs.t) : Result t :=
  Constraints.validateEnvironment (NetworkConfigArgs.env args) ;;;
  Constraints.validateRegion (NetworkConfigArgs.region args) ;;;
  Ok {| projectId := NetworkConfigArgs.projectId args;
        region := NetworkConfigArgs.region args;
        env := NetworkConfigArgs.env args;
        prefix := NetworkConfigArgs.prefix args;
        cidr := nullish (NetworkConfigArgs.cidr args) "10.0.0.0/16";
        podCidr := nullish (NetworkConfigArgs.podCidr args) "10.11.0.0/21";
        serviceCidr := nullish (NetworkConfigArgs.serviceCidr args) "10.12.0.0/21";
        podRangeName := nullish (NetworkConfigArgs.podRangeName args) "pod-ranges";
        serviceRangeName :=
          nullish (NetworkConfigArgs.serviceRangeName args) "service-ranges" |}.

Definition vpcName (c : t) : string := prefix c ++ "-" ++ env c ++ "-vpc".

Definition subnetName (c : t) : string := prefix c ++ "-" ++ env c ++ "-subnet".

End NetworkConfig.

(* ================================================================= *)
(** ** src/config/cluster.ts *)

Module ClusterConfigArgs.

Record t := {
  projectId : string;
  region : string;
  env : string;
  prefix : string;
  zone : option string;
  machineType : option string;
  nodeCount : option Z;
  minNodes : option Z;
  maxNodes : option Z;
  diskSize : option Z;
  spotInstances : option bool;
  masterCidr : option string;
  podRangeName : option string;
  serviceRangeName : option string
}.

(** [{ ...args, minNodes: m }] *)
Definition withMinNodes (m : option Z) (a : t) : t :=
  {| projectId := projectId a; region := region a; env := env a;
     prefix := prefix a; zone := zone a; machineType := machineType a;
     nodeCount := nodeCount a; minNodes := m; maxNodes := maxNodes a;
     diskSize := diskSize a; spotInstances := spotInstances a;
     masterCidr := masterCidr a; podRangeName := podRangeName a;
     serviceRangeName := serviceRangeName a |}.

End ClusterConfigArgs.

Module ClusterConfig.

Record t := {
  projectId : string;
  region : string;
  env : string;
  prefix : string;
  zone : string;
  machineType : string;
  nodeCount : Z;
  minNodes : Z;
  maxNodes : Z;
  diskSize : Z;
  spotInstances : bool;
  masterCidr : string;
  podRangeName : string;
  serviceRangeName : string
}.

(** [new ClusterConfig(args)] *)
Definition new (args : ClusterConfigArgs.t) : Result t :=
  Constraints.validateEnvironment (ClusterConfigArgs.env args) ;;;
  Constraints.validateRegion (ClusterConfigArgs.region args) ;;;
  let machineType' := nullish (ClusterConfigArgs.machineType args) "e2-medium" in
  Constraints.validateMachineType machineType' ;;;
  let maxNodes' := nullish (ClusterConfigArgs.maxNodes args) 3 in
  Constraints.validateMaxNodes maxNodes' ;;;
  let diskSize' := nullish (ClusterConfigArgs.diskSize args) 50 in
  Constraints.validateDiskSize diskSize' ;;;
  let nodeCount' := nullish (ClusterConfigArgs.nodeCount args) 1 in
  Constraints.validateNodeCount nodeCount' ;;;
  let minNodes' := nullish (ClusterConfigArgs.minNodes args) 1 in
  throwIf (minNodes' >? maxNodes') (MinExceedsMax minNodes' maxNodes') ;;;
  let zone' :=
    nullish (ClusterConfigArgs.zone args) (ClusterConfigArgs.region args ++ "-a") in
  let masterCidr' := nullish (ClusterConfigArgs.masterCidr args) "172.16.0.0/28" in
  Constraints.validateMasterCidr masterCidr' ;;;
  Ok {| projectId := ClusterConfigArgs.projectId args;
        region := ClusterConfigArgs.region args;
        env := ClusterConfigArgs.env args;
        prefix := ClusterConfigArgs.prefix args;
        zone := zone';
        machineType := machineType';
        nodeCount := nodeCount';
        minNodes := minNodes';
        maxNodes := maxNodes';
        diskSize := diskSize';
        spotInstances := nullish (ClusterConfigArgs.spotInstances args) true;
        masterCidr := masterCidr';
        podRangeName := nullish (ClusterConfigArgs.podRangeName args) "pod-ranges";
        serviceRangeName :=
          nullish (ClusterConfigArgs.serviceRangeName args) "service-ranges" |}.

Definition clusterName (c : t) : string := prefix c ++ "-" ++ env c ++ "-cluster".

Definition workloadPool (c : t) : string := projectId c ++ ".svc.id.goog".

Definition effectiveZone (c : t) : string := zone c.

End ClusterConfig.

(* ================================================================= *)
(** ** Objects and maps keyed by strings

    A JavaScript [Map] or plain object with string keys, in insertion
    order: setting an existing key replaces its value in place. *)

Module Dict.

Definition t (V : Type) : Type := list (string * V).

Fixpoint set {V : Type} (k : string) (v : V) (d : t V) : t V :=
  match d with
  | [] => [(k, v)]
  | (k', v') :: rest =>
      if String.eqb k' k then (k, v) :: rest else (k', v') :: set k v rest
  end.

Fixpoint get {V : Type} (k : string) (d : t V) : option V :=
  match d with
  | [] => None
  | (k', v') :: rest => if String.eqb k' k then Some v' else get k rest
  end.

Definition keys {V : Type} (d : t V) : list string := map fst d.

(** [{ ...base, ...over }] *)
Definition spread {V : Type} (base over : t V) : t V :=
  fold_left (fun acc kv => set (fst kv) (snd kv) acc) over base.

End Dict.

(** [o.p] of a spread [{ p: d, ...o }]: the property of [o] when it has
    one, else [d]. An object of overrides is here one whose properties, when
    present, carry values; [Runtime.spread] below is the spread for
    properties that may hold [undefined]. *)
Definition orElse {A : Type} (o d : option A) : option A :=
  match o with Some v => Some v | None => d end.

(* ================================================================= *)
(** ** Partial<NetworkConfigArgs> and Partial<ClusterConfigArgs> *)

Module NetworkOverrides.

Record t := {
  projectId : option string;
  region : option string;
  env : option string;
  prefix : option string;
  cidr : option string;
  podCidr : option string;
  serviceCidr : option string;
  podRangeName : option string;
  serviceRangeName : option string
}.

(** [{}] *)
Definition empty : t :=
  {| projectId := None; region := None; env := None; prefix := None;
     cidr := None; podCidr := None; serviceCidr := None;
     podRangeName := None; serviceRangeName := None |}.

(** [{ ...base, ...o }] *)
Definition over (base : NetworkConfigArgs.t) (o : t) : NetworkConfigArgs.t :=
  {| NetworkConfigArgs.projectId :=
       nullish (projectId o) (NetworkConfigArgs.projectId base);
     NetworkConfigArgs.region := nullish (region o) (NetworkConfigArgs.region base);
     NetworkConfigArgs.env := nullish (env o) (NetworkConfigArgs.env base);
     NetworkConfigArgs.prefix := nullish (prefix o) (NetworkConfigArgs.prefix base);
     NetworkConfigArgs.cidr := orElse (cidr o) (NetworkConfigArgs.cidr base);
     NetworkConfigArgs.podCidr := orElse (podCidr o) (NetworkConfigArgs.podCidr base);
     NetworkConfigArgs.serviceCidr :=
       orElse (serviceCidr o) (NetworkConfigArgs.serviceCidr base);
     NetworkConfigArgs.podRangeName :=
       orElse (podRangeName o) (NetworkConfigArgs.podRangeName base);
     NetworkConfigArgs.serviceRangeName :=
       orElse (serviceRangeName o) (NetworkConfigArgs.serviceRangeName base) |}.

End NetworkOverrides.

Module ClusterOverrides.

Record t := {
  projectId : option string;
  region : option string;
  env : option string;
  prefix : option string;
  zone : option string;
  machineType : option string;
  nodeCount : option Z;
  minNodes : option Z;
  maxNodes : option Z;
  diskSize : option Z;
  spotInstances : option bool;
  masterCidr : option string;
  podRangeName : option string;
  serviceRangeName : option string
}.

(** [{}] *)
Definition empty : t :=
  {| projectId := None; region := None; env := None; prefix := None;
     zone := None; machineType := None; nodeCount := None; minNodes := None;
     maxNodes := None; diskSize := None; spotInstances := None;
     masterCidr := None; podRangeName := None; serviceRangeName := None |}.

(** [{ ...base, ...o }] *)
Definition over (base : ClusterConfigArgs.t) (o : t) : ClusterConfigArgs.t :=
  {| ClusterConfigArgs.projectId :=
       nullish (projectId o) (ClusterConfigArgs.projectId base);
     ClusterConfigArgs.region := nullish (region o) (ClusterConfigArgs.region base);
     ClusterConfigArgs.env := nullish (env o) (ClusterConfigArgs.env base);
     ClusterConfigArgs.prefix := nullish (prefix o) (ClusterConfigArgs.prefix base);
     ClusterConfigArgs.zone := orElse (zone o) (ClusterConfigArgs.zone base);
     ClusterConfigArgs.machineType :=
       orElse (machineType o) (ClusterConfigArgs.machineType base);
     ClusterConfigArgs.nodeCount :=
       orElse (nodeCount o) (ClusterConfigArgs.nodeCount base);
     ClusterConfigArgs.minNodes := orElse (minNodes o) (ClusterConfigArgs.minNodes base);
     ClusterConfigArgs.maxNodes := orElse (maxNodes o) (ClusterConfigArgs.maxNodes base);
     ClusterConfigArgs.diskSize := orElse (diskSize o) (ClusterConfigArgs.diskSize base);
     ClusterConfigArgs.spotInstances :=
       orElse (spotInstances o) (ClusterConfigArgs.spotInstances base);
     ClusterConfigArgs.masterCidr :=
       orElse (masterCidr o) (ClusterConfigArgs.masterCidr base);
     ClusterConfigArgs.podRangeName :=
       orElse (podRangeName o) (ClusterConfigArgs.podRangeName base);
     ClusterConfigArgs.serviceRangeName :=
       orElse (serviceRangeName o) (ClusterConfigArgs.serviceRangeName base) |}.

(** [{ podRangeName: pod, serviceRangeName: svc, ...o }] *)
Definition withRanges (pod svc : string) (o : t) : t :=
  {| projectId := projectId o; region := region o; env := env o;
     prefix := prefix o; zone := zone o; machineType := machineType o;
     nodeCount := nodeCount o; minNodes := minNodes o; maxNodes := maxNodes o;
     diskSize := diskSize o; spotInstances := spotInstances o;
     masterCidr := masterCidr o;
     podRangeName := orElse (podRangeName o) (Some pod);
     serviceRangeName := orElse (serviceRangeName o) (Some svc) |}.

End ClusterOverrides.

(* ================================================================= *)
(** ** src/profiles: base.ts, dev.ts, staging.ts, prod.ts *)

Module Profile.

(** The three subclasses of [PlatformProfile]. *)
Inductive Kind := DevProfile | StagingProfile | ProdProfile.

Record PlatformProfile := {
  kind : Kind;
  projectId : string;
  region : string;
  env : string;
  prefix : string
}.

Definition commonLabels (p : PlatformProfile) : Dict.t string :=
  [("environment", env p); ("managed-by", "pulumi"); ("project", projectId p)].

(** [PlatformProfile.getNetworkConfig(overrides?)] *)
Definition getNetworkConfig (p : PlatformProfile)
    (overrides : option NetworkOverrides.t) : Result NetworkConfig.t :=
  NetworkConfig.new
    (NetworkOverrides.over
       {| NetworkConfigArgs.projectId := projectId p;
          NetworkConfigArgs.region := region p;
          NetworkConfigArgs.env := env p;
          NetworkConfigArgs.prefix := prefix p;
          NetworkConfigArgs.cidr := None;
          NetworkConfigArgs.podCidr := None;
          NetworkConfigArgs.serviceCidr := None;
          NetworkConfigArgs.podRangeName := None;
          NetworkConfigArgs.serviceRangeName := None |}
       (nullish overrides NetworkOverrides.empty)).

(** The object literal of a [getClusterConfig], before [...overrides]. *)
Definition literal (p : PlatformProfile) (machineType : string)
    (nodeCount minNodes maxNodes : Z) (spotInstances : bool) (diskSize : Z)
    : ClusterConfigArgs.t :=
  {| ClusterConfigArgs.projectId := projectId p;
     ClusterConfigArgs.region := region p;
     ClusterConfigArgs.env := env p;
     ClusterConfigArgs.prefix := prefix p;
     ClusterConfigArgs.zone := None;
     ClusterConfigArgs.machineType := Some machineType;
     ClusterConfigArgs.nodeCount := Some nodeCount;
     ClusterConfigArgs.minNodes := Some minNodes;
     ClusterConfigArgs.maxNodes := Some maxNodes;
     ClusterConfigArgs.diskSize := Some diskSize;
     ClusterConfigArgs.spotInstances := Some spotInstances;
     ClusterConfigArgs.masterCidr := None;
     ClusterConfigArgs.podRangeName := None;
     ClusterConfigArgs.serviceRangeName := None |}.

(** [DevProfile.getClusterConfig(overrides?)] *)
Definition DevProfile_getClusterConfig (p : PlatformProfile)
    (overrides : option ClusterOverrides.t) : Result ClusterConfig.t :=
  ClusterConfig.new
    (ClusterOverrides.over (literal p "e2-medium" 1 1 3 true 50)
       (nullish overrides ClusterOverrides.empty)).

(** [StagingProfile.getClusterConfig(overrides?)] *)
Definition StagingProfile_getClusterConfig (p : PlatformProfile)
    (overrides : option ClusterOverrides.t) : Result ClusterConfig.t :=
  ClusterConfig.new
    (ClusterOverrides.over (literal p "n2-standard-2" 2 2 5 true 75)
       (nullish overrides ClusterOverrides.empty)).

(** [ProdProfile.getClusterConfig(overrides?)] *)
Definition ProdProfile_getClusterConfig (p : PlatformProfile)
    (overrides : option ClusterOverrides.t) : Result ClusterConfig.t :=
  ClusterConfig.new
    (ClusterOverrides.over (literal p "n2-standard-4" 3 3 10 false 100)
       (nullish overrides ClusterOverrides.empty)).

(** Dynamic dispatch of the abstract [getClusterConfig]. *)
Definition getClusterConfig (p : PlatformProfile)
    (overrides : option ClusterOverrides.t) : Result ClusterConfig.t :=
  match kind p with
  | DevProfile => DevProfile_getClusterConfig p overrides
  | StagingProfile => StagingProfile_getClusterConfig p overrides
  | ProdProfile => ProdProfile_getClusterConfig p overrides
  end.

End Profile.

(* ================================================================= *)
(** ** Resource descriptors

    What the components hand to the provisioning engine: the logical name
    of each resource and its inputs. A value the engine only knows after
    deployment is a reference to the property of a declared resource. *)

Module Gcp.

(** [resource.property] as a [pulumi.Output]. *)
Inductive Output :=
  | Ref (resource property : string)
  | Interpolate (before : string) (o : Output).   (* pulumi.interpolate *)

Record Network := {
  network_logicalName : string;
  network_name : string;
  network_autoCreateSubnetworks : bool;
  network_description : string
}.

Record SecondaryRange := { rangeName : string; ipCidrRange : string }.

Record Subnetwork := {
  subnet_logicalName : string;
  subnet_name : string;
  subnet_region : string;
  subnet_network : Output;
  subnet_ipCidrRange : string;
  subnet_privateIpGoogleAccess : bool;
  subnet_secondaryIpRanges : list SecondaryRange
}.

Record Router := {
  router_logicalName : string;
  router_name : string;
  router_region : string;
  router_network : Output
}.

Record RouterNat := {
  nat_logicalName : string;
  nat_name : string;
  nat_router : Output;
  nat_region : string;
  nat_natIpAllocateOption : string;
  nat_sourceSubnetworkIpRangesToNat : string
}.

Record Cluster := {
  cluster_logicalName : string;
  cluster_name : string;
  cluster_location : string;
  cluster_network : Output;
  cluster_subnetwork : Output;
  cluster_removeDefaultNodePool : bool;
  cluster_initialNodeCount : Z;
  cluster_deletionProtection : bool;
  cluster_resourceLabels : Dict.t string;
  cluster_clusterSecondaryRangeName : string;
  cluster_servicesSecondaryRangeName : string;
  cluster_enablePrivateNodes : bool;
  cluster_enablePrivateEndpoint : bool;
  cluster_masterIpv4CidrBlock : string;
  cluster_workloadPool : string
}.

Record NodePool := {
  pool_logicalName : string;
  pool_name : string;
  pool_location : string;
  pool_cluster : Output;
  pool_initialNodeCount : Z;
  pool_minNodeCount : Z;
  pool_maxNodeCount : Z;
  pool_locationPolicy : string;
  pool_machineType : string;
  pool_diskSizeGb : Z;
  pool_diskType : string;
  pool_spot : bool;
  pool_labels : Dict.t string;
  pool_tags : list string;
  pool_oauthScopes : list string
}.

Record Secret := {
  secret_logicalName : string;
  secret_secretId : string
}.

Record Account := {
  account_logicalName : string;
  account_accountId : string;
  account_displayName : string
}.

Record IAMMember := {
  member_logicalName : string;
  member_project : string;
  member_role : string;
  member_member : Output
}.

Record IAMBinding := {
  binding_logicalName : string;
  binding_serviceAccountId : Output;
  binding_role : string;
  binding_members : list string
}.

End Gcp.

(* ================================================================= *)
(** ** src/components/networking.ts *)

Module StandardVPC.

Record t := {
  network : Gcp.Network;
  subnet : Gcp.Subnetwork;
  router : Gcp.Router;
  nat : Gcp.RouterNat
}.

(** [new StandardVPC(name, { config })] *)
Definition new (name : string) (config : NetworkConfig.t) : t :=
  let network' :=
    {| Gcp.network_logicalName := name ++ "-vpc";
       Gcp.network_name := NetworkConfig.vpcName config;
       Gcp.network_autoCreateSubnetworks := false;
       Gcp.network_description :=
         "Standard VPC for " ++ NetworkConfig.prefix config ++ "-"
           ++ NetworkConfig.env config |} in
  let networkId := Gcp.Ref (Gcp.network_logicalName network') "id" in
  let router' :=
    {| Gcp.router_logicalName := name ++ "-router";
       Gcp.router_name := NetworkConfig.vpcName config ++ "-router";
       Gcp.router_region := NetworkConfig.region config;
       Gcp.router_network := networkId |} in
  {| network := network';
     subnet :=
       {| Gcp.subnet_logicalName := name ++ "-subnet";
          Gcp.subnet_name := NetworkConfig.subnetName config;
          Gcp.subnet_region := NetworkConfig.region config;
          Gcp.subnet_network := networkId;
          Gcp.subnet_ipCidrRange := NetworkConfig.cidr config;
          Gcp.subnet_privateIpGoogleAccess := true;
          Gcp.subnet_secondaryIpRanges :=
            [ {| Gcp.rangeName := NetworkConfig.podRangeName config;
                 Gcp.ipCidrRange := NetworkConfig.podCidr config |};
              {| Gcp.rangeName := NetworkConfig.serviceRangeName config;
                 Gcp.ipCidrRange := NetworkConfig.serviceCidr config |} ] |};
     router := router';
     nat :=
       {| Gcp.nat_logicalName := name ++ "-nat";
          Gcp.nat_name := NetworkConfig.vpcName config ++ "-nat";
          Gcp.nat_router := Gcp.Ref (Gcp.router_logicalName router') "name";
          Gcp.nat_region := NetworkConfig.region config;
          Gcp.nat_natIpAllocateOption := "AUTO_ONLY";
          Gcp.nat_sourceSubnetworkIpRangesToNat :=
            "ALL_SUBNETWORKS_ALL_IP_RANGES" |} |}.

Definition networkId (v : t) : Gcp.Output :=
  Gcp.Ref (Gcp.network_logicalName (network v)) "id".

Definition subnetId (v : t) : Gcp.Output :=
  Gcp.Ref (Gcp.subnet_logicalName (subnet v)) "id".

End StandardVPC.

(* ================================================================= *)
(** ** src/components/gke.ts *)

Module StandardCluster.

Record Args := {
  config : ClusterConfig.t;
  networkId : Gcp.Output;
  subnetId : Gcp.Output;
  labels : option (Dict.t string)
}.

Record t := {
  cluster : Gcp.Cluster;
  nodePool : Gcp.NodePool
}.

(** [new StandardCluster(name, args)] *)
Definition new (name : string) (args : Args) : t :=
  let config' := config args in
  let resourceLabels :=
    Dict.spread
      [("environment", ClusterConfig.env config'); ("managed-by", "pulumi")]
      (nullish (labels args) []) in
  let cluster' :=
    {| Gcp.cluster_logicalName := name ++ "-cluster";
       Gcp.cluster_name := ClusterConfig.clusterName config';
       Gcp.cluster_location := ClusterConfig.effectiveZone config';
       Gcp.cluster_network := networkId args;
       Gcp.cluster_subnetwork := subnetId args;
       Gcp.cluster_removeDefaultNodePool := true;
       Gcp.cluster_initialNodeCount := 1;
       Gcp.cluster_deletionProtection :=
         String.eqb (ClusterConfig.env config') "prod";
       Gcp.cluster_resourceLabels := resourceLabels;
       Gcp.cluster_clusterSecondaryRangeName := ClusterConfig.podRangeName config';
       Gcp.cluster_servicesSecondaryRangeName :=
         ClusterConfig.serviceRangeName config';
       Gcp.cluster_enablePrivateNodes := true;
       Gcp.cluster_enablePrivateEndpoint := false;
       Gcp.cluster_masterIpv4CidrBlock := ClusterConfig.masterCidr config';
       Gcp.cluster_workloadPool := ClusterConfig.workloadPool config' |} in
  {| cluster := cluster';
     nodePool :=
       {| Gcp.pool_logicalName := name ++ "-pool";
          Gcp.pool_name := ClusterConfig.clusterName config' ++ "-pool";
          Gcp.pool_location := ClusterConfig.effectiveZone config';
          Gcp.pool_cluster := Gcp.Ref (Gcp.cluster_logicalName cluster') "name";
          Gcp.pool_initialNodeCount := ClusterConfig.nodeCount config';
          Gcp.pool_minNodeCount := ClusterConfig.minNodes config';
          Gcp.pool_maxNodeCount := ClusterConfig.maxNodes config';
          Gcp.pool_locationPolicy := "ANY";
          Gcp.pool_machineType := ClusterConfig.machineType config';
          Gcp.pool_diskSizeGb := ClusterConfig.diskSize config';
          Gcp.pool_diskType := "pd-standard";
          Gcp.pool_spot := ClusterConfig.spotInstances config';
          Gcp.pool_labels := resourceLabels;
          Gcp.pool_tags :=
            ["gke-node"; ClusterConfig.clusterName config' ++ "-gke"];
          Gcp.pool_oauthScopes :=
            ["https://www.googleapis.com/auth/cloud-platform"] |} |}.

End StandardCluster.

(* ================================================================= *)
(** ** src/components/security.ts *)

Module StandardSecrets.

Record t := {
  secretIds : list string;
  secrets : Dict.t Gcp.Secret
}.

(** The [for (const secretId of secretIds)] loop, on the map built so
    far. *)
Fixpoint declare (name : string) (ids : list string)
    (secrets : Dict.t Gcp.Secret) : Result (Dict.t Gcp.Secret) :=
  match ids with
  | [] => Ok secrets
  | secretId :: rest =>
      throwIf (Str.falsy secretId || Str.falsy (Str.trim secretId))
              BlankSecretId ;;;
      let secret :=
        {| Gcp.secret_logicalName := name ++ "-" ++ secretId;
           Gcp.secret_secretId := secretId |} in
      declare name rest (Dict.set secretId secret secrets)
  end.

(** [new StandardSecrets(name, { secretIds })] *)
Definition new (name : string) (secretIds : list string) : Result t :=
  throwIf (Nat.eqb (List.length secretIds) 0) EmptySecretList ;;;
  secrets' <- declare name secretIds [] ;;
  Ok {| secretIds := secretIds; secrets := secrets' |}.

(** [getSecret(secretId)] *)
Definition getSecret (s : t) (secretId : string) : Result Gcp.Secret :=
  match Dict.get secretId (secrets s) with
  | Some secret => Ok secret
  | None => Err (SecretNotFound secretId (Dict.keys (secrets s)))
  end.

End StandardSecrets.

Module StandardIdentity.

Record Args := {
  projectId : string;
  saId : string;
  k8sNamespace : string;
  k8sSaName : string;
  roles : option (list string)
}.

Record t := {
  gsa : Gcp.Account;
  roleBindings : list Gcp.IAMMember;
  workloadIdentityBinding : Gcp.IAMBinding
}.

(** [`${i}`] for an array index. *)
Definition indexString (i : nat) : string :=
  NilZero.string_of_uint (Nat.to_uint i).

(** The [for (let i = 0; i < roles.length; i++)] loop, from index [i]. *)
Fixpoint bindRoles (name projectId : string) (email : Gcp.Output) (i : nat)
    (roles : list string) : list Gcp.IAMMember :=
  match roles with
  | [] => []
  | role :: rest =>
      {| Gcp.member_logicalName := name ++ "-role-" ++ indexString i;
         Gcp.member_project := projectId;
         Gcp.member_role := role;
         Gcp.member_member := Gcp.Interpolate "serviceAccount:" email |}
      :: bindRoles name projectId email (S i) rest
  end.

(** [new StandardIdentity(name, args)] *)
Definition new (name : string) (args : Args) : Result t :=
  let roles' := nullish (roles args) [] in
  throwIf (Str.falsy (projectId args)) BlankProjectId ;;;
  throwIf (Str.falsy (saId args)
           || (String.length (saId args) <? 6)%nat
           || (30 <? String.length (saId args))%nat)
          InvalidServiceAccountIdLength ;;;
  throwIf (Str.falsy (k8sNamespace args)) BlankNamespace ;;;
  throwIf (Str.falsy (k8sSaName args)) BlankServiceAccountName ;;;
  let gsa' :=
    {| Gcp.account_logicalName := name ++ "-sa";
       Gcp.account_accountId := saId args;
       Gcp.account_displayName := "Workload Identity SA for " ++ saId args |} in
  Ok {| gsa := gsa';
        roleBindings :=
          bindRoles name (projectId args)
            (Gcp.Ref (Gcp.account_logicalName gsa') "email") 0 roles';
        workloadIdentityBinding :=
          {| Gcp.binding_logicalName := name ++ "-wi-binding";
             Gcp.binding_serviceAccountId :=
               Gcp.Ref (Gcp.account_logicalName gsa') "name";
             Gcp.binding_role := "roles/iam.workloadIdentityUser";
             Gcp.binding_members :=
               ["serviceAccount:" ++ projectId args ++ ".svc.id.goog["
                  ++ k8sNamespace args ++ "/" ++ k8sSaName args ++ "]"] |} |}.

Definition email (i : t) : Gcp.Output :=
  Gcp.Ref (Gcp.account_logicalName (gsa i)) "email".

End StandardIdentity.

(* ================================================================= *)
(** ** src/composites/platform.ts *)

Module WorkloadIdentityConfig.

Record t := {
  saId : string;
  k8sNamespace : string;
  k8sSaName : string;
  roles : option (list string)
}.

End WorkloadIdentityConfig.

Module StandardPlatformArgs.

Record t := {
  projectId : string;
  region : string;
  env : string;
  prefix : string;
  secretIds : option (list string);
  workloadIdentity : option WorkloadIdentityConfig.t;
  clusterOverrides : option ClusterOverrides.t;
  labels : option (Dict.t string)
}.

(** [{ ...args, secretIds: ids }] *)
Definition withSecretIds (ids : option (list string)) (a : t) : t :=
  {| projectId := projectId a; region := region a; env := env a;
     prefix := prefix a; secretIds := ids;
     workloadIdentity := workloadIdentity a;
     clusterOverrides := clusterOverrides a; labels := labels a |}.

(** [{ ...args, workloadIdentity: wi }] *)
Definition withWorkloadIdentity (wi : option WorkloadIdentityConfig.t)
    (a : t) : t :=
  {| projectId := projectId a; region := region a; env := env a;
     prefix := prefix a; secretIds := secretIds a;
     workloadIdentity := wi;
     clusterOverrides := clusterOverrides a; labels := labels a |}.

End StandardPlatformArgs.

Module StandardPlatform.

Record t := {
  vpc : StandardVPC.t;
  cluster : StandardCluster.t;
  _secrets : option StandardSecrets.t;
  _identity : option StandardIdentity.t;
  projectId : string;
  region : string;
  env : string;
  prefix : string
}.

(** Step 1 of the constructor: the profile for an environment. *)
Definition selectProfile (projectId region env prefix : string)
    : Profile.PlatformProfile :=
  let make kind :=
    {| Profile.kind := kind; Profile.projectId := projectId;
       Profile.region := region; Profile.env := env;
       Profile.prefix := prefix |} in
  if String.eqb env "prod" then make Profile.ProdProfile
  else if String.eqb env "staging" then make Profile.StagingProfile
  else make Profile.DevProfile.

(** Step 3 of the constructor: the cluster configuration the cluster
    component is declared with. *)
Definition clusterConfigOf (profile : Profile.PlatformProfile)
    (networkConfig : NetworkConfig.t)
    (clusterOverrides : option ClusterOverrides.t) : Result ClusterConfig.t :=
  Profile.getClusterConfig profile
    (Some (ClusterOverrides.withRanges
             (NetworkConfig.podRangeName networkConfig)
             (NetworkConfig.serviceRangeName networkConfig)
             (nullish clusterOverrides ClusterOverrides.empty))).

(** Step 4 of the constructor. *)
Definition declareSecrets (name : string) (secretIds : option (list string))
    : Result (option StandardSecrets.t) :=
  match secretIds with
  | Some ids =>
      if (0 <? List.length ids)%nat then
        s <- StandardSecrets.new (name ++ "-secrets") ids ;;
        Ok (Some s)
      else Ok None
  | None => Ok None
  end.

(** Step 5 of the constructor. *)
Definition declareIdentity (name projectId : string)
    (workloadIdentity : option WorkloadIdentityConfig.t)
    : Result (option StandardIdentity.t) :=
  match workloadIdentity with
  | Some wi =>
      let saId := WorkloadIdentityConfig.saId wi in
      let k8sNamespace := WorkloadIdentityConfig.k8sNamespace wi in
      let k8sSaName := WorkloadIdentityConfig.k8sSaName wi in
      let roles := nullish (WorkloadIdentityConfig.roles wi) [] in
      throwIf (Str.falsy saId || Str.falsy k8sNamespace || Str.falsy k8sSaName)
              IncompleteIdentityConfig ;;;
      i <- StandardIdentity.new (name ++ "-identity")
             {| StandardIdentity.projectId := projectId;
                StandardIdentity.saId := saId;
                StandardIdentity.k8sNamespace := k8sNamespace;
                StandardIdentity.k8sSaName := k8sSaName;
                StandardIdentity.roles := Some roles |} ;;
      Ok (Some i)
  | None => Ok None
  end.

(** [new StandardPlatform(name, args)] *)
Definition new (name : string) (args : StandardPlatformArgs.t) : Result t :=
  let projectId' := StandardPlatformArgs.projectId args in
  let region' := StandardPlatformArgs.region args in
  let env' := StandardPlatformArgs.env args in
  let prefix' := StandardPlatformArgs.prefix args in
  let profile := selectProfile projectId' region' env' prefix' in
  networkConfig <- Profile.getNetworkConfig profile None ;;
  let vpc' := StandardVPC.new (name ++ "-networking") networkConfig in
  clusterConfig <-
    clusterConfigOf profile networkConfig
      (StandardPlatformArgs.clusterOverrides args) ;;
  let cluster' :=
    StandardCluster.new (name ++ "-compute")
      {| StandardCluster.config := clusterConfig;
         StandardCluster.networkId := StandardVPC.networkId vpc';
         StandardCluster.subnetId := StandardVPC.subnetId vpc';
         StandardCluster.labels :=
           Some (nullish (StandardPlatformArgs.labels args) []) |} in
  secrets' <- declareSecrets name (StandardPlatformArgs.secretIds args) ;;
  identity' <-
    declareIdentity name projectId' (StandardPlatformArgs.workloadIdentity args) ;;
  Ok {| vpc := vpc'; cluster := cluster';
        _secrets := secrets'; _identity := identity';
        projectId := projectId'; region := region'; env := env';
        prefix := prefix' |}.

Definition hasSecrets (p : t) : bool :=
  match _secrets p with Some _ => true | None => false end.

Definition hasIdentity (p : t) : bool :=
  match _identity p with Some _ => true | None => false end.

Definition secrets (p : t) : Result StandardSecrets.t :=
  match _secrets p with
  | Some s => Ok s
  | None => Err SecretsNotConfigured
  end.

Definition identity (p : t) : Result StandardIdentity.t :=
  match _identity p with
  | Some i => Ok i
  | None => Err IdentityNotConfigured
  end.

Definition identityEmail (p : t) : Result Gcp.Output :=
  i <- identity p ;; Ok (StandardIdentity.email i).

End StandardPlatform.

(* ================================================================= *)
(** ** examples/basic/index.ts

    The example program, as a function of the three configuration values
    it reads: the required [gcp:project] and the optional [gcp:region] and
    [env]. *)

Module BasicExample.

(** [v || d] on an optional string: [undefined] and the empty string both
    give [d]. *)
Definition orDefault (v : option string) (d : string) : string :=
  match v with
  | Some s => if Str.falsy s then d else s
  | None => d
  end.

(** [{ maxNodes: 5 }] *)
Definition clusterOverrides : ClusterOverrides.t :=
  {| ClusterOverrides.projectId := None; ClusterOverrides.region := None;
     ClusterOverrides.env := None; ClusterOverrides.prefix := None;
     ClusterOverrides.zone := None; ClusterOverrides.machineType := None;
     ClusterOverrides.nodeCount := None; ClusterOverrides.minNodes := None;
     ClusterOverrides.maxNodes := Some 5; ClusterOverrides.diskSize := None;
     ClusterOverrides.spotInstances := None;
     ClusterOverrides.masterCidr := None;
     ClusterOverrides.podRangeName := None;
     ClusterOverrides.serviceRangeName := None |}.

Definition args (project : string) (regionConfig envConfig : option string)
    : StandardPlatformArgs.t :=
  {| StandardPlatformArgs.projectId := project;
     StandardPlatformArgs.region := orDefault regionConfig "europe-west1";
     StandardPlatformArgs.env := orDefault envConfig "dev";
     StandardPlatformArgs.prefix := "myapp";
     StandardPlatformArgs.secretIds := Some ["db-password"; "api-key"];
     StandardPlatformArgs.workloadIdentity :=
       Some {| WorkloadIdentityConfig.saId := "myapp-workload-sa";
               WorkloadIdentityConfig.k8sNamespace := "default";
               WorkloadIdentityConfig.k8sSaName := "myapp-sa";
               WorkloadIdentityConfig.roles :=
                 Some ["roles/secretmanager.secretAccessor"] |};
     StandardPlatformArgs.clusterOverrides := Some clusterOverrides;
     StandardPlatformArgs.labels :=
       Some [("team", "platform"); ("cost-center", "engineering")] |}.

(** [const platform = new StandardPlatform('myapp', {...})] *)
Definition platform (project : string) (regionConfig envConfig : option string)
    : Result StandardPlatform.t :=
  StandardPlatform.new "myapp" (args project regionConfig envConfig).

(** [platform.hasSecrets ? platform.secrets.secretIds : []] *)
Definition secretIds (p : StandardPlatform.t) : Result (list string) :=
  if StandardPlatform.hasSecrets p then
    s <- StandardPlatform.secrets p ;; Ok (StandardSecrets.secretIds s)
  else Ok [].

End BasicExample.

(* ================================================================= *)
(** ** Values as they are at run time

    The embedding above follows the declared types as they are meant: a
    [number] holds an integer, and an object of overrides holds a value for
    every property it has. The type checker accepts more. A [number] is a
    double: it can be a fraction, an infinity or [NaN]. And under
    [Partial<T>] a property can be present with the value [undefined], a
    required property of [T] included; the spread [{ ...base, ...o }] then
    copies that [undefined] over the property of [base].

    [Runtime] embeds the validators of numbers, the two configuration
    classes and the profiles once more, over such values. On integers and
    on overrides whose properties carry values the two embeddings agree
    ([ClusterConfig_new_refines], [getClusterConfig_refines],
    [getNetworkConfig_refines] below). *)

Module Runtime.

(** A double. A finite double is a rational number; [-0] compares and
    prints like [0]. *)
Inductive number :=
  | Finite (q : Q)
  | PosInfinity
  | NegInfinity
  | NaN.

Definition ofZ (z : Z) : number := Finite (inject_Z z).

(** [a < b]: false whenever one side is [NaN]. *)
Definition ltb (a b : number) : bool :=
  match a, b with
  | NaN, _ | _, NaN => false
  | _, NegInfinity => false
  | NegInfinity, _ => true
  | PosInfinity, _ => false
  | Finite _, PosInfinity => true
  | Finite x, Finite y => negb (Qle_bool y x)
  end.

(** [a > b] *)
Definition gtb (a b : number) : bool := ltb b a.

(** What is thrown: an [Error] of the first embedding when the message
    interpolates strings only, and the two errors whose message interpolates
    a [number], with the numbers as they are. *)
Inductive Thrown :=
  | Raised (e : Error)
  | OutOfRangeOf (b : Bound) (value : number)
      (* `maxNodes must be between 1 and 50 (got ${maxNodes})` and siblings *)
  | MinExceedsMaxOf (minNodes maxNodes : number).
      (* `minNodes (${minNodes}) cannot be greater than maxNodes (${maxNodes})` *)

Inductive Outcome (A : Type) : Type :=
  | Returned (a : A)
  | Threw (t : Thrown).

Arguments Returned {A} a.
Arguments Threw {A} t.

Definition andThen {A B : Type} (r : Outcome A) (k : A -> Outcome B)
    : Outcome B :=
  match r with
  | Returned a => k a
  | Threw t => Threw t
  end.

(** [if (c) throw t]. *)
Definition throwIf (c : bool) (t : Thrown) : Outcome unit :=
  if c then Threw t else Returned tt.

(** A call of a function of the first embedding. *)
Definition lift {A : Type} (r : Result A) : Outcome A :=
  match r with
  | Ok a => Returned a
  | Err e => Threw (Raised e)
  end.

(** [l.includes(v)] for a [v] that may be [undefined]. *)
Definition includes (l : list string) (v : option string) : bool :=
  match v with
  | Some s => Constraints.includes l s
  | None => false
  end.

(** [`${v}`] for a [v] that may be [undefined]. *)
Definition interpolate (v : option string) : string :=
  match v with
  | Some s => s
  | None => "undefined"
  end.

Definition validateEnvironment (env : option string) : Outcome unit :=
  throwIf (negb (includes Constraints.ALLOWED_ENVIRONMENTS env))
          (Raised (InvalidEnvironment (interpolate env))).

Definition validateRegion (region : option string) : Outcome unit :=
  throwIf (negb (includes Constraints.ALLOWED_REGIONS region))
          (Raised (InvalidRegion (interpolate region))).

Definition validateMaxNodes (n : number) : Outcome unit :=
  let range := Constraints.maxNodes Constraints.CONSTRAINTS in
  throwIf (ltb n (ofZ (Constraints.min range))
           || gtb n (ofZ (Constraints.max range)))
          (OutOfRangeOf maxNodesBound n).

Definition validateDiskSize (n : number) : Outcome unit :=
  let range := Constraints.diskSize Constraints.CONSTRAINTS in
  throwIf (ltb n (ofZ (Constraints.min range))
           || gtb n (ofZ (Constraints.max range)))
          (OutOfRangeOf diskSizeBound n).

Definition validateNodeCount (n : number) : Outcome unit :=
  let range := Constraints.nodeCount Constraints.CONSTRAINTS in
  throwIf (ltb n (ofZ (Constraints.min range))
           || gtb n (ofZ (Constraints.max range)))
          (OutOfRangeOf nodeCountBound n).

(** The object a constructor receives, as its property reads see it:
    [None] is what reading a property gives when the object does not have it
    or has it with the value [undefined]. *)
Module NetworkConfigArgs.

Record t := {
  projectId : option string;
  region : option string;
  env : option string;
  prefix : option string;
  cidr : option string;
  podCidr : option string;
  serviceCidr : option string;
  podRangeName : option string;
  serviceRangeName : option string
}.

End NetworkConfigArgs.

Module NetworkConfig.

Record t := {
  projectId : option string;
  region : option string;
  env : option string;
  prefix : option string;
  cidr : string;
  podCidr : string;
  serviceCidr : string;
  podRangeName : string;
  serviceRangeName : string
}.

(** [new NetworkConfig(args)] *)
Definition new (args : NetworkConfigArgs.t) : Outcome t :=
  andThen (validateEnvironment (NetworkConfigArgs.env args)) (fun _ =>
  andThen (validateRegion (NetworkConfigArgs.region args)) (fun _ =>
  Returned
    {| projectId := NetworkConfigArgs.projectId args;
       region := NetworkConfigArgs.region args;
       env := NetworkConfigArgs.env args;
       prefix := NetworkConfigArgs.prefix args;
       cidr := nullish (NetworkConfigArgs.cidr args) "10.0.0.0/16";
       podCidr := nullish (NetworkConfigArgs.podCidr args) "10.11.0.0/21";
       serviceCidr := nullish (NetworkConfigArgs.serviceCidr args) "10.12.0.0/21";
       podRangeName := nullish (NetworkConfigArgs.podRangeName args) "pod-ranges";
       serviceRangeName :=
         nullish (NetworkConfigArgs.serviceRangeName args) "service-ranges" |})).

End NetworkConfig.

Module ClusterConfigArgs.

Record t := {
  projectId : option string;
  region : option string;
  env : option string;
  prefix : option string;
  zone : option string;
  machineType : option string;
  nodeCount : option number;
  minNodes : option number;
  maxNodes : option number;
  diskSize : option number;
  spotInstances : option bool;
  masterCidr : option string;
  podRangeName : option string;
  serviceRangeName : option string
}.

End ClusterConfigArgs.

Module ClusterConfig.

Record t := {
  projectId : option string;
  region : option string;
  env : option string;
  prefix : option string;
  zone : string;
  machineType : string;
  nodeCount : number;
  minNodes : number;
  maxNodes : number;
  diskSize : number;
  spotInstances : bool;
  masterCidr : string;
  podRangeName : string;
  serviceRangeName : string
}.

(** [new ClusterConfig(args)] *)
Definition new (args : ClusterConfigArgs.t) : Outcome t :=
  andThen (validateEnvironment (ClusterConfigArgs.env args)) (fun _ =>
  andThen (validateRegion (ClusterConfigArgs.region args)) (fun _ =>
  let machineType' := nullish (ClusterConfigArgs.machineType args) "e2-medium" in
  andThen (lift (Constraints.validateMachineType machineType')) (fun _ =>
  let maxNodes' := nullish (ClusterConfigArgs.maxNodes args) (ofZ 3) in
  andThen (validateMaxNodes maxNodes') (fun _ =>
  let diskSize' := nullish (ClusterConfigArgs.diskSize args) (ofZ 50) in
  andThen (validateDiskSize diskSize') (fun _ =>
  let nodeCount' := nullish (ClusterConfigArgs.nodeCount args) (ofZ 1) in
  andThen (validateNodeCount nodeCount') (fun _ =>
  let minNodes' := nullish (ClusterConfigArgs.minNodes args) (ofZ 1) in
  andThen (throwIf (gtb minNodes' maxNodes')
                   (MinExceedsMaxOf minNodes' maxNodes')) (fun _ =>
  let zone' :=
    nullish (ClusterConfigArgs.zone args)
            (interpolate (ClusterConfigArgs.region args) ++ "-a") in
  let masterCidr' := nullish (ClusterConfigArgs.masterCidr args) "172.16.0.0/28" in
  andThen (lift (Constraints.validateMasterCidr masterCidr')) (fun _ =>
  Returned
    {| projectId := ClusterConfigArgs.projectId args;
       region := ClusterConfigArgs.region args;
       env := ClusterConfigArgs.env args;
       prefix := ClusterConfigArgs.prefix args;
       zone := zone';
       machineType := machineType';
       nodeCount := nodeCount';
       minNodes := minNodes';
       maxNodes := maxNodes';
       diskSize := diskSize';
       spotInstances := nullish (ClusterConfigArgs.spotInstances args) true;
       masterCidr := masterCidr';
       podRangeName := nullish (ClusterConfigArgs.podRangeName args) "pod-ranges";
       serviceRangeName :=
         nullish (ClusterConfigArgs.serviceRangeName args) "service-ranges"
    |})))))))).

End ClusterConfig.

(** A property of an object of overrides: [None] when the object does not
    have the property, [Some None] when it has it with the value
    [undefined], [Some (Some v)] when it has it with the value [v]. *)
Definition Property (A : Type) : Type := option (option A).

(** The property of [{ p: base, ...o }], as read: the one of [o] when [o]
    has it, whatever it holds, else [base]. *)
Definition spread {A : Type} (base : option A) (o : Property A) : option A :=
  match o with
  | Some v => v
  | None => base
  end.

Module NetworkOverrides.

Record t := {
  projectId : Property string;
  region : Property string;
  env : Property string;
  prefix : Property string;
  cidr : Property string;
  podCidr : Property string;
  serviceCidr : Property string;
  podRangeName : Property string;
  serviceRangeName : Property string
}.

(** [{}] *)
Definition empty : t :=
  {| projectId := None; region := None; env := None; prefix := None;
     cidr := None; podCidr := None; serviceCidr := None;
     podRangeName := None; serviceRangeName := None |}.

(** [{ ...base, ...o }] *)
Definition over (base : NetworkConfigArgs.t) (o : t) : NetworkConfigArgs.t :=
  {| NetworkConfigArgs.projectId :=
       spread (NetworkConfigArgs.projectId base) (projectId o);
     NetworkConfigArgs.region := spread (NetworkConfigArgs.region base) (region o);
     NetworkConfigArgs.env := spread (NetworkConfigArgs.env base) (env o);
     NetworkConfigArgs.prefix := spread (NetworkConfigArgs.prefix base) (prefix o);
     NetworkConfigArgs.cidr := spread (NetworkConfigArgs.cidr base) (cidr o);
     NetworkConfigArgs.podCidr :=
       spread (NetworkConfigArgs.podCidr base) (podCidr o);
     NetworkConfigArgs.serviceCidr :=
       spread (NetworkConfigArgs.serviceCidr base) (serviceCidr o);
     NetworkConfigArgs.podRangeName :=
       spread (NetworkConfigArgs.podRangeName base) (podRangeName o);
     NetworkConfigArgs.serviceRangeName :=
       spread (NetworkConfigArgs.serviceRangeName base) (serviceRangeName o) |}.

End NetworkOverrides.

Module ClusterOverrides.

Record t := {
  projectId : Property string;
  region : Property string;
  env : Property string;
  prefix : Property string;
  zone : Property string;
  machineType : Property string;
  nodeCount : Property number;
  minNodes : Property number;
  maxNodes : Property number;
  diskSize : Property number;
  spotInstances : Property bool;
  masterCidr : Property string;
  podRangeName : Property string;
  serviceRangeName : Property string
}.

(** [{}] *)
Definition empty : t :=
  {| projectId := None; region := None; env := None; prefix := None;
     zone := None; machineType := None; nodeCount := None; minNodes := None;
     maxNodes := None; diskSize := None; spotInstances := None;
     masterCidr := None; podRangeName := None; serviceRangeName := None |}.

(** [{ ...base, ...o }] *)
Definition over (base : ClusterConfigArgs.t) (o : t) : ClusterConfigArgs.t :=
  {| ClusterConfigArgs.projectId :=
       spread (ClusterConfigArgs.projectId base) (projectId o);
     ClusterConfigArgs.region := spread (ClusterConfigArgs.region base) (region o);
     ClusterConfigArgs.env := spread (ClusterConfigArgs.env base) (env o);
     ClusterConfigArgs.prefix := spread (ClusterConfigArgs.prefix base) (prefix o);
     ClusterConfigArgs.zone := spread (ClusterConfigArgs.zone base) (zone o);
     ClusterConfigArgs.machineType :=
       spread (ClusterConfigArgs.machineType base) (machineType o);
     ClusterConfigArgs.nodeCount :=
       spread (ClusterConfigArgs.nodeCount base) (nodeCount o);
     ClusterConfigArgs.minNodes :=
       spread (ClusterConfigArgs.minNodes base) (minNodes o);
     ClusterConfigArgs.maxNodes :=
       spread (ClusterConfigArgs.maxNodes base) (maxNodes o);
     ClusterConfigArgs.diskSize :=
       spread (ClusterConfigArgs.diskSize base) (diskSize o);
     ClusterConfigArgs.spotInstances :=
       spread (ClusterConfigArgs.spotInstances base) (spotInstances o);
     ClusterConfigArgs.masterCidr :=
       spread (ClusterConfigArgs.masterCidr base) (masterCidr o);
     ClusterConfigArgs.podRangeName :=
       spread (ClusterConfigArgs.podRangeName base) (podRangeName o);
     ClusterConfigArgs.serviceRangeName :=
       spread (ClusterConfigArgs.serviceRangeName base) (serviceRangeName o) |}.

(** [{ podRangeName: pod, serviceRangeName: svc, ...o }] *)
Definition withRanges (pod svc : string) (o : t) : t :=
  {| projectId := projectId o; region := region o; env := env o;
     prefix := prefix o; zone := zone o; machineType := machineType o;
     nodeCount := nodeCount o; minNodes := minNodes o; maxNodes := maxNodes o;
     diskSize := diskSize o; spotInstances := spotInstances o;
     masterCidr := masterCidr o;
     podRangeName := Some (spread (Some pod) (podRangeName o));
     serviceRangeName := Some (spread (Some svc) (serviceRangeName o)) |}.

End ClusterOverrides.

(** The methods of the profiles; the fields of a profile are the four
    strings its constructor received. *)
Module Profile.

(** [PlatformProfile.getNetworkConfig(overrides?)] *)
Definition getNetworkConfig (p : Profile.PlatformProfile)
    (overrides : option NetworkOverrides.t) : Outcome NetworkConfig.t :=
  NetworkConfig.new
    (NetworkOverrides.over
       {| NetworkConfigArgs.projectId := Some (Profile.projectId p);
          NetworkConfigArgs.region := Some (Profile.region p);
          NetworkConfigArgs.env := Some (Profile.env p);
          NetworkConfigArgs.prefix := Some (Profile.prefix p);
          NetworkConfigArgs.cidr := None;
          NetworkConfigArgs.podCidr := None;
          NetworkConfigArgs.serviceCidr := None;
          NetworkConfigArgs.podRangeName := None;
          NetworkConfigArgs.serviceRangeName := None |}
       (nullish overrides NetworkOverrides.empty)).

(** The object literal of a [getClusterConfig], before [...overrides]. *)
Definition literal (p : Profile.PlatformProfile) (machineType : string)
    (nodeCount minNodes maxNodes : Z) (spotInstances : bool) (diskSize : Z)
    : ClusterConfigArgs.t :=
  {| ClusterConfigArgs.projectId := Some (Profile.projectId p);
     ClusterConfigArgs.region := Some (Profile.region p);
     ClusterConfigArgs.env := Some (Profile.env p);
     ClusterConfigArgs.prefix := Some (Profile.prefix p);
     ClusterConfigArgs.zone := None;
     ClusterConfigArgs.machineType := Some machineType;
     ClusterConfigArgs.nodeCount := Some (ofZ nodeCount);
     ClusterConfigArgs.minNodes := Some (ofZ minNodes);
     ClusterConfigArgs.maxNodes := Some (ofZ maxNodes);
     ClusterConfigArgs.diskSize := Some (ofZ diskSize);
     ClusterConfigArgs.spotInstances := Some spotInstances;
     ClusterConfigArgs.masterCidr := None;
     ClusterConfigArgs.podRangeName := None;
     ClusterConfigArgs.serviceRangeName := None |}.

(** [DevProfile.getClusterConfig(overrides?)] *)
Definition DevProfile_getClusterConfig (p : Profile.PlatformProfile)
    (overrides : option ClusterOverrides.t) : Outcome ClusterConfig.t :=
  ClusterConfig.new
    (ClusterOverrides.over (literal p "e2-medium" 1 1 3 true 50)
       (nullish overrides ClusterOverrides.empty)).

(** [StagingProfile.getClusterConfig(overrides?)] *)
Definition StagingProfile_getClusterConfig (p : Profile.PlatformProfile)
    (overrides : option ClusterOverrides.t) : Outcome ClusterConfig.t :=
  ClusterConfig.new
    (ClusterOverrides.over (literal p "n2-standard-2" 2 2 5 true 75)
       (nullish overrides ClusterOverrides.empty)).

(** [ProdProfile.getClusterConfig(overrides?)] *)
Definition ProdProfile_getClusterConfig (p : Profile.PlatformProfile)
    (overrides : option ClusterOverrides.t) : Outcome ClusterConfig.t :=
  ClusterConfig.new
    (ClusterOverrides.over (literal p "n2-standard-4" 3 3 10 false 100)
       (nullish overrides ClusterOverrides.empty)).

(** Dynamic dispatch of the abstract [getClusterConfig]. *)
Definition getClusterConfig (p : Profile.PlatformProfile)
    (overrides : option ClusterOverrides.t) : Outcome ClusterConfig.t :=
  match Profile.kind p with
  | Profile.DevProfile => DevProfile_getClusterConfig p overrides
  | Profile.StagingProfile => StagingProfile_getClusterConfig p overrides
  | Profile.ProdProfile => ProdProfile_getClusterConfig p overrides
  end.

End Profile.

(** Step 3 of the constructor of the composite: the cluster configuration
    the cluster component is declared with. [clusterOverrides] is [{}] when
    the arguments do not have it. *)
Module StandardPlatform.

Definition clusterConfigOf (profile : Profile.PlatformProfile)
    (networkConfig : NetworkConfig.t)
    (clusterOverrides : option ClusterOverrides.t) : Outcome ClusterConfig.t :=
  Profile.getClusterConfig profile
    (Some (ClusterOverrides.withRanges
             (NetworkConfig.podRangeName networkConfig)
             (NetworkConfig.serviceRangeName networkConfig)
             (nullish clusterOverrides ClusterOverrides.empty))).

End StandardPlatform.

End Runtime.

(* ================================================================= *)
(** ** Specification-side definitions

    What the specification says, in its own words, to be compared with the
    embedding above. *)

Module Spec.

(** The words a regular expression denotes. *)
Fixpoint power (L : string -> Prop) (n : nat) (s : string) : Prop :=
  match n with
  | O => s = EmptyString
  | S n' => exists s1 s2, s = s1 ++ s2 /\ L s1 /\ power L n' s2
  end.

Fixpoint lang (r : Regex.regex) (s : string) : Prop :=
  match r with
  | Regex.Digit => exists c, Str.isDigit c = true /\ s = String c EmptyString
  | Regex.Lit a => s = String a EmptyString
  | Regex.Seq r1 r2 => exists s1 s2, s = s1 ++ s2 /\ lang r1 s1 /\ lang r2 s2
  | Regex.Repeat lo hi r1 =>
      exists n, (lo <= n <= hi)%nat /\ power (lang r1) n s
  end.

(** A decimal octet group: one to three digits. *)
Definition octetGroup (g : string) : Prop :=
  (1 <= String.length g <= 3)%nat /\ Str.forallb Str.isDigit g = true.

(** [ddd.ddd.ddd.ddd] *)
Definition dotted (a b c d : string) : string :=
  a ++ "." ++ b ++ "." ++ c ++ "." ++ d.

(** Stage 1: exactly four dot-separated octet groups, then [/28]. *)
Definition cidrFormat (s a b c d : string) : Prop :=
  octetGroup a /\ octetGroup b /\ octetGroup c /\ octetGroup d
  /\ s = dotted a b c d ++ "/28".

(** Stage 2: each octet is 0-255. *)
Definition octetInRange (o : Z) : bool := (0 <=? o) && (o <=? 255).

(** Stage 3: RFC 1918. *)
Definition rfc1918 (o0 o1 : Z) : bool :=
  (o0 =? 10) || ((o0 =? 172) && (16 <=? o1) && (o1 <=? 31))
  || ((o0 =? 192) && (o1 =? 168)).

(** Stage 4: the block starts on a 16-address boundary. *)
Definition aligned (o3 : Z) : bool := o3 mod 16 =? 0.

(** Stages 2 to 4 in their order, on the four groups of a well-formatted
    block. *)
Definition checkOctets (a b c d : string) : Result unit :=
  let o0 := Str.Number a in
  let o1 := Str.Number b in
  let o2 := Str.Number c in
  let o3 := Str.Number d in
  let ip := dotted a b c d in
  if negb (octetInRange o0 && octetInRange o1 && octetInRange o2
           && octetInRange o3)
  then Err (MalformedCidrOctet ip)
  else if negb (rfc1918 o0 o1) then Err (NotPrivateRange ip)
  else if negb (aligned o3) then Err (MisalignedBlock ip)
  else Ok tt.

(** The error of the first failing step of an ordered list of steps is the
    one that surfaces. *)
Definition surfaces (steps : list (Result unit)) (e : Error) : Prop :=
  exists i, nth_error steps i = Some (Err e)
            /\ forall j, (j < i)%nat -> nth_error steps j = Some (Ok tt).

(** The same, computed: the error of the first step that fails. *)
Fixpoint firstFailure (steps : list (Result unit)) : option Error :=
  match steps with
  | [] => None
  | Ok _ :: rest => firstFailure rest
  | Err e :: _ => Some e
  end.

(** The steps of ClusterConfig construction, in the order of the
    specification. *)
Definition clusterSteps (args : ClusterConfigArgs.t) : list (Result unit) :=
  let maxNodes := nullish (ClusterConfigArgs.maxNodes args) 3 in
  let minNodes := nullish (ClusterConfigArgs.minNodes args) 1 in
  [ Constraints.validateEnvironment (ClusterConfigArgs.env args);
    Constraints.validateRegion (ClusterConfigArgs.region args);
    Constraints.validateMachineType
      (nullish (ClusterConfigArgs.machineType args) "e2-medium");
    Constraints.validateMaxNodes maxNodes;
    Constraints.validateDiskSize (nullish (ClusterConfigArgs.diskSize args) 50);
    Constraints.validateNodeCount (nullish (ClusterConfigArgs.nodeCount args) 1);
    throwIf (minNodes >? maxNodes) (MinExceedsMax minNodes maxNodes);
    Ok tt (* zone defaulting cannot fail *);
    Constraints.validateMasterCidr
      (nullish (ClusterConfigArgs.masterCidr args) "172.16.0.0/28") ].

(** The steps of NetworkConfig construction. *)
Definition networkSteps (args : NetworkConfigArgs.t) : list (Result unit) :=
  [ Constraints.validateEnvironment (NetworkConfigArgs.env args);
    Constraints.validateRegion (NetworkConfigArgs.region args) ].

(** Every validation of ClusterConfig construction other than the
    comparison of [minNodes] with [maxNodes] passes. *)
Definition otherFieldsValid (args : ClusterConfigArgs.t) : Prop :=
  Constraints.validateEnvironment (ClusterConfigArgs.env args) = Ok tt
  /\ Constraints.validateRegion (ClusterConfigArgs.region args) = Ok tt
  /\ Constraints.validateMachineType
       (nullish (ClusterConfigArgs.machineType args) "e2-medium") = Ok tt
  /\ Constraints.validateMaxNodes
       (nullish (ClusterConfigArgs.maxNodes args) 3) = Ok tt
  /\ Constraints.validateDiskSize
       (nullish (ClusterConfigArgs.diskSize args) 50) = Ok tt
  /\ Constraints.validateNodeCount
       (nullish (ClusterConfigArgs.nodeCount args) 1) = Ok tt
  /\ Constraints.validateMasterCidr
       (nullish (ClusterConfigArgs.masterCidr args) "172.16.0.0/28") = Ok tt.

(** The validations that precede the comparison of [minNodes] with
    [maxNodes]. *)
Definition earlierFieldsValid (args : ClusterConfigArgs.t) : Prop :=
  Constraints.validateEnvironment (ClusterConfigArgs.env args) = Ok tt
  /\ Constraints.validateRegion (ClusterConfigArgs.region args) = Ok tt
  /\ Constraints.validateMachineType
       (nullish (ClusterConfigArgs.machineType args) "e2-medium") = Ok tt
  /\ Constraints.validateMaxNodes
       (nullish (ClusterConfigArgs.maxNodes args) 3) = Ok tt
  /\ Constraints.validateDiskSize
       (nullish (ClusterConfigArgs.diskSize args) 50) = Ok tt
  /\ Constraints.validateNodeCount
       (nullish (ClusterConfigArgs.nodeCount args) 1) = Ok tt.

(** The table of variant defaults. *)
Record Defaults := {
  d_machineType : string;
  d_initialNodeCount : Z;
  d_minNodes : Z;
  d_maxNodes : Z;
  d_useSpotInstances : bool;
  d_diskSizeGb : Z
}.

Definition variantDefaults (k : Profile.Kind) : Defaults :=
  match k with
  | Profile.DevProfile =>            (* CostOptimized *)
      {| d_machineType := "e2-medium"; d_initialNodeCount := 1;
         d_minNodes := 1; d_maxNodes := 3; d_useSpotInstances := true;
         d_diskSizeGb := 50 |}
  | Profile.StagingProfile =>        (* Balanced *)
      {| d_machineType := "n2-standard-2"; d_initialNodeCount := 2;
         d_minNodes := 2; d_maxNodes := 5; d_useSpotInstances := true;
         d_diskSizeGb := 75 |}
  | Profile.ProdProfile =>           (* HighAvailability *)
      {| d_machineType := "n2-standard-4"; d_initialNodeCount := 3;
         d_minNodes := 3; d_maxNodes := 10; d_useSpotInstances := false;
         d_diskSizeGb := 100 |}
  end.

(** A private, aligned /28 block: four groups of one to three digits and
    [/28], every octet at most 255, the first two octets in an RFC 1918
    range, the last octet a multiple of 16. *)
Definition privateAlignedBlock (s : string) : Prop :=
  exists a b c d,
    cidrFormat s a b c d
    /\ 0 <= Str.Number a <= 255 /\ 0 <= Str.Number b <= 255
    /\ 0 <= Str.Number c <= 255 /\ 0 <= Str.Number d <= 255
    /\ (Str.Number a = 10
        \/ (Str.Number a = 172 /\ 16 <= Str.Number b <= 31)
        \/ (Str.Number a = 192 /\ Str.Number b = 168))
    /\ Str.Number d mod 16 = 0.

(** A configuration that satisfies every policy of ClusterConfig. *)
Definition compliant (c : ClusterConfig.t) : Prop :=
  In (ClusterConfig.env c) Constraints.ALLOWED_ENVIRONMENTS
  /\ In (ClusterConfig.region c) Constraints.ALLOWED_REGIONS
  /\ In (ClusterConfig.machineType c) Constraints.ALLOWED_MACHINE_TYPES
  /\ 1 <= ClusterConfig.maxNodes c <= 50
  /\ 30 <= ClusterConfig.diskSize c <= 200
  /\ 1 <= ClusterConfig.nodeCount c <= 20
  /\ ClusterConfig.minNodes c <= ClusterConfig.maxNodes c
  /\ privateAlignedBlock (ClusterConfig.masterCidr c).

(** [n] lies within the inclusive range [r]. *)
Definition within (r : Constraints.Range) (n : Runtime.number) : Prop :=
  match n with
  | Runtime.Finite q =>
      (inject_Z (Constraints.min r) <= q <= inject_Z (Constraints.max r))%Q
  | _ => False
  end.

(** [a] is greater than [b]. [NaN] is not ordered with any number. *)
Definition greater (a b : Runtime.number) : Prop :=
  match a, b with
  | Runtime.NaN, _ | _, Runtime.NaN => False
  | Runtime.NegInfinity, _ => False
  | _, Runtime.NegInfinity => True
  | _, Runtime.PosInfinity => False
  | Runtime.PosInfinity, Runtime.Finite _ => True
  | Runtime.Finite x, Runtime.Finite y => (y < x)%Q
  end.

(** A value that is a string of the list [l], not [undefined]. *)
Definition oneOf (l : list string) (v : option string) : Prop :=
  exists s, v = Some s /\ In s l.

(** The range of a bound. *)
Definition rangeOf (b : Bound) : Constraints.Range :=
  match b with
  | maxNodesBound => Constraints.maxNodes Constraints.CONSTRAINTS
  | diskSizeBound => Constraints.diskSize Constraints.CONSTRAINTS
  | nodeCountBound => Constraints.nodeCount Constraints.CONSTRAINTS
  end.

(** What a bound check lets through: a number within the range, or [NaN]. *)
Definition withinOrNaN (r : Constraints.Range) (n : Runtime.number) : Prop :=
  n = Runtime.NaN \/ within r n.

(** What every configuration that ClusterConfig construction returns
    satisfies. *)
Definition accepted (c : Runtime.ClusterConfig.t) : Prop :=
  oneOf Constraints.ALLOWED_ENVIRONMENTS (Runtime.ClusterConfig.env c)
  /\ oneOf Constraints.ALLOWED_REGIONS (Runtime.ClusterConfig.region c)
  /\ In (Runtime.ClusterConfig.machineType c) Constraints.ALLOWED_MACHINE_TYPES
  /\ withinOrNaN (Constraints.maxNodes Constraints.CONSTRAINTS)
       (Runtime.ClusterConfig.maxNodes c)
  /\ withinOrNaN (Constraints.diskSize Constraints.CONSTRAINTS)
       (Runtime.ClusterConfig.diskSize c)
  /\ withinOrNaN (Constraints.nodeCount Constraints.CONSTRAINTS)
       (Runtime.ClusterConfig.nodeCount c)
  /\ ~ greater (Runtime.ClusterConfig.minNodes c)
         (Runtime.ClusterConfig.maxNodes c)
  /\ privateAlignedBlock (Runtime.ClusterConfig.masterCidr c).



(** The value an override property carries, if it carries one. *)
Definition carried {A : Type} (o : Runtime.Property A) : option A :=
  match o with
  | Some (Some v) => Some v
  | _ => None
  end.

(** The value of a required property after the overrides: the one of the
    profile unless the overrides have the property, and then what they hold,
    [undefined] included. *)
Definition effective {A : Type} (o : Runtime.Property A) (ofProfile : A)
    : option A :=
  match o with
  | None => Some ofProfile
  | Some v => v
  end.


(** A well-formed secret id: neither empty nor made of white space only. *)
Definition wellFormedId (id : string) : Prop :=
  id <> EmptyString /\ Str.forallb Str.isSpace id = false.

End Spec.

(** [sep] does not occur in [s]. *)
Definition lacks (sep : ascii) (s : string) : bool :=
  Str.forallb (fun c => negb (Ascii.eqb c sep)) s.

(** The configuration a successful construction returns. *)
Definition built (args : ClusterConfigArgs.t) : ClusterConfig.t :=
  {| ClusterConfig.projectId := ClusterConfigArgs.projectId args;
     ClusterConfig.region := ClusterConfigArgs.region args;
     ClusterConfig.env := ClusterConfigArgs.env args;
     ClusterConfig.prefix := ClusterConfigArgs.prefix args;
     ClusterConfig.zone :=
       nullish (ClusterConfigArgs.zone args)
               (ClusterConfigArgs.region args ++ "-a");
     ClusterConfig.machineType :=
       nullish (ClusterConfigArgs.machineType args) "e2-medium";
     ClusterConfig.nodeCount := nullish (ClusterConfigArgs.nodeCount args) 1;
     ClusterConfig.minNodes := nullish (ClusterConfigArgs.minNodes args) 1;
     ClusterConfig.maxNodes := nullish (ClusterConfigArgs.maxNodes args) 3;
     ClusterConfig.diskSize := nullish (ClusterConfigArgs.diskSize args) 50;
     ClusterConfig.spotInstances :=
       nullish (ClusterConfigArgs.spotInstances args) true;
     ClusterConfig.masterCidr :=
       nullish (ClusterConfigArgs.masterCidr args) "172.16.0.0/28";
     ClusterConfig.podRangeName :=
       nullish (ClusterConfigArgs.podRangeName args) "pod-ranges";
     ClusterConfig.serviceRangeName :=
       nullish (ClusterConfigArgs.serviceRangeName args) "service-ranges" |}.

(** The object a profile hands to [new ClusterConfig]: its literal with
    [...overrides] spread over it. *)
Definition merged (p : Profile.PlatformProfile)
    (overrides : option ClusterOverrides.t) : ClusterConfigArgs.t :=
  let d := Spec.variantDefaults (Profile.kind p) in
  ClusterOverrides.over
    (Profile.literal p (Spec.d_machineType d) (Spec.d_initialNodeCount d)
       (Spec.d_minNodes d) (Spec.d_maxNodes d) (Spec.d_useSpotInstances d)
       (Spec.d_diskSizeGb d))
    (nullish overrides ClusterOverrides.empty).

(** The configuration a successful construction returns, at run time. *)
Definition runtimeBuilt (args : Runtime.ClusterConfigArgs.t)
    : Runtime.ClusterConfig.t :=
  {| Runtime.ClusterConfig.projectId := Runtime.ClusterConfigArgs.projectId args;
     Runtime.ClusterConfig.region := Runtime.ClusterConfigArgs.region args;
     Runtime.ClusterConfig.env := Runtime.ClusterConfigArgs.env args;
     Runtime.ClusterConfig.prefix := Runtime.ClusterConfigArgs.prefix args;
     Runtime.ClusterConfig.zone :=
       nullish (Runtime.ClusterConfigArgs.zone args)
         (Runtime.interpolate (Runtime.ClusterConfigArgs.region args) ++ "-a");
     Runtime.ClusterConfig.machineType :=
       nullish (Runtime.ClusterConfigArgs.machineType args) "e2-medium";
     Runtime.ClusterConfig.nodeCount :=
       nullish (Runtime.ClusterConfigArgs.nodeCount args) (Runtime.ofZ 1);
     Runtime.ClusterConfig.minNodes :=
       nullish (Runtime.ClusterConfigArgs.minNodes args) (Runtime.ofZ 1);
     Runtime.ClusterConfig.maxNodes :=
       nullish (Runtime.ClusterConfigArgs.maxNodes args) (Runtime.ofZ 3);
     Runtime.ClusterConfig.diskSize :=
       nullish (Runtime.ClusterConfigArgs.diskSize args) (Runtime.ofZ 50);
     Runtime.ClusterConfig.spotInstances :=
       nullish (Runtime.ClusterConfigArgs.spotInstances args) true;
     Runtime.ClusterConfig.masterCidr :=
       nullish (Runtime.ClusterConfigArgs.masterCidr args) "172.16.0.0/28";
     Runtime.ClusterConfig.podRangeName :=
       nullish (Runtime.ClusterConfigArgs.podRangeName args) "pod-ranges";
     Runtime.ClusterConfig.serviceRangeName :=
       nullish (Runtime.ClusterConfigArgs.serviceRangeName args)
         "service-ranges" |}.

(** Every validation of ClusterConfig construction passes, at run time. *)
Definition runtimeStepsPass (args : Runtime.ClusterConfigArgs.t) : Prop :=
  Runtime.validateEnvironment (Runtime.ClusterConfigArgs.env args)
  = Runtime.Returned tt
  /\ Runtime.validateRegion (Runtime.ClusterConfigArgs.region args)
     = Runtime.Returned tt
  /\ Constraints.validateMachineType
       (nullish (Runtime.ClusterConfigArgs.machineType args) "e2-medium") = Ok tt
  /\ Runtime.validateMaxNodes
       (nullish (Runtime.ClusterConfigArgs.maxNodes args) (Runtime.ofZ 3))
     = Runtime.Returned tt
  /\ Runtime.validateDiskSize
       (nullish (Runtime.ClusterConfigArgs.diskSize args) (Runtime.ofZ 50))
     = Runtime.Returned tt
  /\ Runtime.validateNodeCount
       (nullish (Runtime.ClusterConfigArgs.nodeCount args) (Runtime.ofZ 1))
     = Runtime.Returned tt
  /\ Runtime.gtb
       (nullish (Runtime.ClusterConfigArgs.minNodes args) (Runtime.ofZ 1))
       (nullish (Runtime.ClusterConfigArgs.maxNodes args) (Runtime.ofZ 3))
     = false
  /\ Constraints.validateMasterCidr
       (nullish (Runtime.ClusterConfigArgs.masterCidr args) "172.16.0.0/28")
     = Ok tt.

(** The object a profile hands to [new ClusterConfig], at run time. *)
Definition runtimeMerged (p : Profile.PlatformProfile)
    (overrides : option Runtime.ClusterOverrides.t)
    : Runtime.ClusterConfigArgs.t :=
  let d := Spec.variantDefaults (Profile.kind p) in
  Runtime.ClusterOverrides.over
    (Runtime.Profile.literal p (Spec.d_machineType d)
       (Spec.d_initialNodeCount d) (Spec.d_minNodes d) (Spec.d_maxNodes d)
       (Spec.d_useSpotInstances d) (Spec.d_diskSizeGb d))
    (nullish overrides Runtime.ClusterOverrides.empty).


(** [{ env: v }], where [v] may be [undefined]. *)
Definition envNetworkOverride (v : option string) : Runtime.NetworkOverrides.t :=
  {| Runtime.NetworkOverrides.projectId := None;
     Runtime.NetworkOverrides.region := None;
     Runtime.NetworkOverrides.env := Some v;
     Runtime.NetworkOverrides.prefix := None;
     Runtime.NetworkOverrides.cidr := None;
     Runtime.NetworkOverrides.podCidr := None;
     Runtime.NetworkOverrides.serviceCidr := None;
     Runtime.NetworkOverrides.podRangeName := None;
     Runtime.NetworkOverrides.serviceRangeName := None |}.

(** The values of the first embedding, as values at run time. *)
Module AtRuntime.

Definition thrown (e : Error) : Runtime.Thrown :=
  match e with
  | OutOfRange b value => Runtime.OutOfRangeOf b (Runtime.ofZ value)
  | MinExceedsMax minNodes maxNodes =>
      Runtime.MinExceedsMaxOf (Runtime.ofZ minNodes) (Runtime.ofZ maxNodes)
  | _ => Runtime.Raised e
  end.

Definition outcome {A B : Type} (f : A -> B) (r : Result A)
    : Runtime.Outcome B :=
  match r with
  | Ok a => Runtime.Returned (f a)
  | Err e => Runtime.Threw (thrown e)
  end.

(** A property that carries a value when it is present. *)
Definition property {A B : Type} (f : A -> B) (o : option A)
    : Runtime.Property B :=
  match o with
  | Some v => Some (Some (f v))
  | None => None
  end.

(** The same, for a value that is the same at run time. *)
Definition valued {A : Type} (o : option A) : Runtime.Property A :=
  property (fun v => v) o.

Definition networkArgs (a : NetworkConfigArgs.t) : Runtime.NetworkConfigArgs.t :=
  {| Runtime.NetworkConfigArgs.projectId := Some (NetworkConfigArgs.projectId a);
     Runtime.NetworkConfigArgs.region := Some (NetworkConfigArgs.region a);
     Runtime.NetworkConfigArgs.env := Some (NetworkConfigArgs.env a);
     Runtime.NetworkConfigArgs.prefix := Some (NetworkConfigArgs.prefix a);
     Runtime.NetworkConfigArgs.cidr := NetworkConfigArgs.cidr a;
     Runtime.NetworkConfigArgs.podCidr := NetworkConfigArgs.podCidr a;
     Runtime.NetworkConfigArgs.serviceCidr := NetworkConfigArgs.serviceCidr a;
     Runtime.NetworkConfigArgs.podRangeName := NetworkConfigArgs.podRangeName a;
     Runtime.NetworkConfigArgs.serviceRangeName :=
       NetworkConfigArgs.serviceRangeName a |}.

Definition networkConfig (c : NetworkConfig.t) : Runtime.NetworkConfig.t :=
  {| Runtime.NetworkConfig.projectId := Some (NetworkConfig.projectId c);
     Runtime.NetworkConfig.region := Some (NetworkConfig.region c);
     Runtime.NetworkConfig.env := Some (NetworkConfig.env c);
     Runtime.NetworkConfig.prefix := Some (NetworkConfig.prefix c);
     Runtime.NetworkConfig.cidr := NetworkConfig.cidr c;
     Runtime.NetworkConfig.podCidr := NetworkConfig.podCidr c;
     Runtime.NetworkConfig.serviceCidr := NetworkConfig.serviceCidr c;
     Runtime.NetworkConfig.podRangeName := NetworkConfig.podRangeName c;
     Runtime.NetworkConfig.serviceRangeName := NetworkConfig.serviceRangeName c |}.

Definition networkOverrides (o : NetworkOverrides.t) : Runtime.NetworkOverrides.t :=
  {| Runtime.NetworkOverrides.projectId := valued (NetworkOverrides.projectId o);
     Runtime.NetworkOverrides.region := valued (NetworkOverrides.region o);
     Runtime.NetworkOverrides.env := valued (NetworkOverrides.env o);
     Runtime.NetworkOverrides.prefix := valued (NetworkOverrides.prefix o);
     Runtime.NetworkOverrides.cidr := valued (NetworkOverrides.cidr o);
     Runtime.NetworkOverrides.podCidr := valued (NetworkOverrides.podCidr o);
     Runtime.NetworkOverrides.serviceCidr := valued (NetworkOverrides.serviceCidr o);
     Runtime.NetworkOverrides.podRangeName :=
       valued (NetworkOverrides.podRangeName o);
     Runtime.NetworkOverrides.serviceRangeName :=
       valued (NetworkOverrides.serviceRangeName o) |}.

Definition clusterArgs (a : ClusterConfigArgs.t) : Runtime.ClusterConfigArgs.t :=
  {| Runtime.ClusterConfigArgs.projectId := Some (ClusterConfigArgs.projectId a);
     Runtime.ClusterConfigArgs.region := Some (ClusterConfigArgs.region a);
     Runtime.ClusterConfigArgs.env := Some (ClusterConfigArgs.env a);
     Runtime.ClusterConfigArgs.prefix := Some (ClusterConfigArgs.prefix a);
     Runtime.ClusterConfigArgs.zone := ClusterConfigArgs.zone a;
     Runtime.ClusterConfigArgs.machineType := ClusterConfigArgs.machineType a;
     Runtime.ClusterConfigArgs.nodeCount :=
       option_map Runtime.ofZ (ClusterConfigArgs.nodeCount a);
     Runtime.ClusterConfigArgs.minNodes :=
       option_map Runtime.ofZ (ClusterConfigArgs.minNodes a);
     Runtime.ClusterConfigArgs.maxNodes :=
       option_map Runtime.ofZ (ClusterConfigArgs.maxNodes a);
     Runtime.ClusterConfigArgs.diskSize :=
       option_map Runtime.ofZ (ClusterConfigArgs.diskSize a);
     Runtime.ClusterConfigArgs.spotInstances := ClusterConfigArgs.spotInstances a;
     Runtime.ClusterConfigArgs.masterCidr := ClusterConfigArgs.masterCidr a;
     Runtime.ClusterConfigArgs.podRangeName := ClusterConfigArgs.podRangeName a;
     Runtime.ClusterConfigArgs.serviceRangeName :=
       ClusterConfigArgs.serviceRangeName a |}.

Definition clusterConfig (c : ClusterConfig.t) : Runtime.ClusterConfig.t :=
  {| Runtime.ClusterConfig.projectId := Some (ClusterConfig.projectId c);
     Runtime.ClusterConfig.region := Some (ClusterConfig.region c);
     Runtime.ClusterConfig.env := Some (ClusterConfig.env c);
     Runtime.ClusterConfig.prefix := Some (ClusterConfig.prefix c);
     Runtime.ClusterConfig.zone := ClusterConfig.zone c;
     Runtime.ClusterConfig.machineType := ClusterConfig.machineType c;
     Runtime.ClusterConfig.nodeCount := Runtime.ofZ (ClusterConfig.nodeCount c);
     Runtime.ClusterConfig.minNodes := Runtime.ofZ (ClusterConfig.minNodes c);
     Runtime.ClusterConfig.maxNodes := Runtime.ofZ (ClusterConfig.maxNodes c);
     Runtime.ClusterConfig.diskSize := Runtime.ofZ (ClusterConfig.diskSize c);
     Runtime.ClusterConfig.spotInstances := ClusterConfig.spotInstances c;
     Runtime.ClusterConfig.masterCidr := ClusterConfig.masterCidr c;
     Runtime.ClusterConfig.podRangeName := ClusterConfig.podRangeName c;
     Runtime.ClusterConfig.serviceRangeName :=
       ClusterConfig.serviceRangeName c |}.

Definition clusterOverrides (o : ClusterOverrides.t) : Runtime.ClusterOverrides.t :=
  {| Runtime.ClusterOverrides.projectId := valued (ClusterOverrides.projectId o);
     Runtime.ClusterOverrides.region := valued (ClusterOverrides.region o);
     Runtime.ClusterOverrides.env := valued (ClusterOverrides.env o);
     Runtime.ClusterOverrides.prefix := valued (ClusterOverrides.prefix o);
     Runtime.ClusterOverrides.zone := valued (ClusterOverrides.zone o);
     Runtime.ClusterOverrides.machineType :=
       valued (ClusterOverrides.machineType o);
     Runtime.ClusterOverrides.nodeCount :=
       property Runtime.ofZ (ClusterOverrides.nodeCount o);
     Runtime.ClusterOverrides.minNodes :=
       property Runtime.ofZ (ClusterOverrides.minNodes o);
     Runtime.ClusterOverrides.maxNodes :=
       property Runtime.ofZ (ClusterOverrides.maxNodes o);
     Runtime.ClusterOverrides.diskSize :=
       property Runtime.ofZ (ClusterOverrides.diskSize o);
     Runtime.ClusterOverrides.spotInstances :=
       valued (ClusterOverrides.spotInstances o);
     Runtime.ClusterOverrides.masterCidr := valued (ClusterOverrides.masterCidr o);
     Runtime.ClusterOverrides.podRangeName :=
       valued (ClusterOverrides.podRangeName o);
     Runtime.ClusterOverrides.serviceRangeName :=
       valued (ClusterOverrides.serviceRangeName o) |}.

End AtRuntime.

(** The secret the loop of [StandardSecrets] declares for an id. *)
Definition secretOf (name secretId : string) : Gcp.Secret :=
  {| Gcp.secret_logicalName := name ++ "-" ++ secretId;
     Gcp.secret_secretId := secretId |}.

(** [p] with its secrets component replaced. *)
Definition withSecrets (s : option StandardSecrets.t) (p : StandardPlatform.t)
    : StandardPlatform.t :=
  {| StandardPlatform.vpc := StandardPlatform.vpc p;
     StandardPlatform.cluster := StandardPlatform.cluster p;
     StandardPlatform._secrets := s;
     StandardPlatform._identity := StandardPlatform._identity p;
     StandardPlatform.projectId := StandardPlatform.projectId p;
     StandardPlatform.region := StandardPlatform.region p;
     StandardPlatform.env := StandardPlatform.env p;
     StandardPlatform.prefix := StandardPlatform.prefix p |}.

(** [p] with its identity component replaced. *)
Definition withIdentity (i : option StandardIdentity.t) (p : StandardPlatform.t)
    : StandardPlatform.t :=
  {| StandardPlatform.vpc := StandardPlatform.vpc p;
     StandardPlatform.cluster := StandardPlatform.cluster p;
     StandardPlatform._secrets := StandardPlatform._secrets p;
     StandardPlatform._identity := i;
     StandardPlatform.projectId := StandardPlatform.projectId p;
     StandardPlatform.region := StandardPlatform.region p;
     StandardPlatform.env := StandardPlatform.env p;
     StandardPlatform.prefix := StandardPlatform.prefix p |}.


(** The profile the composite selects for its arguments. *)
Definition profileOf (args : StandardPlatformArgs.t) : Profile.PlatformProfile :=
  StandardPlatform.selectProfile
    (StandardPlatformArgs.projectId args) (StandardPlatformArgs.region args)
    (StandardPlatformArgs.env args) (StandardPlatformArgs.prefix args).

(** The composite built from the results of its four fallible steps. *)
Definition assembled (name : string) (args : StandardPlatformArgs.t)
    (nc : NetworkConfig.t) (c : ClusterConfig.t)
    (s : option StandardSecrets.t) (i : option StandardIdentity.t)
    : StandardPlatform.t :=
  let vpc' := StandardVPC.new (name ++ "-networking") nc in
  {| StandardPlatform.vpc := vpc';
     StandardPlatform.cluster :=
       StandardCluster.new (name ++ "-compute")
         {| StandardCluster.config := c;
            StandardCluster.networkId := StandardVPC.networkId vpc';
            StandardCluster.subnetId := StandardVPC.subnetId vpc';
            StandardCluster.labels :=
              Some (nullish (StandardPlatformArgs.labels args) []) |};
     StandardPlatform._secrets := s;
     StandardPlatform._identity := i;
     StandardPlatform.projectId := StandardPlatformArgs.projectId args;
     StandardPlatform.region := StandardPlatformArgs.region args;
     StandardPlatform.env := StandardPlatformArgs.env args;
     StandardPlatform.prefix := StandardPlatformArgs.prefix args |}.

(** Composite arguments with an environment outside the allow-list and a
    blank secret id. *)
Definition unknownEnvArgs : StandardPlatformArgs.t :=
  {| StandardPlatformArgs.projectId := "test-project";
     StandardPlatformArgs.region := "us-central1";
     StandardPlatformArgs.env := "production";
     StandardPlatformArgs.prefix := "myapp";
     StandardPlatformArgs.secretIds := Some [""];
     StandardPlatformArgs.workloadIdentity := None;
     StandardPlatformArgs.clusterOverrides := None;
     StandardPlatformArgs.labels := None |}.

(** The arguments of the identity test suite, with two roles. *)
Definition identityArgs : StandardIdentity.Args :=
  {| StandardIdentity.projectId := "test-project";
     StandardIdentity.saId := "test-sa-account";
     StandardIdentity.k8sNamespace := "default";
     StandardIdentity.k8sSaName := "test-k8s-sa";
     StandardIdentity.roles :=
       Some ["roles/viewer"; "roles/secretmanager.secretAccessor"] |}.

(** Arguments of the test suites, for the examples. *)
Definition baseArgs : StandardPlatformArgs.t :=
  {| StandardPlatformArgs.projectId := "test-project";
     StandardPlatformArgs.region := "us-central1";
     StandardPlatformArgs.env := "dev";
     StandardPlatformArgs.prefix := "myapp";
     StandardPlatformArgs.secretIds := None;
     StandardPlatformArgs.workloadIdentity := None;
     StandardPlatformArgs.clusterOverrides := None;
     StandardPlatformArgs.labels := None |}.

Definition prodProfile : Profile.PlatformProfile :=
  {| Profile.kind := Profile.ProdProfile;
     Profile.projectId := "test-project";
     Profile.region := "us-central1";
     Profile.env := "prod";
     Profile.prefix := "myapp" |}.

Definition validIdentity : WorkloadIdentityConfig.t :=
  {| WorkloadIdentityConfig.saId := "workload-identity-sa";
     WorkloadIdentityConfig.k8sNamespace := "default";
     WorkloadIdentityConfig.k8sSaName := "app-sa";
     WorkloadIdentityConfig.roles :=
       Some ["roles/secretmanager.secretAccessor"] |}.

Definition requiredArgs : ClusterConfigArgs.t :=
  {| ClusterConfigArgs.projectId := "test-project";
     ClusterConfigArgs.region := "us-central1";
     ClusterConfigArgs.env := "prod";
     ClusterConfigArgs.prefix := "myapp";
     ClusterConfigArgs.zone := None;
     ClusterConfigArgs.machineType := None;
     ClusterConfigArgs.nodeCount := None;
     ClusterConfigArgs.minNodes := None;
     ClusterConfigArgs.maxNodes := None;
     ClusterConfigArgs.diskSize := None;
     ClusterConfigArgs.spotInstances := None;
     ClusterConfigArgs.masterCidr := None;
     ClusterConfigArgs.podRangeName := None;
     ClusterConfigArgs.serviceRangeName := None |}.

(** Cluster component arguments whose labels override [environment]. *)
Definition labelledArgs : StandardCluster.Args :=
  {| StandardCluster.config := built requiredArgs;
     StandardCluster.networkId := Gcp.Ref "network" "id";
     StandardCluster.subnetId := Gcp.Ref "subnet" "id";
     StandardCluster.labels :=
       Some [("team", "platform"); ("environment", "sandbox")] |}.

(** Valid cluster arguments with an empty prefix and a zone of another
    region. *)
Definition foreignZoneArgs : ClusterConfigArgs.t :=
  {| ClusterConfigArgs.projectId := "test-project";
     ClusterConfigArgs.region := "us-central1";
     ClusterConfigArgs.env := "prod";
     ClusterConfigArgs.prefix := "";
     ClusterConfigArgs.zone := Some "asia-east1-b";
     ClusterConfigArgs.machineType := None;
     ClusterConfigArgs.nodeCount := None;
     ClusterConfigArgs.minNodes := None;
     ClusterConfigArgs.maxNodes := None;
     ClusterConfigArgs.diskSize := None;
     ClusterConfigArgs.spotInstances := None;
     ClusterConfigArgs.masterCidr := None;
     ClusterConfigArgs.podRangeName := None;
     ClusterConfigArgs.serviceRangeName := None |}.


(** The arguments of the test suites with an empty project id. *)
Definition blankProjectArgs : StandardPlatformArgs.t :=
  {| StandardPlatformArgs.projectId := "";
     StandardPlatformArgs.region := "us-central1";
     StandardPlatformArgs.env := "dev";
     StandardPlatformArgs.prefix := "myapp";
     StandardPlatformArgs.secretIds := None;
     StandardPlatformArgs.workloadIdentity := None;
     StandardPlatformArgs.clusterOverrides := None;
     StandardPlatformArgs.labels := None |}.

(** An identity configuration whose namespace is white space only. *)
Definition spacesIdentity : WorkloadIdentityConfig.t :=
  {| WorkloadIdentityConfig.saId := "workload-identity-sa";
     WorkloadIdentityConfig.k8sNamespace := "   ";
     WorkloadIdentityConfig.k8sSaName := "app-sa";
     WorkloadIdentityConfig.roles := None |}.

(* ================================================================= *)
(** ** Results and validators *)

Lemma throwIf_false (e : Error) : throwIf false e = Ok tt.
Proof. reflexivity. Qed.

Lemma throwIf_true (e : Error) : throwIf true e = Err e.
Proof. reflexivity. Qed.

Lemma throwIf_ok (c : bool) (e : Error) : throwIf c e = Ok tt <-> c = false.
Proof. destruct c; simpl; split; intros H; congruence. Qed.

Lemma throwIf_err (c : bool) (e e' : Error) :
  throwIf c e = Err e' <-> c = true /\ e = e'.
Proof.
  destruct c; simpl; split.
  - intros H; injection H as ->; auto.
  - intros [_ ->]; reflexivity.
  - discriminate.
  - intros [H _]; discriminate.
Qed.

Lemma bind_ok_unit {B : Type} (r : Result unit) (k : unit -> Result B) :
  r = Ok tt -> bind r k = k tt.
Proof. intros ->; reflexivity. Qed.

Lemma bind_err {A B : Type} (r : Result A) (k : A -> Result B) (e : Error) :
  r = Err e -> bind r k = Err e.
Proof. intros ->; reflexivity. Qed.

Lemma result_unit_cases (r : Result unit) : r = Ok tt \/ exists e, r = Err e.
Proof. destruct r as [[]|e]; [left|right; exists e]; reflexivity. Qed.

Lemma includes_In (l : list string) (s : string) :
  Constraints.includes l s = true <-> In s l.
Proof.
  unfold Constraints.includes. rewrite existsb_exists. split.
  - intros [x [Hin Heq]]. apply String.eqb_eq in Heq. subst. exact Hin.
  - intros Hin. exists s. split; [exact Hin | apply String.eqb_refl].
Qed.

(* ================================================================= *)
(** ** Strings *)

Lemma app_nil_r (s : string) : s ++ "" = s.
Proof. induction s as [|c s IH]; simpl; [reflexivity | now rewrite IH]. Qed.

Lemma app_assoc (s t u : string) : (s ++ t) ++ u = s ++ (t ++ u).
Proof. induction s as [|c s IH]; simpl; [reflexivity | now rewrite IH]. Qed.

Lemma length_app (s t : string) :
  String.length (s ++ t) = (String.length s + String.length t)%nat.
Proof. induction s as [|c s IH]; simpl; [reflexivity | now rewrite IH]. Qed.

Lemma forallb_app (p : ascii -> bool) (s t : string) :
  Str.forallb p (s ++ t) = Str.forallb p s && Str.forallb p t.
Proof.
  induction s as [|c s IH]; simpl; [reflexivity|].
  rewrite IH. now rewrite andb_assoc.
Qed.

Lemma forallb_impl (p q : ascii -> bool) (s : string) :
  (forall c, p c = true -> q c = true) ->
  Str.forallb p s = true -> Str.forallb q s = true.
Proof.
  intros Hpq. induction s as [|c s IH]; simpl; [reflexivity|].
  rewrite !andb_true_iff. intros [Hc Hs]. split; auto.
Qed.

Ltac norm_app := repeat rewrite app_assoc; simpl.

(* ================================================================= *)
(** ** The matcher decides the language of a regular expression *)

Section Repeat.

Variable m : string -> (string -> bool) -> bool.
Variable L : string -> Prop.
Hypothesis m_spec : forall s k,
  m s k = true <-> exists s1 s2, s = s1 ++ s2 /\ L s1 /\ k s2 = true.

Lemma repeat_spec (k : string -> bool) (more lo : nat) (s : string) :
  Regex.repeat m k lo more s = true <->
  exists n s1 s2,
    (lo <= n <= more)%nat /\ s = s1 ++ s2 /\ Spec.power L n s1 /\ k s2 = true.
Proof.
  revert lo s. induction more as [|more IH]; intros lo s; simpl.
  - destruct lo as [|lo]; split.
    + intros Hk. exists 0%nat, "", s. simpl. repeat split; auto.
    + intros (n & s1 & s2 & Hn & -> & Hp & Hk).
      assert (n = 0%nat) by lia. subst n. simpl in Hp. subst s1. exact Hk.
    + discriminate.
    + intros (n & s1 & s2 & Hn & _). lia.
  - rewrite orb_true_iff, m_spec. split.
    + intros [(s1 & s2 & -> & HL & Hrep) | Hstop].
      * apply IH in Hrep as (n & t1 & t2 & Hn & -> & Hp & Hk).
        exists (S n), (s1 ++ t1), t2. split; [lia|].
        split; [now rewrite app_assoc|]. split; [|exact Hk].
        exists s1, t1. auto.
      * destruct lo as [|lo]; [|discriminate].
        exists 0%nat, "", s. simpl. repeat split; auto. lia.
    + intros (n & s1 & s2 & Hn & -> & Hp & Hk). destruct n as [|n].
      * right. simpl in Hp. subst s1. destruct lo; [exact Hk | lia].
      * left. destruct Hp as (u1 & u2 & -> & HL & Hp).
        exists u1, (u2 ++ s2). split; [now rewrite app_assoc|].
        split; [exact HL|]. apply IH. exists n, u2, s2.
        repeat split; auto; lia.
Qed.

End Repeat.

Lemma matchRe_spec (r : Regex.regex) : forall s k,
  Regex.matchRe r s k = true <->
  exists s1 s2, s = s1 ++ s2 /\ Spec.lang r s1 /\ k s2 = true.
Proof.
  induction r as [|a|r1 IH1 r2 IH2|lo hi r IH]; intros s k; simpl.
  - destruct s as [|c s]; split.
    + discriminate.
    + intros (s1 & s2 & Hs & (c & _ & ->) & _). discriminate.
    + rewrite andb_true_iff. intros [Hc Hk].
      exists (String c ""), s. repeat split; eauto.
    + intros (s1 & s2 & Hs & (c' & Hc & ->) & Hk). simpl in Hs.
      injection Hs as -> ->. now rewrite Hc, Hk.
  - destruct s as [|c s]; split.
    + discriminate.
    + intros (s1 & s2 & Hs & -> & _). discriminate.
    + rewrite andb_true_iff. intros [Hc Hk]. apply Ascii.eqb_eq in Hc. subst c.
      exists (String a ""), s. repeat split; auto.
    + intros (s1 & s2 & Hs & -> & Hk). simpl in Hs. injection Hs as -> ->.
      now rewrite Ascii.eqb_refl, Hk.
  - rewrite IH1. split.
    + intros (s1 & s2 & -> & H1 & H2).
      apply IH2 in H2 as (t1 & t2 & -> & H2 & Hk).
      exists (s1 ++ t1), t2. split; [now rewrite app_assoc|].
      split; [|exact Hk]. exists s1, t1. auto.
    + intros (s1 & s2 & -> & (u1 & u2 & -> & H1 & H2) & Hk).
      exists u1, (u2 ++ s2). split; [now rewrite app_assoc|].
      split; [exact H1|]. apply IH2. exists u2, s2. auto.
  - rewrite (@repeat_spec (Regex.matchRe r) (Spec.lang r) IH). split.
    + intros (n & s1 & s2 & Hn & -> & Hp & Hk). exists s1, s2.
      repeat split; auto. exists n. auto.
    + intros (s1 & s2 & -> & (n & Hn & Hp) & Hk). exists n, s1, s2. auto.
Qed.

Lemma test_spec (r : Regex.regex) (s : string) :
  Regex.test r s = true <-> Spec.lang r s.
Proof.
  unfold Regex.test. rewrite matchRe_spec. split.
  - intros (s1 & s2 & -> & HL & Hk). destruct s2; [|discriminate].
    now rewrite app_nil_r.
  - intros HL. exists s, "". rewrite app_nil_r. auto.
Qed.

Lemma power_digits (n : nat) : forall g,
  Spec.power (Spec.lang Regex.Digit) n g <->
  String.length g = n /\ Str.forallb Str.isDigit g = true.
Proof.
  induction n as [|n IH]; intros g; simpl.
  - split.
    + intros ->. auto.
    + intros [Hl _]. destruct g; [reflexivity | discriminate].
  - split.
    + intros (s1 & s2 & -> & (c & Hc & ->) & Hp). apply IH in Hp as [Hl Hd].
      simpl. rewrite Hc, Hd, Hl. auto.
    + intros [Hl Hd]. destruct g as [|c g]; [discriminate|].
      simpl in Hl, Hd. apply andb_true_iff in Hd as [Hc Hd].
      exists (String c ""), g. repeat split; eauto.
      apply IH. split; [lia | exact Hd].
Qed.

Lemma lang_octetGroup (g : string) :
  Spec.lang (Regex.Repeat 1 3 Regex.Digit) g <-> Spec.octetGroup g.
Proof.
  unfold Spec.octetGroup. simpl. split.
  - intros (n & Hn & Hp). apply power_digits in Hp as [Hl Hd].
    split; [lia | exact Hd].
  - intros [Hl Hd]. exists (String.length g). split; [lia|].
    apply power_digits. auto.
Qed.

Lemma lang_cidrRegex (s : string) :
  Spec.lang Constraints.cidrRegex s <-> exists a b c d, Spec.cidrFormat s a b c d.
Proof.
  unfold Constraints.cidrRegex, Spec.cidrFormat, Spec.dotted. split.
  - intros (s1 & s2 & -> & (n & Hn & Hp) & (d & t & -> & Hd & Ht)).
    assert (n = 3%nat) by lia. subst n.
    destruct Hp as (g1 & r1 & -> & (a & x1 & -> & Ha & ->) & Hp).
    destruct Hp as (g2 & r2 & -> & (b & x2 & -> & Hb & ->) & Hp).
    destruct Hp as (g3 & r3 & -> & (c & x3 & -> & Hc & ->) & Hp).
    simpl in Hp. subst r3.
    destruct Ht as (y1 & y2 & -> & -> & (z1 & z2 & -> & -> & ->)).
    apply lang_octetGroup in Ha, Hb, Hc, Hd.
    exists a, b, c, d. repeat (split; [assumption|]). now norm_app.
  - intros (a & b & c & d & Ha & Hb & Hc & Hd & ->).
    apply lang_octetGroup in Ha, Hb, Hc, Hd.
    cbn [Spec.lang Spec.power] in *.
    exists ((a ++ ".") ++ (b ++ ".") ++ (c ++ ".") ++ ""), (d ++ "/28").
    split; [now norm_app|]. split.
    + exists 3%nat. split; [lia|].
      exists (a ++ "."), ((b ++ ".") ++ (c ++ ".") ++ ""). split; [reflexivity|].
      split; [exists a, "."; auto|].
      exists (b ++ "."), ((c ++ ".") ++ ""). split; [reflexivity|].
      split; [exists b, "."; auto|].
      exists (c ++ "."), "". split; [reflexivity|].
      split; [exists c, "."; auto|]. reflexivity.
    + exists d, "/28". split; [reflexivity|]. split; [exact Hd|].
      exists "/", "28". split; [reflexivity|]. split; [reflexivity|].
      exists "2", "8". auto.
Qed.

(* ================================================================= *)
(** ** Splitting a well-formatted block *)

Lemma split_lacks (sep : ascii) (s : string) :
  lacks sep s = true -> Str.split sep s = [s].
Proof.
  unfold lacks. induction s as [|c s IH]; simpl; [reflexivity|].
  rewrite andb_true_iff, negb_true_iff. intros [Hc Hs].
  rewrite Hc, (IH Hs). reflexivity.
Qed.

Lemma split_app_sep (sep : ascii) (s t : string) :
  lacks sep s = true ->
  Str.split sep (s ++ String sep t) = s :: Str.split sep t.
Proof.
  unfold lacks. induction s as [|c s IH]; simpl.
  - intros _. now rewrite Ascii.eqb_refl.
  - rewrite andb_true_iff, negb_true_iff. intros [Hc Hs].
    rewrite Hc, (IH Hs). reflexivity.
Qed.

Lemma digit_not (sep : ascii) (c : ascii) :
  Str.isDigit sep = false -> Str.isDigit c = true ->
  negb (Ascii.eqb c sep) = true.
Proof.
  intros Hsep Hc. apply negb_true_iff. destruct (Ascii.eqb_spec c sep); [|reflexivity].
  subst c. congruence.
Qed.

Lemma octetGroup_lacks (sep : ascii) (g : string) :
  Str.isDigit sep = false -> Spec.octetGroup g -> lacks sep g = true.
Proof.
  intros Hsep [_ Hd]. unfold lacks.
  apply forallb_impl with (p := Str.isDigit); [|exact Hd].
  intros c. now apply digit_not.
Qed.

Section Dotted.

Variables a b c d : string.
Hypothesis Ha : Spec.octetGroup a.
Hypothesis Hb : Spec.octetGroup b.
Hypothesis Hc : Spec.octetGroup c.
Hypothesis Hd : Spec.octetGroup d.

Lemma dotted_lacks_slash : lacks "/" (Spec.dotted a b c d) = true.
Proof.
  assert (Hs : Str.isDigit "/" = false) by reflexivity.
  pose proof (@octetGroup_lacks "/" a Hs Ha) as La.
  pose proof (@octetGroup_lacks "/" b Hs Hb) as Lb.
  pose proof (@octetGroup_lacks "/" c Hs Hc) as Lc.
  pose proof (@octetGroup_lacks "/" d Hs Hd) as Ld.
  unfold lacks, Spec.dotted in *.
  repeat (rewrite forallb_app; cbn [Str.forallb]).
  rewrite La, Lb, Lc, Ld. reflexivity.
Qed.

Lemma split_dotted : Str.split "." (Spec.dotted a b c d) = [a; b; c; d].
Proof.
  assert (Hs : Str.isDigit "." = false) by reflexivity.
  unfold Spec.dotted. cbn [append].
  rewrite !split_app_sep by (now apply octetGroup_lacks).
  rewrite split_lacks by (now apply octetGroup_lacks). reflexivity.
Qed.

Lemma first_split_cidr :
  Constraints.first (Str.split "/" (Spec.dotted a b c d ++ "/28"))
  = Spec.dotted a b c d.
Proof.
  change "/28" with (String "/" "28").
  rewrite split_app_sep by exact dotted_lacks_slash. reflexivity.
Qed.

End Dotted.

Lemma digitValue_nonneg (c : ascii) : Str.isDigit c = true -> 0 <= Str.digitValue c.
Proof.
  unfold Str.isDigit, Str.digitValue. cbv zeta.
  rewrite andb_true_iff, !Nat.leb_le. intros [H48 _]. lia.
Qed.

Lemma NumberFrom_nonneg (s : string) : forall acc,
  Str.forallb Str.isDigit s = true -> 0 <= acc -> 0 <= Str.NumberFrom acc s.
Proof.
  induction s as [|c s IH]; cbn [Str.forallb Str.NumberFrom];
    intros acc Hd Hacc; [exact Hacc|].
  apply andb_true_iff in Hd as [Hc Hs]. apply IH; [exact Hs|].
  pose proof (digitValue_nonneg c Hc). lia.
Qed.

Lemma Number_nonneg (g : string) : Spec.octetGroup g -> 0 <= Str.Number g.
Proof. intros [_ Hd]. apply NumberFrom_nonneg; [exact Hd | lia]. Qed.

Lemma outOfRange_spec (o : Z) :
  0 <= o -> (o <? 0) || (o >? 255) = negb (Spec.octetInRange o).
Proof.
  intros Ho. unfold Spec.octetInRange. rewrite Z.gtb_ltb.
  destruct (Z.ltb_spec o 0), (Z.ltb_spec 255 o), (Z.leb_spec 0 o),
    (Z.leb_spec o 255); simpl; try reflexivity; lia.
Qed.

Lemma isPrivate_spec (o0 o1 o2 o3 : Z) :
  Constraints.isPrivate [o0; o1; o2; o3] = Spec.rfc1918 o0 o1.
Proof.
  unfold Constraints.isPrivate, Constraints.eqAt, Constraints.geAt,
    Constraints.leAt, Spec.rfc1918. simpl. now rewrite Z.geb_leb.
Qed.

Lemma misaligned_spec (o0 o1 o2 o3 : Z) :
  0 <= o3 ->
  Constraints.remNonZeroAt [o0; o1; o2; o3] 3 16 = negb (Spec.aligned o3).
Proof.
  intros Ho. unfold Constraints.remNonZeroAt, Spec.aligned. simpl.
  rewrite Z.rem_mod_nonneg by lia. reflexivity.
Qed.

(** On a well-formatted block the validator is the three later stages, in
    their order. *)
Lemma validateMasterCidr_formatted (s a b c d : string) :
  Spec.cidrFormat s a b c d ->
  Constraints.validateMasterCidr s = Spec.checkOctets a b c d.
Proof.
  intros Hf.
  assert (Ht : Regex.test Constraints.cidrRegex s = true).
  { apply test_spec, lang_cidrRegex. exists a, b, c, d. exact Hf. }
  destruct Hf as (Ha & Hb & Hc & Hd & ->).
  unfold Constraints.validateMasterCidr. rewrite Ht. cbn [negb throwIf bind].
  rewrite first_split_cidr by assumption.
  rewrite split_dotted by assumption.
  cbn [map existsb].
  rewrite isPrivate_spec, misaligned_spec by (now apply Number_nonneg).
  rewrite !outOfRange_spec by (now apply Number_nonneg).
  unfold Spec.checkOctets.
  destruct (Spec.octetInRange (Str.Number a)),
    (Spec.octetInRange (Str.Number b)), (Spec.octetInRange (Str.Number c)),
    (Spec.octetInRange (Str.Number d)); cbn [negb orb andb throwIf bind];
    try reflexivity.
  destruct (Spec.rfc1918 (Str.Number a) (Str.Number b));
    cbn [negb throwIf bind]; [|reflexivity].
  destruct (Spec.aligned (Str.Number d)); reflexivity.
Qed.

Lemma validateMasterCidr_unformatted (s : string) :
  ~ (exists a b c d, Spec.cidrFormat s a b c d) ->
  Constraints.validateMasterCidr s = Err (MalformedCidrFormat s).
Proof.
  intros Hn. unfold Constraints.validateMasterCidr.
  destruct (Regex.test Constraints.cidrRegex s) eqn:Ht; [|reflexivity].
  exfalso. apply Hn. now apply lang_cidrRegex, test_spec.
Qed.

(* ================================================================= *)
(** ** The master CIDR validator *)

(** C2. For every input string, [validateMasterCidr] runs four checks in a
    fixed order and the first failing check determines the error: a string
    that is not four dot-separated groups of one to three digits followed by
    [/28] fails with MalformedCidr (and only such a string fails the format
    stage); a well-formatted string fails with MalformedCidr when an octet is
    outside 0-255, else with NotPrivateRange when the address is not
    RFC 1918 (octet0 = 10, or octet0 = 172 with 16 <= octet1 <= 31, or
    octet0 = 192 with octet1 = 168), else with MisalignedBlock when
    octet3 mod 16 is not 0, and succeeds otherwise. The seven concrete
    blocks of the specification behave as it says. *)
Theorem validateMasterCidr_stages :
  (forall s,
      Constraints.validateMasterCidr s = Err (MalformedCidrFormat s)
      <-> ~ (exists a b c d, Spec.cidrFormat s a b c d))
  /\ (forall s a b c d,
         Spec.cidrFormat s a b c d ->
         Constraints.validateMasterCidr s = Spec.checkOctets a b c d)
  /\ Constraints.validateMasterCidr "172.16.0.0/28" = Ok tt
  /\ Constraints.validateMasterCidr "172.16.0.16/28" = Ok tt
  /\ Constraints.validateMasterCidr "192.168.1.48/28" = Ok tt
  /\ (exists e, Constraints.validateMasterCidr "172.16.0.0/24" = Err e
                /\ isMalformedCidr e = true)
  /\ Constraints.validateMasterCidr "8.8.8.0/28" = Err (NotPrivateRange "8.8.8.0")
  /\ Constraints.validateMasterCidr "172.15.0.0/28"
     = Err (NotPrivateRange "172.15.0.0")
  /\ Constraints.validateMasterCidr "172.16.0.1/28"
     = Err (MisalignedBlock "172.16.0.1").
Proof.
  split; [|split; [|repeat split; try (vm_compute; reflexivity)]].
  - intros s. split.
    + intros Hv (a & b & c & d & Hf).
      rewrite (validateMasterCidr_formatted Hf) in Hv. unfold Spec.checkOctets in Hv.
      repeat match type of Hv with
             | (if ?t then _ else _) = _ => destruct t
             end; discriminate.
    + apply validateMasterCidr_unformatted.
  - intros s a b c d. apply validateMasterCidr_formatted.
  - exists (MalformedCidrFormat "172.16.0.0/24"). split; reflexivity.
Qed.

Lemma validateMasterCidr_stages_witness :
  Spec.cidrFormat "10.300.0.0/28" "10" "300" "0" "0"
  /\ Constraints.validateMasterCidr "10.300.0.0/28"
     = Err (MalformedCidrOctet "10.300.0.0").
Proof.
  assert (Hf : Spec.cidrFormat "10.300.0.0/28" "10" "300" "0" "0").
  { unfold Spec.cidrFormat, Spec.octetGroup. simpl. repeat split; lia. }
  split; [exact Hf|].
  rewrite (proj1 (proj2 validateMasterCidr_stages) _ _ _ _ _ Hf).
  reflexivity.
Defined.

Lemma octetInRange_spec (o : Z) :
  Spec.octetInRange o = true <-> 0 <= o <= 255.
Proof.
  unfold Spec.octetInRange. rewrite andb_true_iff, !Z.leb_le. reflexivity.
Qed.

Lemma rfc1918_spec (o0 o1 : Z) :
  Spec.rfc1918 o0 o1 = true
  <-> o0 = 10 \/ (o0 = 172 /\ 16 <= o1 <= 31) \/ (o0 = 192 /\ o1 = 168).
Proof.
  unfold Spec.rfc1918.
  rewrite !orb_true_iff, !andb_true_iff, !Z.eqb_eq, !Z.leb_le. tauto.
Qed.

Lemma checkOctets_ok (a b c d : string) :
  Spec.checkOctets a b c d = Ok tt
  <-> (Spec.octetInRange (Str.Number a) = true
       /\ Spec.octetInRange (Str.Number b) = true
       /\ Spec.octetInRange (Str.Number c) = true
       /\ Spec.octetInRange (Str.Number d) = true)
      /\ Spec.rfc1918 (Str.Number a) (Str.Number b) = true
      /\ Spec.aligned (Str.Number d) = true.
Proof.
  unfold Spec.checkOctets.
  destruct (Spec.octetInRange (Str.Number a)),
    (Spec.octetInRange (Str.Number b)), (Spec.octetInRange (Str.Number c)),
    (Spec.octetInRange (Str.Number d)),
    (Spec.rfc1918 (Str.Number a) (Str.Number b)),
    (Spec.aligned (Str.Number d)); simpl; split;
    intros H; try discriminate; try reflexivity; try tauto;
    decompose [and] H; discriminate.
Qed.

Lemma validateMasterCidr_block (s : string) :
  Constraints.validateMasterCidr s = Ok tt <-> Spec.privateAlignedBlock s.
Proof.
  unfold Spec.privateAlignedBlock. split.
  - intros Hv.
    destruct (Regex.test Constraints.cidrRegex s) eqn:Ht.
    + apply test_spec, lang_cidrRegex in Ht as (a & b & c & d & Hf).
      rewrite (validateMasterCidr_formatted Hf) in Hv.
      apply checkOctets_ok in Hv as ((Ha & Hb & Hc & Hd) & Hp & Hal).
      apply octetInRange_spec in Ha, Hb, Hc, Hd. apply rfc1918_spec in Hp.
      unfold Spec.aligned in Hal. apply Z.eqb_eq in Hal.
      exists a, b, c, d. repeat (split; [assumption|]). exact Hal.
    + unfold Constraints.validateMasterCidr in Hv. rewrite Ht in Hv.
      discriminate.
  - intros (a & b & c & d & Hf & Ha & Hb & Hc & Hd & Hp & Hal).
    rewrite (validateMasterCidr_formatted Hf). apply checkOctets_ok.
    rewrite !octetInRange_spec, rfc1918_spec. unfold Spec.aligned.
    rewrite Z.eqb_eq. repeat split; try lia; assumption.
Qed.

(* ================================================================= *)
(** ** Numeric bounds *)

Lemma bound_check (lo hi n : Z) : (n <? lo) || (n >? hi) = false <-> lo <= n <= hi.
Proof.
  rewrite orb_false_iff, Z.gtb_ltb, !Z.ltb_ge. lia.
Qed.

Lemma throwIf_bound (lo hi n : Z) (e : Error) :
  (throwIf ((n <? lo) || (n >? hi)) e = Ok tt <-> lo <= n <= hi)
  /\ (throwIf ((n <? lo) || (n >? hi)) e = Err e <-> ~ lo <= n <= hi).
Proof.
  rewrite throwIf_ok, throwIf_err, bound_check. split; [reflexivity|].
  rewrite <- bound_check. destruct ((n <? lo) || (n >? hi)); split;
    intuition congruence.
Qed.

(** C5. For all integers [n], the maxNodes validator succeeds iff
    1 <= n <= 50, the disk-size validator iff 30 <= n <= 200 and the
    node-count validator iff 1 <= n <= 20; otherwise each fails with
    OutOfRange. *)
Theorem validateBound_iff (n : Z) :
  (Constraints.validateMaxNodes n = Ok tt <-> 1 <= n <= 50)
  /\ (Constraints.validateMaxNodes n = Err (OutOfRange maxNodesBound n)
      <-> ~ 1 <= n <= 50)
  /\ (Constraints.validateDiskSize n = Ok tt <-> 30 <= n <= 200)
  /\ (Constraints.validateDiskSize n = Err (OutOfRange diskSizeBound n)
      <-> ~ 30 <= n <= 200)
  /\ (Constraints.validateNodeCount n = Ok tt <-> 1 <= n <= 20)
  /\ (Constraints.validateNodeCount n = Err (OutOfRange nodeCountBound n)
      <-> ~ 1 <= n <= 20).
Proof.
  unfold Constraints.validateMaxNodes, Constraints.validateDiskSize,
    Constraints.validateNodeCount. cbn [Constraints.CONSTRAINTS
    Constraints.maxNodes Constraints.diskSize Constraints.nodeCount
    Constraints.min Constraints.max].
  pose proof (throwIf_bound 1 50 n (OutOfRange maxNodesBound n)) as [? ?].
  pose proof (throwIf_bound 30 200 n (OutOfRange diskSizeBound n)) as [? ?].
  pose proof (throwIf_bound 1 20 n (OutOfRange nodeCountBound n)) as [? ?].
  repeat (split; [assumption|]). assumption.
Qed.

(* ================================================================= *)
(** ** Ordered validation *)

Lemma surfaces_firstFailure (steps : list (Result unit)) (e : Error) :
  Spec.surfaces steps e <-> Spec.firstFailure steps = Some e.
Proof.
  unfold Spec.surfaces. induction steps as [|r steps IH]; simpl.
  - split; [|discriminate]. intros (i & Hi & _). destruct i; discriminate.
  - destruct r as [[]|e0].
    + rewrite <- IH. split.
      * intros (i & Hi & Hj). destruct i as [|i]; [discriminate|].
        exists i. split; [exact Hi|]. intros j Hlt. apply (Hj (S j)). lia.
      * intros (i & Hi & Hj). exists (S i). split; [exact Hi|].
        intros [|j] Hlt; [reflexivity|]. apply Hj. lia.
    + split.
      * intros (i & Hi & Hj). destruct i as [|i]; [simpl in Hi; congruence|].
        specialize (Hj 0%nat ltac:(lia)). discriminate.
      * intros [= ->]. exists 0%nat. split; [reflexivity|]. intros j Hlt. lia.
Qed.

Ltac first_step :=
  match goal with
  | |- context [bind ?r _] =>
      destruct r as [[]|?]; cbn [bind Spec.firstFailure];
      [|split; intros [= ->]; reflexivity]
  end.

Lemma ClusterConfig_new_firstFailure (args : ClusterConfigArgs.t) (e : Error) :
  ClusterConfig.new args = Err e
  <-> Spec.firstFailure (Spec.clusterSteps args) = Some e.
Proof.
  unfold ClusterConfig.new, Spec.clusterSteps. cbv zeta.
  do 7 first_step. first_step. split; discriminate.
Qed.

Lemma NetworkConfig_new_firstFailure (args : NetworkConfigArgs.t) (e : Error) :
  NetworkConfig.new args = Err e
  <-> Spec.firstFailure (Spec.networkSteps args) = Some e.
Proof.
  unfold NetworkConfig.new, Spec.networkSteps.
  do 2 first_step. split; discriminate.
Qed.

Lemma firstFailure_none (steps : list (Result unit)) :
  Spec.firstFailure steps = None <-> forall r, In r steps -> r = Ok tt.
Proof.
  induction steps as [|r steps IH]; simpl.
  - split; [intros _ r []|reflexivity].
  - destruct r as [[]|e0].
    + rewrite IH. split.
      * intros H r [<-|Hin]; [reflexivity|auto].
      * intros H r Hin. apply H. now right.
    + split; [discriminate|]. intros H. specialize (H (Err e0) (or_introl eq_refl)).
      discriminate.
Qed.

Lemma ClusterConfig_new_ok (args : ClusterConfigArgs.t) (c : ClusterConfig.t) :
  ClusterConfig.new args = Ok c -> c = built args.
Proof.
  unfold ClusterConfig.new. cbv zeta.
  repeat match goal with
         | |- context [bind ?r _] =>
             destruct r as [[]|?]; cbn [bind]; [|discriminate]
         end.
  intros [= <-]. reflexivity.
Qed.

Lemma ClusterConfig_new_total (args : ClusterConfigArgs.t) :
  ClusterConfig.new args = Ok (built args)
  \/ exists e, ClusterConfig.new args = Err e.
Proof.
  destruct (ClusterConfig.new args) as [c|e] eqn:H.
  - left. now rewrite (ClusterConfig_new_ok _ H).
  - right. now exists e.
Qed.

Lemma ClusterConfig_new_earlier (args : ClusterConfigArgs.t) :
  Spec.earlierFieldsValid args ->
  ClusterConfig.new args =
    (throwIf (nullish (ClusterConfigArgs.minNodes args) 1
              >? nullish (ClusterConfigArgs.maxNodes args) 3)
             (MinExceedsMax (nullish (ClusterConfigArgs.minNodes args) 1)
                            (nullish (ClusterConfigArgs.maxNodes args) 3)) ;;;
     Constraints.validateMasterCidr
       (nullish (ClusterConfigArgs.masterCidr args) "172.16.0.0/28") ;;;
     Ok (built args)).
Proof.
  intros (H1 & H2 & H3 & H4 & H5 & H6).
  unfold ClusterConfig.new. cbv zeta.
  rewrite H1, H2, H3, H4, H5, H6. reflexivity.
Qed.

Lemma otherFieldsValid_earlier (args : ClusterConfigArgs.t) :
  Spec.otherFieldsValid args -> Spec.earlierFieldsValid args.
Proof. unfold Spec.otherFieldsValid, Spec.earlierFieldsValid. tauto. Qed.

Lemma ClusterConfig_new_valid (args : ClusterConfigArgs.t) :
  Spec.otherFieldsValid args ->
  ClusterConfig.new args =
    if nullish (ClusterConfigArgs.minNodes args) 1
       >? nullish (ClusterConfigArgs.maxNodes args) 3
    then Err (MinExceedsMax (nullish (ClusterConfigArgs.minNodes args) 1)
                            (nullish (ClusterConfigArgs.maxNodes args) 3))
    else Ok (built args).
Proof.
  intros Hv. rewrite ClusterConfig_new_earlier by now apply otherFieldsValid_earlier.
  destruct Hv as (_ & _ & _ & _ & _ & _ & H7).
  destruct (_ >? _); cbn [throwIf bind]; [reflexivity|].
  rewrite H7. reflexivity.
Qed.

Lemma ClusterConfig_new_succeeds (args : ClusterConfigArgs.t) :
  (exists c, ClusterConfig.new args = Ok c)
  <-> Spec.otherFieldsValid args
      /\ nullish (ClusterConfigArgs.minNodes args) 1
         <= nullish (ClusterConfigArgs.maxNodes args) 3.
Proof.
  split.
  - intros [c Hc]. revert Hc. unfold ClusterConfig.new, Spec.otherFieldsValid.
    cbv zeta.
    do 6 (match goal with
          | |- context [bind ?r _] =>
              destruct r as [[]|?]; cbn [bind]; [|discriminate]
          end).
    destruct (_ >? _) eqn:Hgt; cbn [throwIf bind]; [discriminate|].
    destruct (Constraints.validateMasterCidr _) as [[]|?]; cbn [bind];
      [|discriminate].
    intros _. repeat (split; [reflexivity|]).
    rewrite Z.gtb_ltb in Hgt. now apply Z.ltb_ge in Hgt.
  - intros [Hv Hle]. rewrite (ClusterConfig_new_valid Hv).
    replace (_ >? _) with false; [eauto|].
    symmetry. rewrite Z.gtb_ltb. now apply Z.ltb_ge.
Qed.

Lemma validateEnvironment_err (env : string) :
  Constraints.includes Constraints.ALLOWED_ENVIRONMENTS env = false ->
  Constraints.validateEnvironment env = Err (InvalidEnvironment env).
Proof. unfold Constraints.validateEnvironment. now intros ->. Qed.

Lemma validateEnvironment_ok (env : string) :
  Constraints.includes Constraints.ALLOWED_ENVIRONMENTS env = true ->
  Constraints.validateEnvironment env = Ok tt.
Proof. unfold Constraints.validateEnvironment. now intros ->. Qed.

Lemma validateRegion_ok (region : string) :
  Constraints.includes Constraints.ALLOWED_REGIONS region = true ->
  Constraints.validateRegion region = Ok tt.
Proof. unfold Constraints.validateRegion. now intros ->. Qed.

Lemma validateMachineType_err (machineType : string) :
  Constraints.includes Constraints.ALLOWED_MACHINE_TYPES machineType = false ->
  Constraints.validateMachineType machineType
  = Err (InvalidMachineType machineType).
Proof. unfold Constraints.validateMachineType. now intros ->. Qed.

(** C3. ClusterConfig construction validates environment, region,
    machineType (default e2-medium), maxNodes (default 3), diskSize
    (default 50), nodeCount (default 1), minNodes against maxNodes, defaults
    the zone to [{region}-a] and validates masterCidr (default
    172.16.0.0/28), in this order: it fails with an error exactly when that
    error is the one of the first failing step, and succeeds exactly when
    every step passes. So an invalid environment is reported whatever the
    region is, and an invalid machine type whatever the master CIDR is.
    NetworkConfig construction validates environment before region in the
    same way. *)
Theorem construction_order :
  (forall args e,
      ClusterConfig.new args = Err e <-> Spec.surfaces (Spec.clusterSteps args) e)
  /\ (forall args,
         (exists c, ClusterConfig.new args = Ok c)
         <-> forall r, In r (Spec.clusterSteps args) -> r = Ok tt)
  /\ (forall args c,
         ClusterConfig.new args = Ok c ->
         ClusterConfig.zone c
         = nullish (ClusterConfigArgs.zone args)
                   (ClusterConfigArgs.region args ++ "-a"))
  /\ (forall args,
         Constraints.includes Constraints.ALLOWED_ENVIRONMENTS
           (ClusterConfigArgs.env args) = false ->
         ClusterConfig.new args
         = Err (InvalidEnvironment (ClusterConfigArgs.env args)))
  /\ (forall args m,
         Constraints.includes Constraints.ALLOWED_ENVIRONMENTS
           (ClusterConfigArgs.env args) = true ->
         Constraints.includes Constraints.ALLOWED_REGIONS
           (ClusterConfigArgs.region args) = true ->
         ClusterConfigArgs.machineType args = Some m ->
         Constraints.includes Constraints.ALLOWED_MACHINE_TYPES m = false ->
         ClusterConfig.new args = Err (InvalidMachineType m))
  /\ (forall nargs e,
         NetworkConfig.new nargs = Err e
         <-> Spec.surfaces (Spec.networkSteps nargs) e)
  /\ (forall nargs,
         Constraints.includes Constraints.ALLOWED_ENVIRONMENTS
           (NetworkConfigArgs.env nargs) = false ->
         NetworkConfig.new nargs
         = Err (InvalidEnvironment (NetworkConfigArgs.env nargs))).
Proof.
  repeat apply conj.
  - intros args e. rewrite surfaces_firstFailure.
    apply ClusterConfig_new_firstFailure.
  - intros args. rewrite <- firstFailure_none. split.
    + intros [c Hc]. destruct (Spec.firstFailure _) as [e|] eqn:He; [|reflexivity].
      apply ClusterConfig_new_firstFailure in He. congruence.
    + intros Hn. destruct (ClusterConfig.new args) as [c|e] eqn:Hc; [now exists c|].
      apply ClusterConfig_new_firstFailure in Hc. congruence.
  - intros args c Hc. now rewrite (ClusterConfig_new_ok _ Hc).
  - intros args He. unfold ClusterConfig.new.
    now rewrite (validateEnvironment_err _ He).
  - intros args m He Hr Hm Hbad. unfold ClusterConfig.new. cbv zeta.
    rewrite (validateEnvironment_ok _ He), (validateRegion_ok _ Hr), Hm.
    cbn [nullish bind]. now rewrite (validateMachineType_err _ Hbad).
  - intros nargs e. rewrite surfaces_firstFailure.
    apply NetworkConfig_new_firstFailure.
  - intros nargs He. unfold NetworkConfig.new.
    now rewrite (validateEnvironment_err _ He).
Qed.

Lemma construction_order_witness :
  ClusterConfig.new
    (ClusterOverrides.over requiredArgs
       {| ClusterOverrides.projectId := None;
          ClusterOverrides.region := None;
          ClusterOverrides.env := None;
          ClusterOverrides.prefix := None;
          ClusterOverrides.zone := None;
          ClusterOverrides.machineType := Some "n1-standard-1";
          ClusterOverrides.nodeCount := None;
          ClusterOverrides.minNodes := None;
          ClusterOverrides.maxNodes := None;
          ClusterOverrides.diskSize := None;
          ClusterOverrides.spotInstances := None;
          ClusterOverrides.masterCidr := Some "8.8.8.8/24";
          ClusterOverrides.podRangeName := None;
          ClusterOverrides.serviceRangeName := None |})
  = Err (InvalidMachineType "n1-standard-1").
Proof.
  apply (proj1 (proj2 (proj2 (proj2 (proj2 construction_order)))));
    reflexivity.
Defined.

(* ================================================================= *)
(** ** Construction at run time *)

Lemma ltb_ofZ (a b : Z) : Runtime.ltb (Runtime.ofZ a) (Runtime.ofZ b) = (a <? b).
Proof.
  unfold Runtime.ltb, Runtime.ofZ, Qle_bool, inject_Z. cbn [Qnum Qden].
  rewrite !Z.mul_1_r. symmetry. apply Z.ltb_antisym.
Qed.

Lemma gtb_ofZ (a b : Z) : Runtime.gtb (Runtime.ofZ a) (Runtime.ofZ b) = (a >? b).
Proof. unfold Runtime.gtb. rewrite ltb_ofZ. symmetry. apply Z.gtb_ltb. Qed.

Lemma ltb_Finite (x y : Q) :
  Runtime.ltb (Runtime.Finite x) (Runtime.Finite y) = false <-> (y <= x)%Q.
Proof.
  cbn [Runtime.ltb]. rewrite negb_false_iff. apply Qle_bool_iff.
Qed.

Lemma bound_check_number (r : Constraints.Range) (n : Runtime.number) :
  Runtime.ltb n (Runtime.ofZ (Constraints.min r))
  || Runtime.gtb n (Runtime.ofZ (Constraints.max r)) = false
  <-> Spec.withinOrNaN r n.
Proof.
  unfold Spec.withinOrNaN, Runtime.gtb, Runtime.ofZ.
  destruct n as [q| | |].
  - rewrite orb_false_iff, !ltb_Finite. cbn [Spec.within]. split.
    + intros H. right. exact H.
    + intros [H|H]; [discriminate | exact H].
  - cbn. split; [discriminate | intros [H|[]]; discriminate].
  - cbn. split; [discriminate | intros [H|[]]; discriminate].
  - cbn. split; [now left | reflexivity].
Qed.

Lemma gtb_greater (a b : Runtime.number) :
  Runtime.gtb a b = true <-> Spec.greater a b.
Proof.
  unfold Runtime.gtb.
  destruct a as [x| | |], b as [y| | |]; cbn [Runtime.ltb Spec.greater];
    try (split; [discriminate | intros []]);
    try (split; [intros _; exact I | reflexivity]).
  rewrite negb_true_iff. split.
  - intros H. apply Qnot_le_lt. intros Hle.
    apply Qle_bool_iff in Hle. congruence.
  - intros H. destruct (Qle_bool x y) eqn:Hle; [|reflexivity].
    apply Qle_bool_iff in Hle. exfalso. exact (Qlt_not_le _ _ H Hle).
Qed.

Lemma runtime_throwIf_returned (c : bool) (t : Runtime.Thrown) :
  Runtime.throwIf c t = Runtime.Returned tt <-> c = false.
Proof. destruct c; simpl; split; congruence. Qed.

Lemma runtime_lift_returned (r : Result unit) :
  Runtime.lift r = Runtime.Returned tt <-> r = Ok tt.
Proof. destruct r as [[]|e]; simpl; split; congruence. Qed.

Lemma runtime_includes_In (l : list string) (v : option string) :
  Runtime.includes l v = true <-> exists s, v = Some s /\ In s l.
Proof.
  destruct v as [s|]; cbn [Runtime.includes].
  - rewrite includes_In. split.
    + intros H. now exists s.
    + intros (s' & [= <-] & H). exact H.
  - split; [discriminate | intros (s & H & _); discriminate].
Qed.

Lemma runtime_new_steps (args : Runtime.ClusterConfigArgs.t)
    (c : Runtime.ClusterConfig.t) :
  Runtime.ClusterConfig.new args = Runtime.Returned c
  <-> c = runtimeBuilt args /\ runtimeStepsPass args.
Proof.
  unfold Runtime.ClusterConfig.new, runtimeStepsPass. cbv zeta. split.
  - destruct (Runtime.validateEnvironment _) as [[]|?];
      cbn [Runtime.andThen]; [|discriminate].
    destruct (Runtime.validateRegion _) as [[]|?];
      cbn [Runtime.andThen]; [|discriminate].
    destruct (Constraints.validateMachineType _) as [[]|?];
      cbn [Runtime.lift Runtime.andThen]; [|discriminate].
    destruct (Runtime.validateMaxNodes _) as [[]|?];
      cbn [Runtime.andThen]; [|discriminate].
    destruct (Runtime.validateDiskSize _) as [[]|?];
      cbn [Runtime.andThen]; [|discriminate].
    destruct (Runtime.validateNodeCount _) as [[]|?];
      cbn [Runtime.andThen]; [|discriminate].
    destruct (Runtime.gtb _ _);
      cbn [Runtime.throwIf Runtime.andThen]; [discriminate|].
    destruct (Constraints.validateMasterCidr _) as [[]|?];
      cbn [Runtime.lift Runtime.andThen]; [|discriminate].
    intros [= <-]. split; [reflexivity|]. repeat split.
  - intros (-> & H1 & H2 & H3 & H4 & H5 & H6 & H7 & H8).
    rewrite H1, H2, H3, H4, H5, H6, H7, H8. reflexivity.
Qed.

Lemma runtimeStepsPass_accepted (args : Runtime.ClusterConfigArgs.t) :
  runtimeStepsPass args <-> Spec.accepted (runtimeBuilt args).
Proof.
  unfold runtimeStepsPass, Spec.accepted, runtimeBuilt,
    Runtime.validateEnvironment, Runtime.validateRegion,
    Constraints.validateMachineType, Runtime.validateMaxNodes,
    Runtime.validateDiskSize, Runtime.validateNodeCount.
  cbn [Runtime.ClusterConfig.env Runtime.ClusterConfig.region
       Runtime.ClusterConfig.machineType Runtime.ClusterConfig.maxNodes
       Runtime.ClusterConfig.diskSize Runtime.ClusterConfig.nodeCount
       Runtime.ClusterConfig.minNodes Runtime.ClusterConfig.masterCidr].
  rewrite !runtime_throwIf_returned, throwIf_ok, !negb_false_iff,
    !runtime_includes_In, includes_In, !bound_check_number,
    validateMasterCidr_block.
  rewrite <- gtb_greater, not_true_iff_false. reflexivity.
Qed.


Lemma runtime_new_accepted (args : Runtime.ClusterConfigArgs.t)
    (c : Runtime.ClusterConfig.t) :
  Runtime.ClusterConfig.new args = Runtime.Returned c
  <-> c = runtimeBuilt args /\ Spec.accepted c.
Proof.
  rewrite runtime_new_steps, runtimeStepsPass_accepted. split.
  - intros [-> H]. split; [reflexivity | exact H].
  - intros [-> H]. split; [reflexivity | exact H].
Qed.

(* ================================================================= *)
(** ** minNodes and maxNodes *)






Lemma otherFieldsValid_withMinNodes (m : option Z) (args : ClusterConfigArgs.t) :
  Spec.otherFieldsValid (ClusterConfigArgs.withMinNodes m args)
  <-> Spec.otherFieldsValid args.
Proof. reflexivity. Qed.

Lemma maxNodes_valid (args : ClusterConfigArgs.t) :
  Spec.otherFieldsValid args ->
  1 <= nullish (ClusterConfigArgs.maxNodes args) 3 <= 50.
Proof.
  intros (_ & _ & _ & H & _).
  now apply (throwIf_bound 1 50 _ (OutOfRange maxNodesBound _)) in H.
Qed.

(** C9. minNodes has no bound range of its own. For every otherwise-valid
    ClusterConfig input and every integer [m], construction with
    [minNodes = m] succeeds and stores [m] unchanged when [m] is at most the
    resolved maxNodes -- in particular for zero and every negative [m] --
    and fails with MinExceedsMax otherwise. For every input, valid or not,
    the only error that changing minNodes can bring in is MinExceedsMax. *)
Theorem minNodes_unchecked :
  (forall args m,
      Spec.otherFieldsValid args ->
      m <= nullish (ClusterConfigArgs.maxNodes args) 3 ->
      exists c,
        ClusterConfig.new (ClusterConfigArgs.withMinNodes (Some m) args) = Ok c
        /\ ClusterConfig.minNodes c = m)
  /\ (forall args m,
         Spec.otherFieldsValid args -> m <= 0 ->
         exists c,
           ClusterConfig.new (ClusterConfigArgs.withMinNodes (Some m) args) = Ok c
           /\ ClusterConfig.minNodes c = m)
  /\ (forall args m,
         Spec.otherFieldsValid args ->
         m > nullish (ClusterConfigArgs.maxNodes args) 3 ->
         ClusterConfig.new (ClusterConfigArgs.withMinNodes (Some m) args)
         = Err (MinExceedsMax m (nullish (ClusterConfigArgs.maxNodes args) 3)))
  /\ (forall args m m' e,
         ClusterConfig.new (ClusterConfigArgs.withMinNodes m args) = Err e ->
         (exists a b, e = MinExceedsMax a b)
         \/ ClusterConfig.new (ClusterConfigArgs.withMinNodes m' args) = Err e
         \/ exists a b,
              ClusterConfig.new (ClusterConfigArgs.withMinNodes m' args)
              = Err (MinExceedsMax a b)).
Proof.
  assert (Hle : forall args m,
      Spec.otherFieldsValid args ->
      m <= nullish (ClusterConfigArgs.maxNodes args) 3 ->
      exists c,
        ClusterConfig.new (ClusterConfigArgs.withMinNodes (Some m) args) = Ok c
        /\ ClusterConfig.minNodes c = m).
  { intros args m Hv Hm.
    apply (otherFieldsValid_withMinNodes (Some m)) in Hv.
    rewrite (ClusterConfig_new_valid Hv). cbn [ClusterConfigArgs.withMinNodes
      ClusterConfigArgs.minNodes ClusterConfigArgs.maxNodes nullish].
    replace (m >? _) with false.
    - eexists. split; reflexivity.
    - symmetry. rewrite Z.gtb_ltb. apply Z.ltb_ge. exact Hm. }
  repeat apply conj.
  - exact Hle.
  - intros args m Hv Hm. apply Hle; [exact Hv|].
    pose proof (maxNodes_valid Hv). lia.
  - intros args m Hv Hm.
    apply (otherFieldsValid_withMinNodes (Some m)) in Hv.
    rewrite (ClusterConfig_new_valid Hv). cbn [ClusterConfigArgs.withMinNodes
      ClusterConfigArgs.minNodes ClusterConfigArgs.maxNodes nullish].
    replace (m >? _) with true; [reflexivity|].
    symmetry. apply Z.gtb_lt. lia.
  - intros args m m' e. unfold ClusterConfig.new. cbv zeta.
    cbn [ClusterConfigArgs.withMinNodes ClusterConfigArgs.env
      ClusterConfigArgs.region ClusterConfigArgs.machineType
      ClusterConfigArgs.maxNodes ClusterConfigArgs.diskSize
      ClusterConfigArgs.nodeCount ClusterConfigArgs.minNodes
      ClusterConfigArgs.masterCidr].
    do 6 (match goal with
          | |- context [bind ?r _] =>
              destruct r as [[]|?]; cbn [bind]; [|intros [= ->]; right; left; reflexivity]
          end).
    destruct (nullish m 1 >? _); cbn [throwIf bind].
    + intros [= <-]. left. eauto.
    + destruct (nullish m' 1 >? _); cbn [throwIf bind]; [right; right; eauto|].
      destruct (Constraints.validateMasterCidr _) as [[]|?]; cbn [bind].
      * discriminate.
      * intros [= ->]. right. left. reflexivity.
Qed.

Lemma minNodes_unchecked_witness :
  exists c,
    ClusterConfig.new (ClusterConfigArgs.withMinNodes (Some (-7)) requiredArgs)
    = Ok c
    /\ ClusterConfig.minNodes c = -7.
Proof.
  apply (proj1 (proj2 minNodes_unchecked)).
  - repeat split.
  - lia.
Defined.

(* ================================================================= *)
(** ** NetworkConfig *)

(** C10. NetworkConfig construction validates only environment and region:
    it succeeds exactly when both are allowed, whatever the other fields
    are, and the strings supplied as primary, pod and service CIDR -- CIDR
    blocks or not -- are stored verbatim. *)
Theorem network_cidrs_unvalidated :
  (forall args,
      isOk (NetworkConfig.new args)
      = Constraints.includes Constraints.ALLOWED_ENVIRONMENTS
          (NetworkConfigArgs.env args)
        && Constraints.includes Constraints.ALLOWED_REGIONS
             (NetworkConfigArgs.region args))
  /\ (forall args primary pod service,
         Constraints.includes Constraints.ALLOWED_ENVIRONMENTS
           (NetworkConfigArgs.env args) = true ->
         Constraints.includes Constraints.ALLOWED_REGIONS
           (NetworkConfigArgs.region args) = true ->
         NetworkConfigArgs.cidr args = Some primary ->
         NetworkConfigArgs.podCidr args = Some pod ->
         NetworkConfigArgs.serviceCidr args = Some service ->
         exists c,
           NetworkConfig.new args = Ok c
           /\ NetworkConfig.cidr c = primary
           /\ NetworkConfig.podCidr c = pod
           /\ NetworkConfig.serviceCidr c = service).
Proof.
  split.
  - intros args. unfold NetworkConfig.new, Constraints.validateEnvironment,
      Constraints.validateRegion.
    destruct (Constraints.includes Constraints.ALLOWED_ENVIRONMENTS _);
      [|reflexivity].
    destruct (Constraints.includes Constraints.ALLOWED_REGIONS _); reflexivity.
  - intros args primary pod service He Hr Hc Hp Hs. unfold NetworkConfig.new.
    rewrite (validateEnvironment_ok _ He), (validateRegion_ok _ Hr), Hc, Hp, Hs.
    eexists. cbn [bind nullish]. repeat split.
Qed.

Lemma network_cidrs_unvalidated_witness :
  exists c,
    NetworkConfig.new
      {| NetworkConfigArgs.projectId := "test-project";
         NetworkConfigArgs.region := "us-central1";
         NetworkConfigArgs.env := "dev";
         NetworkConfigArgs.prefix := "myapp";
         NetworkConfigArgs.cidr := Some "not a cidr";
         NetworkConfigArgs.podCidr := Some "";
         NetworkConfigArgs.serviceCidr := Some "999.999.999.999/99";
         NetworkConfigArgs.podRangeName := None;
         NetworkConfigArgs.serviceRangeName := None |} = Ok c
    /\ NetworkConfig.cidr c = "not a cidr"
    /\ NetworkConfig.podCidr c = ""
    /\ NetworkConfig.serviceCidr c = "999.999.999.999/99".
Proof.
  apply (proj2 network_cidrs_unvalidated); reflexivity.
Defined.

(* ================================================================= *)
(** ** Profiles *)

Lemma nullish_orElse_Some {A : Type} (o : option A) (d x : A) :
  nullish (orElse o (Some d)) x = nullish o d.
Proof. destruct o; reflexivity. Qed.

Lemma nullish_orElse_None {A : Type} (o : option A) (x : A) :
  nullish (orElse o None) x = nullish o x.
Proof. destruct o; reflexivity. Qed.

Lemma getClusterConfig_merge (p : Profile.PlatformProfile)
    (overrides : option ClusterOverrides.t) :
  Profile.getClusterConfig p overrides
  = ClusterConfig.new (merged p overrides).
Proof.
  unfold Profile.getClusterConfig, merged. destruct (Profile.kind p); reflexivity.
Qed.

Lemma compliant_iff (args : ClusterConfigArgs.t) :
  Spec.compliant (built args)
  <-> Spec.otherFieldsValid args
      /\ nullish (ClusterConfigArgs.minNodes args) 1
         <= nullish (ClusterConfigArgs.maxNodes args) 3.
Proof.
  unfold Spec.compliant, Spec.otherFieldsValid, built,
    Constraints.validateEnvironment, Constraints.validateRegion,
    Constraints.validateMachineType, Constraints.validateMaxNodes,
    Constraints.validateDiskSize, Constraints.validateNodeCount.
  cbn [ClusterConfig.env ClusterConfig.region ClusterConfig.machineType
       ClusterConfig.maxNodes ClusterConfig.diskSize ClusterConfig.nodeCount
       ClusterConfig.minNodes ClusterConfig.masterCidr
       Constraints.CONSTRAINTS Constraints.maxNodes Constraints.diskSize
       Constraints.nodeCount Constraints.min Constraints.max].
  rewrite !throwIf_ok, !negb_false_iff, !includes_In, !bound_check,
    validateMasterCidr_block. tauto.
Qed.

Lemma ClusterConfig_new_compliant (args : ClusterConfigArgs.t)
    (c : ClusterConfig.t) :
  ClusterConfig.new args = Ok c <-> c = built args /\ Spec.compliant c.
Proof.
  split.
  - intros Hc. pose proof (ClusterConfig_new_ok _ Hc) as ->. split; [reflexivity|].
    apply compliant_iff, ClusterConfig_new_succeeds. eauto.
  - intros [-> Hcomp]. apply compliant_iff in Hcomp as [Hv Hle].
    rewrite (ClusterConfig_new_valid Hv).
    replace (_ >? _) with false; [reflexivity|].
    symmetry. rewrite Z.gtb_ltb. now apply Z.ltb_ge.
Qed.

(* ================================================================= *)
(** ** Profiles at run time *)

Lemma runtime_getClusterConfig_merge (p : Profile.PlatformProfile)
    (overrides : option Runtime.ClusterOverrides.t) :
  Runtime.Profile.getClusterConfig p overrides
  = Runtime.ClusterConfig.new (runtimeMerged p overrides).
Proof.
  unfold Runtime.Profile.getClusterConfig, runtimeMerged.
  destruct (Profile.kind p); reflexivity.
Qed.


Lemma nullish_spread_None {A : Type} (o : Runtime.Property A) (d : A) :
  nullish (Runtime.spread None o) d = nullish (Spec.carried o) d.
Proof. destruct o as [[v|]|]; reflexivity. Qed.

Lemma spread_effective {A : Type} (o : Runtime.Property A) (base : A) :
  Runtime.spread (Some base) o = Spec.effective o base.
Proof. destruct o; reflexivity. Qed.

(* ================================================================= *)
(** ** The two embeddings agree

    On integers, and on overrides whose properties carry values, the
    constructors and the profiles at run time do what the first embedding
    says. *)

Lemma nullish_option_map {A B : Type} (f : A -> B) (o : option A) (d : A) :
  nullish (option_map f o) (f d) = f (nullish o d).
Proof. destruct o; reflexivity. Qed.

Lemma ClusterConfig_new_refines (args : ClusterConfigArgs.t) :
  Runtime.ClusterConfig.new (AtRuntime.clusterArgs args)
  = AtRuntime.outcome AtRuntime.clusterConfig (ClusterConfig.new args).
Proof.
  destruct args as [projectId region env prefix zone machineType nodeCount
                    minNodes maxNodes diskSize spotInstances masterCidr
                    podRangeName serviceRangeName].
  unfold Runtime.ClusterConfig.new, ClusterConfig.new. cbv zeta.
  cbn [AtRuntime.clusterArgs
       ClusterConfigArgs.projectId ClusterConfigArgs.region
       ClusterConfigArgs.env ClusterConfigArgs.prefix ClusterConfigArgs.zone
       ClusterConfigArgs.machineType ClusterConfigArgs.nodeCount
       ClusterConfigArgs.minNodes ClusterConfigArgs.maxNodes
       ClusterConfigArgs.diskSize ClusterConfigArgs.spotInstances
       ClusterConfigArgs.masterCidr ClusterConfigArgs.podRangeName
       ClusterConfigArgs.serviceRangeName
       Runtime.ClusterConfigArgs.projectId Runtime.ClusterConfigArgs.region
       Runtime.ClusterConfigArgs.env Runtime.ClusterConfigArgs.prefix
       Runtime.ClusterConfigArgs.zone Runtime.ClusterConfigArgs.machineType
       Runtime.ClusterConfigArgs.nodeCount Runtime.ClusterConfigArgs.minNodes
       Runtime.ClusterConfigArgs.maxNodes Runtime.ClusterConfigArgs.diskSize
       Runtime.ClusterConfigArgs.spotInstances
       Runtime.ClusterConfigArgs.masterCidr
       Runtime.ClusterConfigArgs.podRangeName
       Runtime.ClusterConfigArgs.serviceRangeName].
  rewrite !nullish_option_map.
  unfold Runtime.validateEnvironment, Runtime.validateRegion,
    Runtime.validateMaxNodes, Runtime.validateDiskSize,
    Runtime.validateNodeCount, Constraints.validateEnvironment,
    Constraints.validateRegion, Constraints.validateMachineType,
    Constraints.validateMaxNodes, Constraints.validateDiskSize,
    Constraints.validateNodeCount.
  cbn [Runtime.includes Runtime.interpolate].
  rewrite !ltb_ofZ, !gtb_ofZ.
  destruct (Constraints.includes Constraints.ALLOWED_ENVIRONMENTS env);
    [|reflexivity].
  destruct (Constraints.includes Constraints.ALLOWED_REGIONS region);
    [|reflexivity].
  destruct (Constraints.includes Constraints.ALLOWED_MACHINE_TYPES _);
    [|reflexivity].
  cbn [negb throwIf Runtime.throwIf Runtime.lift bind Runtime.andThen].
  do 3 (match goal with
        | |- context [Runtime.throwIf ?c _] =>
            destruct c; cbn [throwIf Runtime.throwIf bind Runtime.andThen];
            [reflexivity|]
        end).
  destruct (_ >? _); cbn [throwIf Runtime.throwIf bind Runtime.andThen];
    [reflexivity|].
  destruct (Constraints.validateMasterCidr _) as [[]|e] eqn:Hm;
    cbn [Runtime.lift bind Runtime.andThen AtRuntime.outcome].
  - reflexivity.
  - replace (AtRuntime.thrown e) with (Runtime.Raised e); [reflexivity|].
    revert Hm. unfold Constraints.validateMasterCidr.
    repeat match goal with
           | |- context [bind (throwIf ?c _) _] =>
               destruct c; cbn [throwIf bind]; [intros [= <-]; reflexivity|]
           end.
    destruct (Constraints.remNonZeroAt _ _ _); cbn [throwIf];
      [intros [= <-]; reflexivity | discriminate].
Qed.

Lemma spread_property {A B : Type} (f : A -> B) (base o : option A) :
  Runtime.spread (option_map f base) (AtRuntime.property f o)
  = option_map f (orElse o base).
Proof. destruct o; reflexivity. Qed.

Lemma spread_valued {A : Type} (base o : option A) :
  Runtime.spread base (AtRuntime.valued o) = orElse o base.
Proof. destruct o; reflexivity. Qed.

Lemma spread_required {A : Type} (base : A) (o : option A) :
  Runtime.spread (Some base) (AtRuntime.valued o) = Some (nullish o base).
Proof. destruct o; reflexivity. Qed.

Lemma over_refines (base : ClusterConfigArgs.t) (o : ClusterOverrides.t) :
  Runtime.ClusterOverrides.over (AtRuntime.clusterArgs base)
    (AtRuntime.clusterOverrides o)
  = AtRuntime.clusterArgs (ClusterOverrides.over base o).
Proof.
  unfold Runtime.ClusterOverrides.over, AtRuntime.clusterArgs,
    AtRuntime.clusterOverrides, ClusterOverrides.over.
  cbn [Runtime.ClusterConfigArgs.projectId Runtime.ClusterConfigArgs.region
       Runtime.ClusterConfigArgs.env Runtime.ClusterConfigArgs.prefix
       Runtime.ClusterConfigArgs.zone Runtime.ClusterConfigArgs.machineType
       Runtime.ClusterConfigArgs.nodeCount Runtime.ClusterConfigArgs.minNodes
       Runtime.ClusterConfigArgs.maxNodes Runtime.ClusterConfigArgs.diskSize
       Runtime.ClusterConfigArgs.spotInstances
       Runtime.ClusterConfigArgs.masterCidr
       Runtime.ClusterConfigArgs.podRangeName
       Runtime.ClusterConfigArgs.serviceRangeName
       Runtime.ClusterOverrides.projectId Runtime.ClusterOverrides.region
       Runtime.ClusterOverrides.env Runtime.ClusterOverrides.prefix
       Runtime.ClusterOverrides.zone Runtime.ClusterOverrides.machineType
       Runtime.ClusterOverrides.nodeCount Runtime.ClusterOverrides.minNodes
       Runtime.ClusterOverrides.maxNodes Runtime.ClusterOverrides.diskSize
       Runtime.ClusterOverrides.spotInstances
       Runtime.ClusterOverrides.masterCidr
       Runtime.ClusterOverrides.podRangeName
       Runtime.ClusterOverrides.serviceRangeName
       ClusterConfigArgs.projectId ClusterConfigArgs.region
       ClusterConfigArgs.env ClusterConfigArgs.prefix ClusterConfigArgs.zone
       ClusterConfigArgs.machineType ClusterConfigArgs.nodeCount
       ClusterConfigArgs.minNodes ClusterConfigArgs.maxNodes
       ClusterConfigArgs.diskSize ClusterConfigArgs.spotInstances
       ClusterConfigArgs.masterCidr ClusterConfigArgs.podRangeName
       ClusterConfigArgs.serviceRangeName].
  rewrite !spread_required, !spread_valued, !spread_property. reflexivity.
Qed.

Lemma getClusterConfig_refines (p : Profile.PlatformProfile)
    (overrides : option ClusterOverrides.t) :
  Runtime.Profile.getClusterConfig p
    (option_map AtRuntime.clusterOverrides overrides)
  = AtRuntime.outcome AtRuntime.clusterConfig
      (Profile.getClusterConfig p overrides).
Proof.
  rewrite getClusterConfig_merge, runtime_getClusterConfig_merge,
    <- ClusterConfig_new_refines.
  f_equal. unfold runtimeMerged, merged. cbv zeta.
  rewrite <- over_refines. f_equal. destruct overrides; reflexivity.
Qed.

Lemma NetworkConfig_new_refines (args : NetworkConfigArgs.t) :
  Runtime.NetworkConfig.new (AtRuntime.networkArgs args)
  = AtRuntime.outcome AtRuntime.networkConfig (NetworkConfig.new args).
Proof.
  destruct args as [projectId region env prefix cidr podCidr serviceCidr
                    podRangeName serviceRangeName].
  unfold Runtime.NetworkConfig.new, NetworkConfig.new,
    Runtime.validateEnvironment, Runtime.validateRegion,
    Constraints.validateEnvironment, Constraints.validateRegion.
  cbn [AtRuntime.networkArgs Runtime.NetworkConfigArgs.env
       Runtime.NetworkConfigArgs.region NetworkConfigArgs.env
       NetworkConfigArgs.region Runtime.includes Runtime.interpolate].
  destruct (Constraints.includes Constraints.ALLOWED_ENVIRONMENTS env);
    [|reflexivity].
  destruct (Constraints.includes Constraints.ALLOWED_REGIONS region);
    reflexivity.
Qed.

Lemma getNetworkConfig_refines (p : Profile.PlatformProfile)
    (overrides : option NetworkOverrides.t) :
  Runtime.Profile.getNetworkConfig p
    (option_map AtRuntime.networkOverrides overrides)
  = AtRuntime.outcome AtRuntime.networkConfig
      (Profile.getNetworkConfig p overrides).
Proof.
  unfold Runtime.Profile.getNetworkConfig, Profile.getNetworkConfig.
  rewrite <- NetworkConfig_new_refines. f_equal.
  destruct overrides as [o|]; [|reflexivity].
  unfold Runtime.NetworkOverrides.over, AtRuntime.networkArgs,
    AtRuntime.networkOverrides, NetworkOverrides.over.
  cbn [option_map nullish
       Runtime.NetworkConfigArgs.projectId Runtime.NetworkConfigArgs.region
       Runtime.NetworkConfigArgs.env Runtime.NetworkConfigArgs.prefix
       Runtime.NetworkConfigArgs.cidr Runtime.NetworkConfigArgs.podCidr
       Runtime.NetworkConfigArgs.serviceCidr
       Runtime.NetworkConfigArgs.podRangeName
       Runtime.NetworkConfigArgs.serviceRangeName
       Runtime.NetworkOverrides.projectId Runtime.NetworkOverrides.region
       Runtime.NetworkOverrides.env Runtime.NetworkOverrides.prefix
       Runtime.NetworkOverrides.cidr Runtime.NetworkOverrides.podCidr
       Runtime.NetworkOverrides.serviceCidr
       Runtime.NetworkOverrides.podRangeName
       Runtime.NetworkOverrides.serviceRangeName
       NetworkConfigArgs.projectId NetworkConfigArgs.region
       NetworkConfigArgs.env NetworkConfigArgs.prefix NetworkConfigArgs.cidr
       NetworkConfigArgs.podCidr NetworkConfigArgs.serviceCidr
       NetworkConfigArgs.podRangeName NetworkConfigArgs.serviceRangeName].
  rewrite !spread_required, !spread_valued. reflexivity.
Qed.

(* ================================================================= *)
(** ** Overrides at run time *)









(* ================================================================= *)
(** ** The composite *)

Lemma new_withSecretIds (name : string) (args : StandardPlatformArgs.t)
    (ids : option (list string)) (p0 : StandardPlatform.t) :
  StandardPlatform.new name (StandardPlatformArgs.withSecretIds None args)
  = Ok p0 ->
  StandardPlatform.new name (StandardPlatformArgs.withSecretIds ids args)
  = (s <- StandardPlatform.declareSecrets name ids ;; Ok (withSecrets s p0)).
Proof.
  destruct args as [projectId region env prefix sids wi co labels].
  unfold StandardPlatform.new. cbv zeta.
  cbn [StandardPlatformArgs.withSecretIds StandardPlatformArgs.projectId
       StandardPlatformArgs.region StandardPlatformArgs.env
       StandardPlatformArgs.prefix StandardPlatformArgs.secretIds
       StandardPlatformArgs.workloadIdentity
       StandardPlatformArgs.clusterOverrides StandardPlatformArgs.labels].
  destruct (Profile.getNetworkConfig _ _) as [nc|?]; cbn [bind]; [|discriminate].
  destruct (StandardPlatform.clusterConfigOf _ _ _) as [c|?]; cbn [bind];
    [|discriminate].
  cbn [StandardPlatform.declareSecrets bind].
  destruct (StandardPlatform.declareIdentity _ _ _) as [i|?]; cbn [bind].
  - intros [= <-]. destruct (StandardPlatform.declareSecrets name ids);
      reflexivity.
  - discriminate.
Qed.

Lemma new_withWorkloadIdentity (name : string) (args : StandardPlatformArgs.t)
    (wi : option WorkloadIdentityConfig.t) (p0 : StandardPlatform.t) :
  StandardPlatform.new name (StandardPlatformArgs.withWorkloadIdentity None args)
  = Ok p0 ->
  StandardPlatform.new name (StandardPlatformArgs.withWorkloadIdentity wi args)
  = (i <- StandardPlatform.declareIdentity name
            (StandardPlatformArgs.projectId args) wi ;;
     Ok (withIdentity i p0)).
Proof.
  destruct args as [projectId region env prefix sids wi0 co labels].
  unfold StandardPlatform.new. cbv zeta.
  cbn [StandardPlatformArgs.withWorkloadIdentity StandardPlatformArgs.projectId
       StandardPlatformArgs.region StandardPlatformArgs.env
       StandardPlatformArgs.prefix StandardPlatformArgs.secretIds
       StandardPlatformArgs.workloadIdentity
       StandardPlatformArgs.clusterOverrides StandardPlatformArgs.labels].
  destruct (Profile.getNetworkConfig _ _) as [nc|?]; cbn [bind]; [|discriminate].
  destruct (StandardPlatform.clusterConfigOf _ _ _) as [c|?]; cbn [bind];
    [|discriminate].
  destruct (StandardPlatform.declareSecrets _ _) as [s|?]; cbn [bind];
    [|discriminate].
  cbn [StandardPlatform.declareIdentity bind].
  intros [= <-]. destruct (StandardPlatform.declareIdentity name projectId wi);
    reflexivity.
Qed.

(* ================================================================= *)
(** ** Secrets *)

Lemma trimStart_falsy (s : string) :
  Str.falsy (Str.trimStart s) = Str.forallb Str.isSpace s.
Proof.
  induction s as [|c s IH]; simpl; [reflexivity|].
  destruct (Str.isSpace c); [exact IH | reflexivity].
Qed.

Lemma forallb_trimStart (s : string) :
  Str.forallb Str.isSpace (Str.trimStart s) = Str.forallb Str.isSpace s.
Proof.
  induction s as [|c s IH]; simpl; [reflexivity|].
  destruct (Str.isSpace c) eqn:Hc; [exact IH|]. simpl. now rewrite Hc.
Qed.

Lemma forallb_rev (p : ascii -> bool) (s : string) :
  Str.forallb p (Str.rev s) = Str.forallb p s.
Proof.
  induction s as [|c s IH]; simpl; [reflexivity|].
  rewrite forallb_app, IH. simpl. rewrite andb_true_r. apply andb_comm.
Qed.

Lemma falsy_rev (s : string) : Str.falsy (Str.rev s) = Str.falsy s.
Proof.
  destruct s as [|c s]; simpl; [reflexivity|].
  destruct (Str.rev s); reflexivity.
Qed.

(** [trim] leaves nothing exactly of the strings made of white space. *)
Lemma trim_falsy (s : string) :
  Str.falsy (Str.trim s) = Str.forallb Str.isSpace s.
Proof.
  unfold Str.trim, Str.trimEnd.
  now rewrite falsy_rev, trimStart_falsy, forallb_rev, forallb_trimStart.
Qed.

Lemma wellFormedId_check (id : string) :
  Spec.wellFormedId id ->
  Str.falsy id || Str.falsy (Str.trim id) = false.
Proof.
  intros [Hne Hsp]. rewrite trim_falsy, Hsp.
  destruct id; [congruence | reflexivity].
Qed.

Lemma get_set_same {V : Type} (k : string) (v : V) (d : Dict.t V) :
  Dict.get k (Dict.set k v d) = Some v.
Proof.
  induction d as [|[k' v'] d IH]; simpl.
  - now rewrite String.eqb_refl.
  - destruct (String.eqb k' k) eqn:Hk; simpl.
    + now rewrite String.eqb_refl.
    + now rewrite Hk.
Qed.

Lemma get_set_other {V : Type} (k k0 : string) (v : V) (d : Dict.t V) :
  k <> k0 -> Dict.get k0 (Dict.set k v d) = Dict.get k0 d.
Proof.
  intros Hne. induction d as [|[k' v'] d IH]; simpl.
  - apply String.eqb_neq in Hne. now rewrite Hne.
  - destruct (String.eqb k' k) eqn:Hk; simpl.
    + apply String.eqb_eq in Hk. subst k'.
      apply String.eqb_neq in Hne. now rewrite Hne.
    + destruct (String.eqb k' k0); [reflexivity | exact IH].
Qed.

Lemma declare_err (name : string) (ids : list string) :
  forall m e, StandardSecrets.declare name ids m = Err e -> e = BlankSecretId.
Proof.
  induction ids as [|id ids IH]; intros m e; simpl; [discriminate|].
  destruct (_ || _); cbn [throwIf bind].
  - now intros [= <-].
  - apply IH.
Qed.

Lemma declare_ok (name : string) (ids : list string) :
  Forall Spec.wellFormedId ids ->
  forall m, exists m', StandardSecrets.declare name ids m = Ok m'.
Proof.
  induction 1 as [|id ids Hid _ IH]; intros m; simpl; [eauto|].
  rewrite (wellFormedId_check Hid). cbn [throwIf bind]. apply IH.
Qed.

Lemma declare_get (name : string) (ids : list string) :
  forall m m' id,
    StandardSecrets.declare name ids m = Ok m' ->
    (In id ids ->
     Dict.get id m' = Some (secretOf name id))
    /\ (~ In id ids -> Dict.get id m' = Dict.get id m).
Proof.
  induction ids as [|a ids IH]; intros m m' id; simpl.
  - intros [= <-]. split; [intros [] | reflexivity].
  - destruct (_ || _); cbn [throwIf bind]; [discriminate|].
    intros Hd. destruct (IH _ _ id Hd) as [Hin Hout]. split.
    + intros Hor. destruct (in_dec string_dec id ids) as [Hi|Hi]; [auto|].
      destruct Hor as [->|Hi']; [|contradiction].
      rewrite (Hout Hi). apply get_set_same.
    + intros Hnot. rewrite Hout by tauto. apply get_set_other. tauto.
Qed.

Lemma config_error_not_EmptySecretList_network (args : NetworkConfigArgs.t) :
  NetworkConfig.new args <> Err EmptySecretList.
Proof.
  unfold NetworkConfig.new, Constraints.validateEnvironment,
    Constraints.validateRegion.
  repeat match goal with
         | |- context [throwIf ?c _] => destruct c; cbn [throwIf bind]
         end; discriminate.
Qed.

Lemma config_error_not_EmptySecretList_cluster (args : ClusterConfigArgs.t) :
  ClusterConfig.new args <> Err EmptySecretList.
Proof.
  unfold ClusterConfig.new, Constraints.validateEnvironment,
    Constraints.validateRegion, Constraints.validateMachineType,
    Constraints.validateMaxNodes, Constraints.validateDiskSize,
    Constraints.validateNodeCount, Constraints.validateMasterCidr.
  cbv zeta.
  repeat match goal with
         | |- context [throwIf ?c _] => destruct c; cbn [throwIf bind]
         end; discriminate.
Qed.

Lemma declareSecrets_not_EmptySecretList (name : string)
    (ids : option (list string)) :
  StandardPlatform.declareSecrets name ids <> Err EmptySecretList.
Proof.
  unfold StandardPlatform.declareSecrets, StandardSecrets.new.
  destruct ids as [[|id ids]|]; cbn [List.length Nat.ltb Nat.leb Nat.eqb throwIf bind];
    try discriminate.
  destruct (StandardSecrets.declare _ _ _) eqn:Hd; cbn [bind]; [discriminate|].
  apply declare_err in Hd. subst. discriminate.
Qed.

Lemma declareIdentity_not_EmptySecretList (name projectId : string)
    (wi : option WorkloadIdentityConfig.t) :
  StandardPlatform.declareIdentity name projectId wi <> Err EmptySecretList.
Proof.
  unfold StandardPlatform.declareIdentity, StandardIdentity.new.
  destruct wi as [wi|]; [|discriminate]. cbv zeta.
  cbn [StandardIdentity.projectId StandardIdentity.saId
       StandardIdentity.k8sNamespace StandardIdentity.k8sSaName].
  repeat match goal with
         | |- context [throwIf ?c _] => destruct c; cbn [throwIf bind]
         end; discriminate.
Qed.

Lemma new_not_EmptySecretList (name : string) (args : StandardPlatformArgs.t) :
  StandardPlatform.new name args <> Err EmptySecretList.
Proof.
  unfold StandardPlatform.new. cbv zeta.
  destruct (Profile.getNetworkConfig _ _) as [nc|e] eqn:Hn; cbn [bind].
  2:{ intros [= ->]. revert Hn. apply config_error_not_EmptySecretList_network. }
  destruct (StandardPlatform.clusterConfigOf _ _ _) as [c|e] eqn:Hc; cbn [bind].
  2:{ intros [= ->]. revert Hc. unfold StandardPlatform.clusterConfigOf.
      rewrite getClusterConfig_merge.
      apply config_error_not_EmptySecretList_cluster. }
  destruct (StandardPlatform.declareSecrets _ _) as [s|e] eqn:Hs; cbn [bind].
  2:{ intros [= ->]. revert Hs. apply declareSecrets_not_EmptySecretList. }
  destruct (StandardPlatform.declareIdentity _ _ _) as [i|e] eqn:Hi; cbn [bind].
  - discriminate.
  - intros [= ->]. revert Hi. apply declareIdentity_not_EmptySecretList.
Qed.

Lemma new_empty_secretIds (name : string) (args : StandardPlatformArgs.t) :
  StandardPlatform.new name (StandardPlatformArgs.withSecretIds (Some []) args)
  = StandardPlatform.new name (StandardPlatformArgs.withSecretIds None args).
Proof. destruct args. reflexivity. Qed.

Lemma new_without_secretIds (name : string) (args : StandardPlatformArgs.t)
    (p : StandardPlatform.t) :
  StandardPlatform.new name (StandardPlatformArgs.withSecretIds None args) = Ok p ->
  StandardPlatform._secrets p = None.
Proof.
  destruct args as [projectId region env prefix sids wi co labels].
  unfold StandardPlatform.new. cbv zeta.
  cbn [StandardPlatformArgs.withSecretIds StandardPlatformArgs.projectId
       StandardPlatformArgs.region StandardPlatformArgs.env
       StandardPlatformArgs.prefix StandardPlatformArgs.secretIds
       StandardPlatformArgs.workloadIdentity
       StandardPlatformArgs.clusterOverrides StandardPlatformArgs.labels].
  destruct (Profile.getNetworkConfig _ _) as [nc|?]; cbn [bind]; [|discriminate].
  destruct (StandardPlatform.clusterConfigOf _ _ _) as [c|?]; cbn [bind];
    [|discriminate].
  cbn [StandardPlatform.declareSecrets bind].
  destruct (StandardPlatform.declareIdentity _ _ _) as [i|?]; cbn [bind];
    [|discriminate].
  now intros [= <-].
Qed.

(** An explicitly empty [secretIds] is accepted by the composite. *)
Lemma empty_secret_list_counterexample :
  exists p,
    StandardPlatform.new "test-platform"
      (StandardPlatformArgs.withSecretIds (Some []) baseArgs) = Ok p
    /\ StandardPlatform.hasSecrets p = false.
Proof. eexists. split; vm_compute; reflexivity. Qed.

(** C1 (amended). A StandardPlatform constructed with [secretIds]
    explicitly [[]] behaves as one constructed without [secretIds]: the
    guard [secretIds.length > 0] skips the secrets group, no
    EmptySecretList is raised (the composite never raises it; only the
    secrets component constructed directly on an empty list does), and when
    construction succeeds [hasSecrets] is false and the [secrets] accessor
    fails with NotConfigured. For every non-empty list of well-formed ids,
    when the rest of the construction succeeds a secrets group holding one
    secret per id is declared and [hasSecrets] is true. *)
Theorem empty_secret_list_skipped :
  (forall name args,
      StandardPlatform.new name
        (StandardPlatformArgs.withSecretIds (Some []) args)
      = StandardPlatform.new name
          (StandardPlatformArgs.withSecretIds None args))
  /\ (forall name args, StandardPlatform.new name args <> Err EmptySecretList)
  /\ (forall name args p,
         StandardPlatform.new name
           (StandardPlatformArgs.withSecretIds (Some []) args) = Ok p ->
         StandardPlatform.hasSecrets p = false
         /\ StandardPlatform.secrets p = Err SecretsNotConfigured)
  /\ (forall name, StandardSecrets.new name [] = Err EmptySecretList)
  /\ (forall name args ids p0,
         ids <> [] ->
         Forall Spec.wellFormedId ids ->
         StandardPlatform.new name
           (StandardPlatformArgs.withSecretIds None args) = Ok p0 ->
         exists p s,
           StandardPlatform.new name
             (StandardPlatformArgs.withSecretIds (Some ids) args) = Ok p
           /\ StandardPlatform.hasSecrets p = true
           /\ StandardPlatform.secrets p = Ok s
           /\ StandardSecrets.secretIds s = ids
           /\ forall id,
                In id ids ->
                StandardSecrets.getSecret s id
                = Ok (secretOf (name ++ "-secrets") id)).
Proof.
  repeat apply conj.
  - apply new_empty_secretIds.
  - apply new_not_EmptySecretList.
  - intros name args p Hp. rewrite new_empty_secretIds in Hp.
    apply new_without_secretIds in Hp.
    unfold StandardPlatform.hasSecrets, StandardPlatform.secrets.
    now rewrite Hp.
  - reflexivity.
  - intros name args ids p0 Hne Hwf H0.
    rewrite (new_withSecretIds _ _ (Some ids) H0).
    unfold StandardPlatform.declareSecrets, StandardSecrets.new.
    destruct ids as [|a ids]; [congruence|].
    cbn [List.length Nat.ltb Nat.leb Nat.eqb throwIf bind].
    destruct (declare_ok (name ++ "-secrets") Hwf []) as [m' Hm].
    rewrite Hm. cbn [bind]. eexists. eexists. split; [reflexivity|].
    split; [reflexivity|]. split; [reflexivity|]. split; [reflexivity|].
    intros id Hin. unfold StandardSecrets.getSecret. cbn [StandardSecrets.secrets].
    now rewrite (proj1 (@declare_get _ _ _ _ id Hm) Hin).
Qed.

Lemma empty_secret_list_skipped_witness :
  exists p s,
    StandardPlatform.new "test-platform"
      (StandardPlatformArgs.withSecretIds (Some ["db-password"; "api-key"])
         baseArgs) = Ok p
    /\ StandardPlatform.hasSecrets p = true
    /\ StandardPlatform.secrets p = Ok s
    /\ StandardSecrets.secretIds s = ["db-password"; "api-key"]
    /\ forall id,
         In id ["db-password"; "api-key"] ->
         StandardSecrets.getSecret s id
         = Ok (secretOf ("test-platform" ++ "-secrets") id).
Proof.
  eapply (proj2 (proj2 (proj2 (proj2 empty_secret_list_skipped)))).
  - discriminate.
  - repeat constructor; discriminate.
  - vm_compute. reflexivity.
Defined.

(* ================================================================= *)
(** ** Profile selection *)





(* ================================================================= *)
(** ** Workload identity *)

Lemma falsy_false (s : string) : s <> "" -> Str.falsy s = false.
Proof. destruct s; [congruence | reflexivity]. Qed.

Lemma new_withWorkloadIdentity_err (name : string)
    (args : StandardPlatformArgs.t) (wi : option WorkloadIdentityConfig.t)
    (e : Error) :
  StandardPlatform.new name (StandardPlatformArgs.withWorkloadIdentity None args)
  = Err e ->
  StandardPlatform.new name (StandardPlatformArgs.withWorkloadIdentity wi args)
  = Err e.
Proof.
  destruct args as [projectId region env prefix sids wi0 co labels].
  unfold StandardPlatform.new. cbv zeta.
  cbn [StandardPlatformArgs.withWorkloadIdentity StandardPlatformArgs.projectId
       StandardPlatformArgs.region StandardPlatformArgs.env
       StandardPlatformArgs.prefix StandardPlatformArgs.secretIds
       StandardPlatformArgs.workloadIdentity
       StandardPlatformArgs.clusterOverrides StandardPlatformArgs.labels].
  destruct (Profile.getNetworkConfig _ _) as [nc|?]; cbn [bind];
    [|intros H; exact H].
  destruct (StandardPlatform.clusterConfigOf _ _ _) as [c|?]; cbn [bind];
    [|intros H; exact H].
  destruct (StandardPlatform.declareSecrets _ _) as [s|?]; cbn [bind];
    [|intros H; exact H].
  cbn [StandardPlatform.declareIdentity bind]. discriminate.
Qed.

(** C8. A workload-identity configuration is examined last, after the
    network, the cluster and the secrets: when the other arguments of the
    composite do not construct, their error is the one raised. When they do,
    construction fails with IncompleteIdentityConfig if any of the service
    account id, the Kubernetes namespace and the Kubernetes service-account
    name is the empty string; a field made of white space only is not empty
    and passes this check. With the three fields non-empty, construction
    fails with BlankProjectId if the composite's project id is empty;
    otherwise it fails with InvalidServiceAccountIdLength if the id is
    shorter than 6 or longer than 30 characters, and otherwise the identity
    group is declared for that id and [hasIdentity] is true. *)
Theorem identity_configuration (name : string) (args : StandardPlatformArgs.t)
    (wi : WorkloadIdentityConfig.t) :
  let result :=
    StandardPlatform.new name
      (StandardPlatformArgs.withWorkloadIdentity (Some wi) args) in
  let projectId := StandardPlatformArgs.projectId args in
  let saId := WorkloadIdentityConfig.saId wi in
  let k8sNamespace := WorkloadIdentityConfig.k8sNamespace wi in
  let k8sSaName := WorkloadIdentityConfig.k8sSaName wi in
  (forall e,
      StandardPlatform.new name
        (StandardPlatformArgs.withWorkloadIdentity None args) = Err e ->
      result = Err e)
  /\ (forall p0,
         StandardPlatform.new name
           (StandardPlatformArgs.withWorkloadIdentity None args) = Ok p0 ->
         (saId = "" \/ k8sNamespace = "" \/ k8sSaName = "" ->
          result = Err IncompleteIdentityConfig)
         /\ (saId <> "" -> k8sNamespace <> "" -> k8sSaName <> "" ->
             projectId = "" ->
             result = Err BlankProjectId)
         /\ (saId <> "" -> k8sNamespace <> "" -> k8sSaName <> "" ->
             projectId <> "" ->
             (String.length saId < 6 \/ 30 < String.length saId)%nat ->
             result = Err InvalidServiceAccountIdLength)
         /\ (saId <> "" -> k8sNamespace <> "" -> k8sSaName <> "" ->
             projectId <> "" ->
             (6 <= String.length saId <= 30)%nat ->
             exists p i,
               result = Ok p
               /\ StandardPlatform.hasIdentity p = true
               /\ StandardPlatform.identity p = Ok i
               /\ Gcp.account_accountId (StandardIdentity.gsa i) = saId)).
Proof.
  cbv zeta. split.
  - intros e He. exact (new_withWorkloadIdentity_err _ _ (Some wi) He).
  - intros p0 H0. destruct wi as [saId k8sNamespace k8sSaName roles].
    rewrite (new_withWorkloadIdentity _ _ _ H0).
    unfold StandardPlatform.declareIdentity, StandardIdentity.new. cbv zeta.
    cbn [StandardIdentity.projectId StandardIdentity.saId
         StandardIdentity.k8sNamespace StandardIdentity.k8sSaName
         WorkloadIdentityConfig.saId WorkloadIdentityConfig.k8sNamespace
         WorkloadIdentityConfig.k8sSaName].
    split; [|split; [|split]].
    + intros [ -> | [ -> | -> ] ]; cbn [Str.falsy orb throwIf bind];
        rewrite ?orb_true_r; reflexivity.
    + intros Hs Hn Hk ->.
      rewrite (falsy_false Hs), (falsy_false Hn), (falsy_false Hk).
      reflexivity.
    + intros Hs Hn Hk Hproj Hlen.
      rewrite (falsy_false Hs), (falsy_false Hn), (falsy_false Hk),
        (falsy_false Hproj).
      cbn [orb throwIf bind].
      replace ((String.length saId <? 6)%nat || (30 <? String.length saId)%nat)
        with true; [reflexivity|].
      symmetry. apply orb_true_iff. rewrite !Nat.ltb_lt. exact Hlen.
    + intros Hs Hn Hk Hproj Hlen.
      rewrite (falsy_false Hs), (falsy_false Hn), (falsy_false Hk),
        (falsy_false Hproj).
      cbn [orb throwIf bind].
      replace ((String.length saId <? 6)%nat || (30 <? String.length saId)%nat)
        with false.
      * cbn [throwIf bind]. eexists. eexists. repeat split.
      * symmetry. apply orb_false_iff. rewrite !Nat.ltb_ge. lia.
Qed.

Lemma identity_configuration_witness :
  exists p i,
    StandardPlatform.new "test-platform"
      (StandardPlatformArgs.withWorkloadIdentity (Some validIdentity) baseArgs)
    = Ok p
    /\ StandardPlatform.hasIdentity p = true
    /\ StandardPlatform.identity p = Ok i
    /\ Gcp.account_accountId (StandardIdentity.gsa i) = "workload-identity-sa".
Proof.
  destruct (StandardPlatform.new "test-platform"
              (StandardPlatformArgs.withWorkloadIdentity None baseArgs))
    as [p0|e] eqn:H0; [|vm_compute in H0; discriminate].
  apply (proj2 (proj2 (proj2 (proj2 (@identity_configuration "test-platform"
                                       baseArgs validIdentity) p0 H0))));
    try discriminate.
  simpl. lia.
Defined.

(** With an empty project id a complete identity configuration of valid
    length does not declare the identity group: construction fails with
    BlankProjectId, though the same arguments without the configuration
    construct. And a namespace of three spaces is not rejected: the
    identity group is declared. *)
Lemma identity_configuration_counterexample :
  (exists p0,
      StandardPlatform.new "test-platform"
        (StandardPlatformArgs.withWorkloadIdentity None blankProjectArgs)
      = Ok p0)
  /\ StandardPlatform.new "test-platform"
       (StandardPlatformArgs.withWorkloadIdentity (Some validIdentity)
          blankProjectArgs)
     = Err BlankProjectId
  /\ Str.forallb Str.isSpace (WorkloadIdentityConfig.k8sNamespace spacesIdentity)
     = true
  /\ exists p,
       StandardPlatform.new "test-platform"
         (StandardPlatformArgs.withWorkloadIdentity (Some spacesIdentity)
            baseArgs)
       = Ok p
       /\ StandardPlatform.hasIdentity p = true.
Proof.
  split; [|split; [|split]].
  - eexists. vm_compute. reflexivity.
  - vm_compute. reflexivity.
  - reflexivity.
  - eexists. split; vm_compute; reflexivity.
Qed.

(* ================================================================= *)
(** * Further properties of the sources *)

(* ================================================================= *)
(** ** Allow-lists *)

Lemma allowList_check (l : list string) (s : string) (e : Error) :
  (throwIf (negb (Constraints.includes l s)) e = Ok tt <-> In s l)
  /\ (throwIf (negb (Constraints.includes l s)) e = Err e <-> ~ In s l).
Proof.
  rewrite <- includes_In.
  destruct (Constraints.includes l s); simpl; split; split;
    intros H; try congruence; try reflexivity.
Qed.

(** X1. The three allow-list validators succeed exactly on the members of
    their list -- dev, staging and prod for the environment -- compared as
    whole strings, and otherwise fail with the error that carries the
    rejected value. *)
Theorem allowList_validators (s : string) :
  (Constraints.validateEnvironment s = Ok tt
   <-> s = "dev" \/ s = "staging" \/ s = "prod")
  /\ (Constraints.validateEnvironment s = Err (InvalidEnvironment s)
      <-> ~ (s = "dev" \/ s = "staging" \/ s = "prod"))
  /\ (Constraints.validateRegion s = Ok tt
      <-> In s Constraints.ALLOWED_REGIONS)
  /\ (Constraints.validateRegion s = Err (InvalidRegion s)
      <-> ~ In s Constraints.ALLOWED_REGIONS)
  /\ (Constraints.validateMachineType s = Ok tt
      <-> In s Constraints.ALLOWED_MACHINE_TYPES)
  /\ (Constraints.validateMachineType s = Err (InvalidMachineType s)
      <-> ~ In s Constraints.ALLOWED_MACHINE_TYPES).
Proof.
  assert (Henv : In s Constraints.ALLOWED_ENVIRONMENTS
                 <-> s = "dev" \/ s = "staging" \/ s = "prod").
  { simpl. intuition congruence. }
  rewrite <- Henv.
  unfold Constraints.validateEnvironment, Constraints.validateRegion,
    Constraints.validateMachineType.
  pose proof (allowList_check Constraints.ALLOWED_ENVIRONMENTS s
                (InvalidEnvironment s)) as [? ?].
  pose proof (allowList_check Constraints.ALLOWED_REGIONS s
                (InvalidRegion s)) as [? ?].
  pose proof (allowList_check Constraints.ALLOWED_MACHINE_TYPES s
                (InvalidMachineType s)) as [? ?].
  repeat (split; [assumption|]). assumption.
Qed.

(* ================================================================= *)
(** ** The invariant of a ClusterConfig *)

Lemma runtime_new_thrown_number (args : Runtime.ClusterConfigArgs.t) :
  (forall b n,
      Runtime.ClusterConfig.new args
      = Runtime.Threw (Runtime.OutOfRangeOf b n) ->
      ~ Spec.withinOrNaN (Spec.rangeOf b) n)
  /\ (forall a b,
         Runtime.ClusterConfig.new args
         = Runtime.Threw (Runtime.MinExceedsMaxOf a b) ->
         Spec.greater a b).
Proof.
  unfold Runtime.ClusterConfig.new, Runtime.validateEnvironment,
    Runtime.validateRegion, Runtime.validateMaxNodes,
    Runtime.validateDiskSize, Runtime.validateNodeCount. cbv zeta.
  destruct (negb (Runtime.includes Constraints.ALLOWED_ENVIRONMENTS _));
    cbn [Runtime.throwIf Runtime.andThen]; [split; discriminate|].
  destruct (negb (Runtime.includes Constraints.ALLOWED_REGIONS _));
    cbn [Runtime.throwIf Runtime.andThen]; [split; discriminate|].
  destruct (Constraints.validateMachineType _) as [[]|?];
    cbn [Runtime.lift Runtime.andThen]; [|split; discriminate].
  do 3 (lazymatch goal with
        | |- (forall b n,
                 Runtime.andThen (Runtime.throwIf ?c _) _ = _ -> _) /\ _ =>
            destruct c eqn:?; cbn [Runtime.throwIf Runtime.andThen];
            [split;
             [intros b n [= <- <-]; rewrite <- bound_check_number;
              cbn [Spec.rangeOf]; congruence
             |discriminate]
            |]
        end).
  destruct (Runtime.gtb (nullish (Runtime.ClusterConfigArgs.minNodes args) _) _)
    eqn:Hgt; cbn [Runtime.throwIf Runtime.andThen].
  - split; [discriminate|]. intros a b [= <- <-]. now apply gtb_greater.
  - destruct (Constraints.validateMasterCidr _) as [[]|?];
      cbn [Runtime.lift Runtime.andThen]; split; discriminate.
Qed.

(** X2. At run time, ClusterConfig construction returns a configuration
    exactly when the arguments, with their defaults filled in, are accepted
    by every validation, and the configuration returned is those resolved
    arguments. Accepted means: an allowed environment, region and machine
    type; maxNodes, diskSize and nodeCount each within its bounds or [NaN];
    minNodes not greater than maxNodes, which holds whenever one of the two
    is [NaN]; a master CIDR that is a private aligned /28 block. A number is
    rejected as out of range only when it is neither within the bounds nor
    [NaN], and MinExceedsMax is raised only for a minNodes greater than
    maxNodes. When the numbers of the arguments are integers every policy
    holds of the configuration returned: the three bounds, and minNodes at
    most maxNodes. *)
Theorem ClusterConfig_invariant :
  (forall args c,
      Runtime.ClusterConfig.new args = Runtime.Returned c
      <-> c = runtimeBuilt args /\ Spec.accepted c)
  /\ (forall args b n,
         Runtime.ClusterConfig.new args
         = Runtime.Threw (Runtime.OutOfRangeOf b n) ->
         ~ Spec.withinOrNaN (Spec.rangeOf b) n)
  /\ (forall args a b,
         Runtime.ClusterConfig.new args
         = Runtime.Threw (Runtime.MinExceedsMaxOf a b) ->
         Spec.greater a b)
  /\ (forall (args : ClusterConfigArgs.t) c,
         Runtime.ClusterConfig.new (AtRuntime.clusterArgs args)
         = Runtime.Returned c
         <-> c = AtRuntime.clusterConfig (built args)
             /\ Spec.compliant (built args)).
Proof.
  split; [exact runtime_new_accepted|].
  split; [intros args; exact (proj1 (runtime_new_thrown_number args))|].
  split; [intros args; exact (proj2 (runtime_new_thrown_number args))|].
  intros args c. rewrite ClusterConfig_new_refines. split.
  - destruct (ClusterConfig.new args) as [c'|e] eqn:Hc;
      cbn [AtRuntime.outcome]; [|discriminate].
    intros [= <-]. apply ClusterConfig_new_compliant in Hc as [-> Hc].
    split; [reflexivity | exact Hc].
  - intros [-> Hc].
    assert (H : ClusterConfig.new args = Ok (built args))
      by now apply ClusterConfig_new_compliant.
    rewrite H. reflexivity.
Qed.

(* ================================================================= *)
(** ** The blocks the master CIDR validator accepts *)

(** X4. [validateMasterCidr] accepts a string exactly when it is four
    groups of one to three digits and [/28], every octet is at most 255, the
    first two octets are in an RFC 1918 range and the last octet is a
    multiple of 16; the last octet of an accepted block is then at most 240,
    so the sixteen addresses of the block stay inside that octet. *)
Theorem validateMasterCidr_accepts (s : string) :
  Constraints.validateMasterCidr s = Ok tt
  <-> exists a b c d,
        Spec.cidrFormat s a b c d
        /\ 0 <= Str.Number a <= 255 /\ 0 <= Str.Number b <= 255
        /\ 0 <= Str.Number c <= 255 /\ 0 <= Str.Number d <= 240
        /\ (Str.Number a = 10
            \/ (Str.Number a = 172 /\ 16 <= Str.Number b <= 31)
            \/ (Str.Number a = 192 /\ Str.Number b = 168))
        /\ Str.Number d mod 16 = 0.
Proof.
  split.
  - intros Hv.
    destruct (Regex.test Constraints.cidrRegex s) eqn:Ht.
    + apply test_spec, lang_cidrRegex in Ht as (a & b & c & d & Hf).
      rewrite (validateMasterCidr_formatted Hf) in Hv.
      apply checkOctets_ok in Hv as ((Ha & Hb & Hc & Hd) & Hp & Hal).
      apply octetInRange_spec in Ha, Hb, Hc, Hd. apply rfc1918_spec in Hp.
      unfold Spec.aligned in Hal. apply Z.eqb_eq in Hal.
      exists a, b, c, d. repeat (split; [assumption || lia|]).
      split; [|split; [exact Hp | exact Hal]].
      split; [lia|].
      apply Z.mod_divide in Hal; [|lia]. destruct Hal as [k Hk]. lia.
    + unfold Constraints.validateMasterCidr in Hv. rewrite Ht in Hv.
      discriminate.
  - intros (a & b & c & d & Hf & Ha & Hb & Hc & Hd & Hp & Hal).
    rewrite (validateMasterCidr_formatted Hf). apply checkOctets_ok.
    rewrite !octetInRange_spec, rfc1918_spec. unfold Spec.aligned.
    rewrite Z.eqb_eq. repeat split; try lia; assumption.
Qed.

(* ================================================================= *)
(** ** Derived names *)




Lemma app_inv_head (s t u : string) : s ++ t = s ++ u -> t = u.
Proof.
  induction s as [|c s IH]; simpl; [auto|]. intros [= H]. auto.
Qed.


Lemma validateEnvironment_In (env : string) :
  Constraints.validateEnvironment env = Ok tt ->
  In env Constraints.ALLOWED_ENVIRONMENTS.
Proof.
  unfold Constraints.validateEnvironment. rewrite throwIf_ok, negb_false_iff.
  apply includes_In.
Qed.

Lemma NetworkConfig_new_env (args : NetworkConfigArgs.t) (c : NetworkConfig.t) :
  NetworkConfig.new args = Ok c ->
  In (NetworkConfig.env c) Constraints.ALLOWED_ENVIRONMENTS
  /\ In (NetworkConfig.region c) Constraints.ALLOWED_REGIONS.
Proof.
  unfold NetworkConfig.new, Constraints.validateEnvironment,
    Constraints.validateRegion.
  destruct (Constraints.includes Constraints.ALLOWED_ENVIRONMENTS _) eqn:He;
    cbn [negb throwIf bind]; [|discriminate].
  destruct (Constraints.includes Constraints.ALLOWED_REGIONS _) eqn:Hr;
    cbn [negb throwIf bind]; [|discriminate].
  intros [= <-]. split; now apply includes_In.
Qed.



(* ================================================================= *)
(** ** The secrets component *)

Lemma blank_check (id : string) :
  Str.falsy id || Str.falsy (Str.trim id) = Str.forallb Str.isSpace id.
Proof. rewrite trim_falsy. destruct id; reflexivity. Qed.

Lemma declare_outcome (name : string) (ids : list string) :
  forall m,
    ((exists m', StandardSecrets.declare name ids m = Ok m')
     <-> Forall (fun id => Str.forallb Str.isSpace id = false) ids)
    /\ (StandardSecrets.declare name ids m = Err BlankSecretId
        <-> Exists (fun id => Str.forallb Str.isSpace id = true) ids).
Proof.
  induction ids as [|id ids IH]; intros m; simpl.
  - split; split; intros H; eauto; try discriminate. inversion H.
  - rewrite blank_check. destruct (Str.forallb Str.isSpace id) eqn:Hb;
      cbn [throwIf bind].
    + split; split; intros H.
      * destruct H; discriminate.
      * inversion H; congruence.
      * now left.
      * reflexivity.
    + destruct (IH (Dict.set id
                      {| Gcp.secret_logicalName := name ++ "-" ++ id;
                         Gcp.secret_secretId := id |} m)) as [IHo IHe].
      split; split; intros H.
      * constructor; [exact Hb | now apply IHo].
      * apply IHo. now inversion H.
      * right. now apply IHe.
      * apply IHe. inversion H; [congruence | assumption].
Qed.

(** X5. Constructing the secrets component fails with EmptySecretList
    exactly on the empty list, fails with BlankSecretId exactly on a
    non-empty list with an id that is empty or made of white space only, and
    otherwise succeeds and records the ids as given. *)
Theorem StandardSecrets_new_outcome (name : string) (ids : list string) :
  (StandardSecrets.new name ids = Err EmptySecretList <-> ids = [])
  /\ (StandardSecrets.new name ids = Err BlankSecretId
      <-> ids <> []
          /\ Exists (fun id => Str.forallb Str.isSpace id = true) ids)
  /\ ((exists s, StandardSecrets.new name ids = Ok s)
      <-> ids <> []
          /\ Forall (fun id => Str.forallb Str.isSpace id = false) ids)
  /\ (forall s,
         StandardSecrets.new name ids = Ok s ->
         StandardSecrets.secretIds s = ids).
Proof.
  unfold StandardSecrets.new.
  destruct (declare_outcome name ids []) as [Ho He].
  destruct ids as [|id ids]; cbn [List.length Nat.eqb throwIf bind].
  - split; [split; [reflexivity | reflexivity]|].
    split; [split; [discriminate | intros [Hne _]; congruence]|].
    split; [split; [intros [s Hs]; discriminate | intros [Hne _]; congruence]|].
    discriminate.
  - destruct (StandardSecrets.declare name (id :: ids) []) as [m'|e] eqn:Hd;
      cbn [bind].
    + split; [split; discriminate|].
      split; [split; [discriminate|]|].
      { intros [_ Hex]. apply He in Hex. discriminate. }
      split; [split|].
      * intros _. split; [discriminate|]. apply Ho. eauto.
      * eauto.
      * now intros s [= <-].
    + apply declare_err in Hd as Hb. subst e.
      split; [split; discriminate|].
      split; [split|].
      * intros _. split; [discriminate|]. now apply He.
      * reflexivity.
      * split; [split|].
        -- intros [s Hs]. discriminate.
        -- intros [_ Hall]. apply Ho in Hall as [m' Hm]. discriminate.
        -- discriminate.
Qed.

Lemma keys_set {V : Type} (k k0 : string) (v : V) (d : Dict.t V) :
  In k (Dict.keys (Dict.set k0 v d)) <-> k = k0 \/ In k (Dict.keys d).
Proof.
  unfold Dict.keys. induction d as [|[k' v'] d IH]; simpl.
  - intuition.
  - destruct (String.eqb_spec k' k0); simpl.
    + subst. intuition.
    + rewrite IH. intuition.
Qed.

Lemma NoDup_keys_set {V : Type} (k0 : string) (v : V) (d : Dict.t V) :
  NoDup (Dict.keys d) -> NoDup (Dict.keys (Dict.set k0 v d)).
Proof.
  induction d as [|[k' v'] d IH]; simpl.
  - intros _. constructor; [intros [] | constructor].
  - intros H. inversion H as [|? ? Hn Hd]; subst.
    destruct (String.eqb_spec k' k0); simpl.
    + subst. now constructor.
    + constructor; [|now apply IH].
      intros Hin. apply keys_set in Hin as [->|Hin]; [congruence | contradiction].
Qed.

Lemma get_None {V : Type} (k : string) (d : Dict.t V) :
  Dict.get k d = None <-> ~ In k (Dict.keys d).
Proof.
  unfold Dict.keys. induction d as [|[k' v'] d IH]; simpl.
  - intuition.
  - destruct (String.eqb_spec k' k).
    + split; [discriminate | intuition].
    + rewrite IH. intuition.
Qed.

Lemma declare_keys (name : string) (ids : list string) :
  forall m m',
    StandardSecrets.declare name ids m = Ok m' ->
    NoDup (Dict.keys m) ->
    NoDup (Dict.keys m')
    /\ forall k, In k (Dict.keys m') <-> In k ids \/ In k (Dict.keys m).
Proof.
  induction ids as [|id ids IH]; intros m m'; simpl.
  - intros [= <-] Hn. split; [exact Hn | intuition].
  - destruct (_ || _); cbn [throwIf bind]; [discriminate|].
    intros Hd Hn. apply IH in Hd as [Hn' Hk]; [|now apply NoDup_keys_set].
    split; [exact Hn'|]. intros k. rewrite Hk, keys_set. intuition.
Qed.

(** X6. In a constructed secrets component the secret map holds exactly
    one entry per distinct id: [getSecret] returns the secret declared for
    an id of the list (named [{name}-{id}], with that secret id), and fails
    for every other id with SecretNotFound, listing the declared ids without
    repetition. *)
Theorem getSecret_lookup (name : string) (ids : list string)
    (s : StandardSecrets.t) :
  StandardSecrets.new name ids = Ok s ->
  NoDup (Dict.keys (StandardSecrets.secrets s))
  /\ (forall id, In id (Dict.keys (StandardSecrets.secrets s)) <-> In id ids)
  /\ (forall id,
         In id ids ->
         StandardSecrets.getSecret s id = Ok (secretOf name id))
  /\ (forall id,
         ~ In id ids ->
         StandardSecrets.getSecret s id
         = Err (SecretNotFound id (Dict.keys (StandardSecrets.secrets s)))).
Proof.
  unfold StandardSecrets.new.
  destruct (Nat.eqb (List.length ids) 0); cbn [throwIf bind]; [discriminate|].
  destruct (StandardSecrets.declare name ids []) as [m'|e] eqn:Hd; cbn [bind];
    [|discriminate].
  intros [= <-]. cbn [StandardSecrets.secrets].
  destruct (@declare_keys _ _ _ _ Hd (NoDup_nil _)) as [Hn Hk].
  split; [exact Hn|]. split; [|split].
  - intros id. rewrite Hk. simpl. intuition.
  - intros id Hin. unfold StandardSecrets.getSecret. cbn [StandardSecrets.secrets].
    now rewrite (proj1 (@declare_get _ _ _ _ id Hd) Hin).
  - intros id Hout. unfold StandardSecrets.getSecret. cbn [StandardSecrets.secrets].
    rewrite (proj2 (@declare_get _ _ _ _ id Hd) Hout). reflexivity.
Qed.

Lemma getSecret_lookup_witness :
  exists s,
    StandardSecrets.new "test-secrets" ["db-password"; "db-password"] = Ok s
    /\ StandardSecrets.getSecret s "non-existent"
       = Err (SecretNotFound "non-existent" ["db-password"]).
Proof.
  eexists. split; [reflexivity|].
  refine (eq_trans
            (proj2 (proj2 (proj2 (@getSecret_lookup "test-secrets"
                                    ["db-password"; "db-password"] _ eq_refl)))
               "non-existent" _) _).
  - simpl. intros [H|[H|[]]]; discriminate.
  - reflexivity.
Defined.

(* ================================================================= *)
(** ** The identity component *)

Lemma falsy_true (s : string) : Str.falsy s = true <-> s = "".
Proof. destruct s; simpl; split; congruence. Qed.

Lemma saId_check (saId : string) :
  Str.falsy saId || (String.length saId <? 6)%nat
  || (30 <? String.length saId)%nat = false
  <-> (6 <= String.length saId <= 30)%nat.
Proof.
  rewrite !orb_false_iff, !Nat.ltb_ge. destruct saId; simpl; split;
    intros H; repeat split; try lia; try reflexivity;
    try (destruct H as [[H _] _]; discriminate).
Qed.

Ltac outcome :=
  repeat apply conj; intros;
  try congruence; try lia; try discriminate; eauto;
  try match goal with
      | H : exists _, _ |- _ => destruct H; discriminate
      | H : _ /\ _ |- _ => decompose [and] H; (congruence || lia || contradiction)
      end.

(** X7. Constructing the identity component checks, in this order, that
    the project id is not empty (BlankProjectId), that the service-account
    id has 6 to 30 characters (InvalidServiceAccountIdLength), that the
    namespace is not empty (BlankNamespace) and that the Kubernetes
    service-account name is not empty (BlankServiceAccountName); it succeeds
    exactly when the four hold, and then declares the service account with
    the given id. *)
Theorem StandardIdentity_new_outcome (name : string)
    (args : StandardIdentity.Args) :
  let len := String.length (StandardIdentity.saId args) in
  (StandardIdentity.projectId args = "" ->
   StandardIdentity.new name args = Err BlankProjectId)
  /\ (StandardIdentity.projectId args <> "" ->
      (len < 6 \/ 30 < len)%nat ->
      StandardIdentity.new name args = Err InvalidServiceAccountIdLength)
  /\ (StandardIdentity.projectId args <> "" ->
      (6 <= len <= 30)%nat ->
      StandardIdentity.k8sNamespace args = "" ->
      StandardIdentity.new name args = Err BlankNamespace)
  /\ (StandardIdentity.projectId args <> "" ->
      (6 <= len <= 30)%nat ->
      StandardIdentity.k8sNamespace args <> "" ->
      StandardIdentity.k8sSaName args = "" ->
      StandardIdentity.new name args = Err BlankServiceAccountName)
  /\ ((exists i, StandardIdentity.new name args = Ok i)
      <-> StandardIdentity.projectId args <> ""
          /\ (6 <= len <= 30)%nat
          /\ StandardIdentity.k8sNamespace args <> ""
          /\ StandardIdentity.k8sSaName args <> "")
  /\ (forall i,
         StandardIdentity.new name args = Ok i ->
         Gcp.account_accountId (StandardIdentity.gsa i)
         = StandardIdentity.saId args).
Proof.
  intros len. subst len. unfold StandardIdentity.new. cbv zeta.
  pose proof (saId_check (StandardIdentity.saId args)) as Hlen.
  pose proof (falsy_true (StandardIdentity.projectId args)) as Hp.
  pose proof (falsy_true (StandardIdentity.k8sNamespace args)) as Hn.
  pose proof (falsy_true (StandardIdentity.k8sSaName args)) as Hk.
  destruct (Str.falsy (StandardIdentity.projectId args));
    cbn [throwIf bind].
  { assert (Hpe : StandardIdentity.projectId args = "") by now apply Hp.
    outcome. }
  assert (Hpn : StandardIdentity.projectId args <> "").
  { intros He. apply Hp in He. discriminate. }
  destruct (_ || _ || _); cbn [throwIf bind].
  { assert (Hbad : ~ (6 <= String.length (StandardIdentity.saId args) <= 30)%nat).
    { intros Hok. apply Hlen in Hok. discriminate. }
    outcome. }
  assert (Hok : (6 <= String.length (StandardIdentity.saId args) <= 30)%nat)
    by now apply Hlen.
  destruct (Str.falsy (StandardIdentity.k8sNamespace args));
    cbn [throwIf bind].
  { assert (Hne : StandardIdentity.k8sNamespace args = "") by now apply Hn.
    outcome. }
  assert (Hnn : StandardIdentity.k8sNamespace args <> "").
  { intros He. apply Hn in He. discriminate. }
  destruct (Str.falsy (StandardIdentity.k8sSaName args));
    cbn [throwIf bind].
  { assert (Hke : StandardIdentity.k8sSaName args = "") by now apply Hk.
    outcome. }
  assert (Hkn : StandardIdentity.k8sSaName args <> "").
  { intros He. apply Hk in He. discriminate. }
  outcome. now injection H as <-.
Qed.

Lemma StandardIdentity_new_outcome_witness :
  StandardIdentity.new "test-identity"
    {| StandardIdentity.projectId := "test-project";
       StandardIdentity.saId := "abc";
       StandardIdentity.k8sNamespace := "";
       StandardIdentity.k8sSaName := "";
       StandardIdentity.roles := None |}
  = Err InvalidServiceAccountIdLength.
Proof.
  apply (proj1 (proj2 (StandardIdentity_new_outcome "test-identity" _))).
  - discriminate.
  - simpl. lia.
Defined.

Lemma to_uint_nonnil (n : nat) : Nat.to_uint n <> Decimal.Nil.
Proof.
  intros H. pose proof (DecimalNat.Unsigned.of_to n) as Hn. rewrite H in Hn.
  simpl in Hn. subst n. discriminate.
Qed.

Lemma indexString_inj (i j : nat) :
  StandardIdentity.indexString i = StandardIdentity.indexString j -> i = j.
Proof.
  unfold StandardIdentity.indexString. intros H.
  apply (f_equal NilZero.uint_of_string) in H.
  rewrite !NilZero.usu in H by apply to_uint_nonnil.
  injection H as H. now apply DecimalNat.Unsigned.to_uint_inj.
Qed.

Lemma bindRoles_nth (name projectId : string) (email : Gcp.Output)
    (roles : list string) :
  forall start k role,
    nth_error roles k = Some role ->
    nth_error (StandardIdentity.bindRoles name projectId email start roles) k
    = Some {| Gcp.member_logicalName :=
                name ++ "-role-" ++ StandardIdentity.indexString (start + k);
              Gcp.member_project := projectId;
              Gcp.member_role := role;
              Gcp.member_member := Gcp.Interpolate "serviceAccount:" email |}.
Proof.
  induction roles as [|r roles IH]; intros start k role; [destruct k; discriminate|].
  destruct k as [|k]; simpl.
  - intros [= ->]. now rewrite Nat.add_0_r.
  - intros H. rewrite (IH (S start) k role H).
    replace (S start + k)%nat with (start + S k)%nat by lia. reflexivity.
Qed.

Lemma bindRoles_names (name projectId : string) (email : Gcp.Output)
    (roles : list string) :
  forall start,
    map Gcp.member_logicalName
      (StandardIdentity.bindRoles name projectId email start roles)
    = map (fun i => name ++ "-role-" ++ StandardIdentity.indexString i)
        (seq start (List.length roles)).
Proof.
  induction roles as [|r roles IH]; intros start; simpl; [reflexivity|].
  now rewrite IH.
Qed.

Lemma NoDup_map_inj {A B : Type} (f : A -> B) (l : list A) :
  (forall x y, f x = f y -> x = y) -> NoDup l -> NoDup (map f l).
Proof.
  intros Hf. induction 1 as [|x l Hx _ IH]; simpl; constructor; [|exact IH].
  intros Hin. apply in_map_iff in Hin as (y & Hy & Hin).
  apply Hf in Hy. now subst.
Qed.

(** X8. A constructed identity component holds one IAM member per role,
    in the order of the roles: the member for the role at index [k] is named
    [{name}-role-{k}], is in the given project, grants that role to the
    declared service account, and no two members share a name. *)
Theorem roleBindings_per_role (name : string) (args : StandardIdentity.Args)
    (i : StandardIdentity.t) :
  StandardIdentity.new name args = Ok i ->
  let roles := nullish (StandardIdentity.roles args) [] in
  List.length (StandardIdentity.roleBindings i) = List.length roles
  /\ (forall k role,
         nth_error roles k = Some role ->
         nth_error (StandardIdentity.roleBindings i) k
         = Some {| Gcp.member_logicalName :=
                     name ++ "-role-" ++ StandardIdentity.indexString k;
                   Gcp.member_project := StandardIdentity.projectId args;
                   Gcp.member_role := role;
                   Gcp.member_member :=
                     Gcp.Interpolate "serviceAccount:"
                       (StandardIdentity.email i) |})
  /\ NoDup (map Gcp.member_logicalName (StandardIdentity.roleBindings i)).
Proof.
  unfold StandardIdentity.new. cbv zeta.
  repeat match goal with
         | |- context [throwIf ?c _] =>
             destruct c; cbn [throwIf bind]; [discriminate|]
         end.
  intros [= <-]. cbn [StandardIdentity.roleBindings StandardIdentity.email
                      StandardIdentity.gsa].
  split; [|split].
  - rewrite <- (length_map Gcp.member_logicalName), bindRoles_names.
    now rewrite length_map, length_seq.
  - intros k role Hk. now rewrite (bindRoles_nth _ _ _ _ 0 _ Hk).
  - rewrite bindRoles_names. apply NoDup_map_inj; [|apply seq_NoDup].
    intros x y H. apply app_inv_head in H. simpl in H.
    injection H as H. now apply indexString_inj.
Qed.

Lemma roleBindings_per_role_witness :
  exists i,
    StandardIdentity.new "test-identity" identityArgs = Ok i
    /\ List.length (StandardIdentity.roleBindings i) = 2%nat.
Proof.
  destruct (StandardIdentity.new "test-identity" identityArgs) as [i|e] eqn:H;
    [|vm_compute in H; discriminate].
  exists i. split; [reflexivity|].
  exact (proj1 (@roleBindings_per_role "test-identity" identityArgs i H)).
Defined.

(* ================================================================= *)
(** ** The composite, step by step *)

Lemma new_inv (name : string) (args : StandardPlatformArgs.t)
    (p : StandardPlatform.t) :
  StandardPlatform.new name args = Ok p <->
  exists nc c s i,
    Profile.getNetworkConfig (profileOf args) None = Ok nc
    /\ StandardPlatform.clusterConfigOf (profileOf args) nc
         (StandardPlatformArgs.clusterOverrides args) = Ok c
    /\ StandardPlatform.declareSecrets name
         (StandardPlatformArgs.secretIds args) = Ok s
    /\ StandardPlatform.declareIdentity name
         (StandardPlatformArgs.projectId args)
         (StandardPlatformArgs.workloadIdentity args) = Ok i
    /\ p = assembled name args nc c s i.
Proof.
  unfold StandardPlatform.new, profileOf. cbv zeta. split.
  - destruct (Profile.getNetworkConfig _ _) as [nc|?] eqn:Hn; cbn [bind];
      [|discriminate].
    destruct (StandardPlatform.clusterConfigOf _ _ _) as [c|?] eqn:Hc;
      cbn [bind]; [|discriminate].
    destruct (StandardPlatform.declareSecrets _ _) as [s|?] eqn:Hs;
      cbn [bind]; [|discriminate].
    destruct (StandardPlatform.declareIdentity _ _ _) as [i|?] eqn:Hi;
      cbn [bind]; [|discriminate].
    intros [= <-]. exists nc, c, s, i. repeat split. exact Hc.
  - intros (nc & c & s & i & Hn & Hc & Hs & Hi & ->).
    rewrite Hn. cbn [bind]. rewrite Hc. cbn [bind]. rewrite Hs. cbn [bind].
    rewrite Hi. reflexivity.
Qed.

Lemma declareSecrets_ok (name : string) (secretIds : option (list string))
    (s : option StandardSecrets.t) :
  StandardPlatform.declareSecrets name secretIds = Ok s ->
  match s with
  | Some s' =>
      exists ids, secretIds = Some ids /\ ids <> []
                  /\ StandardSecrets.new (name ++ "-secrets") ids = Ok s'
  | None => secretIds = None \/ secretIds = Some []
  end.
Proof.
  unfold StandardPlatform.declareSecrets.
  destruct secretIds as [[|id ids]|]; cbn [List.length Nat.ltb Nat.leb].
  - intros [= <-]. now right.
  - destruct (StandardSecrets.new _ _) as [s'|?] eqn:Hn; cbn [bind];
      [|discriminate].
    intros [= <-]. exists (id :: ids). repeat split; [discriminate | exact Hn].
  - intros [= <-]. now left.
Qed.

Lemma declareIdentity_ok (name projectId : string)
    (wi : option WorkloadIdentityConfig.t) (i : option StandardIdentity.t) :
  StandardPlatform.declareIdentity name projectId wi = Ok i ->
  match i with
  | Some _ => exists w, wi = Some w
  | None => wi = None
  end.
Proof.
  unfold StandardPlatform.declareIdentity. destruct wi as [w|].
  - cbv zeta. destruct (throwIf _ _) as [[]|?]; cbn [bind]; [|discriminate].
    destruct (StandardIdentity.new _ _) as [i'|?]; cbn [bind]; [|discriminate].
    intros [= <-]. eauto.
  - now intros [= <-].
Qed.

(** X9. In a constructed composite [hasSecrets] is true exactly when a
    non-empty [secretIds] was supplied, and the [secrets] accessor then
    returns the component holding those ids; [hasIdentity] is true exactly
    when a workload-identity configuration was supplied. The accessors
    [secrets], [identity] and [identityEmail] fail with NotConfigured
    exactly when the corresponding flag is false. *)
Theorem composite_accessors (name : string) (args : StandardPlatformArgs.t)
    (p : StandardPlatform.t) :
  StandardPlatform.new name args = Ok p ->
  (StandardPlatform.hasSecrets p = true
   <-> exists ids, StandardPlatformArgs.secretIds args = Some ids /\ ids <> [])
  /\ (forall ids,
         StandardPlatformArgs.secretIds args = Some ids -> ids <> [] ->
         exists s, StandardPlatform.secrets p = Ok s
                   /\ StandardSecrets.secretIds s = ids)
  /\ (StandardPlatform.hasIdentity p = true
      <-> exists wi, StandardPlatformArgs.workloadIdentity args = Some wi)
  /\ (StandardPlatform.secrets p = Err SecretsNotConfigured
      <-> StandardPlatform.hasSecrets p = false)
  /\ (StandardPlatform.identity p = Err IdentityNotConfigured
      <-> StandardPlatform.hasIdentity p = false)
  /\ (StandardPlatform.identityEmail p = Err IdentityNotConfigured
      <-> StandardPlatform.hasIdentity p = false).
Proof.
  intros Hp. apply new_inv in Hp as (nc & c & s & i & _ & _ & Hs & Hi & ->).
  apply declareSecrets_ok in Hs. apply declareIdentity_ok in Hi.
  unfold StandardPlatform.hasSecrets, StandardPlatform.hasIdentity,
    StandardPlatform.secrets, StandardPlatform.identity,
    StandardPlatform.identityEmail, assembled. cbv zeta.
  cbn [StandardPlatform._secrets StandardPlatform._identity bind].
  split; [|split; [|split; [|split; [|split]]]].
  - destruct s as [s|].
    + destruct Hs as (ids & Hids & Hne & _). split; eauto.
    + split; [discriminate|]. intros (ids & Hids & Hne).
      destruct Hs as [Hs|Hs]; congruence.
  - intros ids Hids Hne. destruct s as [s|].
    + destruct Hs as (ids' & Hids' & _ & Hn). exists s. split; [reflexivity|].
      assert (ids' = ids) by congruence. subst ids'.
      unfold StandardSecrets.new in Hn.
      destruct (throwIf _ _) as [[]|?]; cbn [bind] in Hn; [|discriminate].
      destruct (StandardSecrets.declare _ _ _); cbn [bind] in Hn;
        [|discriminate].
      now injection Hn as <-.
    + destruct Hs as [Hs|Hs]; congruence.
  - destruct i as [i|].
    + split; eauto.
    + split; [discriminate|]. intros [wi Hw]. congruence.
  - destruct s; split; congruence.
  - destruct i; split; congruence.
  - unfold StandardPlatform.identity. cbn [StandardPlatform._identity].
    destruct i; cbn [bind]; split; congruence.
Qed.

Lemma composite_accessors_witness :
  exists p,
    StandardPlatform.new "test-platform" baseArgs = Ok p
    /\ StandardPlatform.identityEmail p = Err IdentityNotConfigured.
Proof.
  destruct (StandardPlatform.new "test-platform" baseArgs) as [p|e] eqn:H;
    [|vm_compute in H; discriminate].
  exists p. split; [reflexivity|].
  apply (proj2 (proj2 (proj2 (proj2 (proj2
           (@composite_accessors "test-platform" baseArgs p H)))))).
  vm_compute in H. injection H as <-. reflexivity.
Defined.

(** X10. The composite rejects an environment outside the allow-list with
    InvalidEnvironment, although the profile selection falls through to the
    dev profile for it, and rejects a region outside the allow-list with
    InvalidRegion once the environment is allowed -- whatever the secrets,
    identity, overrides and labels are. *)
Theorem composite_rejects_unknown_environment (name : string)
    (args : StandardPlatformArgs.t) :
  (~ In (StandardPlatformArgs.env args) Constraints.ALLOWED_ENVIRONMENTS ->
   Profile.kind (profileOf args) = Profile.DevProfile
   /\ StandardPlatform.new name args
      = Err (InvalidEnvironment (StandardPlatformArgs.env args)))
  /\ (In (StandardPlatformArgs.env args) Constraints.ALLOWED_ENVIRONMENTS ->
      ~ In (StandardPlatformArgs.region args) Constraints.ALLOWED_REGIONS ->
      StandardPlatform.new name args
      = Err (InvalidRegion (StandardPlatformArgs.region args))).
Proof.
  assert (Hnet : Profile.getNetworkConfig (profileOf args) None
                 = (Constraints.validateEnvironment
                      (StandardPlatformArgs.env args) ;;;
                    Constraints.validateRegion
                      (StandardPlatformArgs.region args) ;;;
                    Profile.getNetworkConfig (profileOf args) None)).
  { unfold profileOf, StandardPlatform.selectProfile, Profile.getNetworkConfig,
      NetworkConfig.new.
    destruct (String.eqb _ "prod"); [|destruct (String.eqb _ "staging")];
      cbn [NetworkOverrides.over NetworkConfigArgs.env NetworkConfigArgs.region
           nullish NetworkOverrides.empty NetworkOverrides.env
           NetworkOverrides.region Profile.env Profile.region];
      destruct (Constraints.validateEnvironment _) as [[]|?]; cbn [bind];
      try reflexivity;
      destruct (Constraints.validateRegion _) as [[]|?]; reflexivity. }
  split.
  - intros Hout. split.
    + unfold profileOf, StandardPlatform.selectProfile.
      destruct (String.eqb_spec (StandardPlatformArgs.env args) "prod")
        as [He|He]; [exfalso; apply Hout; rewrite He; simpl; tauto|].
      destruct (String.eqb_spec (StandardPlatformArgs.env args) "staging")
        as [Hs|Hs]; [exfalso; apply Hout; rewrite Hs; simpl; tauto|].
      reflexivity.
    + unfold StandardPlatform.new. cbv zeta. fold (profileOf args).
      rewrite Hnet. unfold Constraints.validateEnvironment.
      rewrite (proj2 (proj2 (allowList_check Constraints.ALLOWED_ENVIRONMENTS
                        (StandardPlatformArgs.env args)
                        (InvalidEnvironment (StandardPlatformArgs.env args))))
                 Hout).
      reflexivity.
  - intros Hin Hout. unfold StandardPlatform.new. cbv zeta.
    fold (profileOf args). rewrite Hnet.
    unfold Constraints.validateEnvironment, Constraints.validateRegion.
    rewrite (proj2 (proj1 (allowList_check Constraints.ALLOWED_ENVIRONMENTS
                             (StandardPlatformArgs.env args)
                             (InvalidEnvironment (StandardPlatformArgs.env args))))
               Hin).
    cbn [bind].
    rewrite (proj2 (proj2 (allowList_check Constraints.ALLOWED_REGIONS
                      (StandardPlatformArgs.region args)
                      (InvalidRegion (StandardPlatformArgs.region args))))
               Hout).
    reflexivity.
Qed.

Lemma composite_rejects_unknown_environment_witness :
  StandardPlatform.new "test-platform" unknownEnvArgs
  = Err (InvalidEnvironment "production").
Proof.
  refine (proj2 (proj1 (composite_rejects_unknown_environment
                          "test-platform" unknownEnvArgs) _)).
  simpl. intros [H|[H|[H|[]]]]; discriminate.
Defined.

Lemma profileOf_fields (args : StandardPlatformArgs.t) :
  Profile.projectId (profileOf args) = StandardPlatformArgs.projectId args
  /\ Profile.region (profileOf args) = StandardPlatformArgs.region args
  /\ Profile.env (profileOf args) = StandardPlatformArgs.env args
  /\ Profile.prefix (profileOf args) = StandardPlatformArgs.prefix args.
Proof.
  unfold profileOf, StandardPlatform.selectProfile.
  destruct (String.eqb _ "prod"); [|destruct (String.eqb _ "staging")];
    repeat split.
Qed.

Lemma getNetworkConfig_default (p : Profile.PlatformProfile)
    (nc : NetworkConfig.t) :
  Profile.getNetworkConfig p None = Ok nc ->
  nc = {| NetworkConfig.projectId := Profile.projectId p;
          NetworkConfig.region := Profile.region p;
          NetworkConfig.env := Profile.env p;
          NetworkConfig.prefix := Profile.prefix p;
          NetworkConfig.cidr := "10.0.0.0/16";
          NetworkConfig.podCidr := "10.11.0.0/21";
          NetworkConfig.serviceCidr := "10.12.0.0/21";
          NetworkConfig.podRangeName := "pod-ranges";
          NetworkConfig.serviceRangeName := "service-ranges" |}
  /\ In (Profile.env p) Constraints.ALLOWED_ENVIRONMENTS
  /\ In (Profile.region p) Constraints.ALLOWED_REGIONS.
Proof.
  unfold Profile.getNetworkConfig. intros H.
  pose proof (NetworkConfig_new_env _ H) as [He Hr].
  unfold NetworkConfig.new in H.
  destruct (Constraints.validateEnvironment _) as [[]|?]; cbn [bind] in H;
    [|discriminate].
  destruct (Constraints.validateRegion _) as [[]|?]; cbn [bind] in H;
    [|discriminate].
  injection H as <-. split; [reflexivity|]. split; [exact He | exact Hr].
Qed.

Lemma clusterConfigOf_ok (p : Profile.PlatformProfile) (nc : NetworkConfig.t)
    (o : option ClusterOverrides.t) (c : ClusterConfig.t) :
  StandardPlatform.clusterConfigOf p nc o = Ok c ->
  c = built (merged p (Some (ClusterOverrides.withRanges
                               (NetworkConfig.podRangeName nc)
                               (NetworkConfig.serviceRangeName nc)
                               (nullish o ClusterOverrides.empty))))
  /\ Spec.compliant c.
Proof.
  unfold StandardPlatform.clusterConfigOf. rewrite getClusterConfig_merge.
  apply ClusterConfig_new_compliant.
Qed.

(** X11. Whatever the cluster overrides are, the cluster configuration
    the composite derives in its third step is one that every validation
    accepts: an allowed machine type, environment and region, a private
    aligned /28 master block, minNodes not greater than maxNodes, and
    maxNodes, diskSize and nodeCount each within its bounds or [NaN]. For
    cluster overrides that hold integers, and a value for every property
    they have, the node pool and the cluster declared by a constructed
    composite are within policy: the machine type is an allowed one,
    maxNodeCount is in 1-50 and at least minNodeCount, the disk size is in
    30-200, the pool's initial node count is in 1-20 and the master CIDR
    block is a private aligned /28; the composite's own environment and
    region are allowed ones. *)
Theorem composite_within_policy :
  (forall profile networkConfig clusterOverrides c,
      Runtime.StandardPlatform.clusterConfigOf profile networkConfig
        clusterOverrides = Runtime.Returned c ->
      Spec.accepted c)
  /\ (forall name args p,
         StandardPlatform.new name args = Ok p ->
         let pool := StandardCluster.nodePool (StandardPlatform.cluster p) in
         let cl := StandardCluster.cluster (StandardPlatform.cluster p) in
         In (Gcp.pool_machineType pool) Constraints.ALLOWED_MACHINE_TYPES
         /\ 1 <= Gcp.pool_maxNodeCount pool <= 50
         /\ Gcp.pool_minNodeCount pool <= Gcp.pool_maxNodeCount pool
         /\ 30 <= Gcp.pool_diskSizeGb pool <= 200
         /\ 1 <= Gcp.pool_initialNodeCount pool <= 20
         /\ Spec.privateAlignedBlock (Gcp.cluster_masterIpv4CidrBlock cl)
         /\ In (StandardPlatform.env p) Constraints.ALLOWED_ENVIRONMENTS
         /\ In (StandardPlatform.region p) Constraints.ALLOWED_REGIONS).
Proof.
  split.
  - intros profile networkConfig clusterOverrides c.
    unfold Runtime.StandardPlatform.clusterConfigOf.
    rewrite runtime_getClusterConfig_merge. intros Hc.
    now apply runtime_new_accepted in Hc.
  - intros name args p Hp.
    apply new_inv in Hp as (nc & c & s & i & Hn & Hc & _ & _ & ->).
    apply getNetworkConfig_default in Hn as (_ & He & Hr).
    apply clusterConfigOf_ok in Hc as [_ Hc].
    destruct (profileOf_fields args) as (_ & Hpr & Hpe & _).
    rewrite Hpe in He. rewrite Hpr in Hr.
    destruct Hc as (_ & _ & Hm & Hmax & Hd & Hnc & Hmin & Hcidr).
    cbv zeta. unfold assembled. cbv zeta.
    cbn [StandardPlatform.cluster StandardCluster.new StandardCluster.nodePool
         StandardCluster.cluster StandardCluster.config
         Gcp.pool_machineType Gcp.pool_maxNodeCount Gcp.pool_minNodeCount
         Gcp.pool_diskSizeGb Gcp.pool_initialNodeCount
         Gcp.cluster_masterIpv4CidrBlock StandardPlatform.env
         StandardPlatform.region].
    repeat (split; [assumption|]). assumption.
Qed.

Lemma composite_within_policy_witness :
  exists p,
    StandardPlatform.new "test-platform" baseArgs = Ok p
    /\ 1 <= Gcp.pool_maxNodeCount
              (StandardCluster.nodePool (StandardPlatform.cluster p)) <= 50.
Proof.
  destruct (StandardPlatform.new "test-platform" baseArgs) as [p|e] eqn:H;
    [|vm_compute in H; discriminate].
  exists p. split; [reflexivity|].
  exact (proj1 (proj2 (proj2 composite_within_policy
                         "test-platform" baseArgs p H))).
Defined.

(** X12. A constructed composite keeps the four arguments it was given
    and wires its resources to one another: subnet and router refer to the
    declared network, the NAT to the router, the cluster to the network and
    the subnet of the VPC component, the node pool to the cluster. The VPC is
    named [{prefix}-{env}-vpc] and its subnet declares the secondary ranges
    pod-ranges and service-ranges; the cluster uses these two names unless
    the cluster overrides name others, in which case it uses the overriding
    names while the subnet still declares the default ones. *)
Theorem composite_wiring (name : string) (args : StandardPlatformArgs.t)
    (p : StandardPlatform.t) :
  StandardPlatform.new name args = Ok p ->
  let vpc := StandardPlatform.vpc p in
  let cl := StandardCluster.cluster (StandardPlatform.cluster p) in
  let pool := StandardCluster.nodePool (StandardPlatform.cluster p) in
  let o := nullish (StandardPlatformArgs.clusterOverrides args)
                   ClusterOverrides.empty in
  (StandardPlatform.projectId p = StandardPlatformArgs.projectId args
   /\ StandardPlatform.region p = StandardPlatformArgs.region args
   /\ StandardPlatform.env p = StandardPlatformArgs.env args
   /\ StandardPlatform.prefix p = StandardPlatformArgs.prefix args)
  /\ Gcp.network_name (StandardVPC.network vpc)
     = StandardPlatformArgs.prefix args ++ "-"
         ++ StandardPlatformArgs.env args ++ "-vpc"
  /\ Gcp.subnet_network (StandardVPC.subnet vpc) = StandardVPC.networkId vpc
  /\ Gcp.router_network (StandardVPC.router vpc) = StandardVPC.networkId vpc
  /\ Gcp.nat_router (StandardVPC.nat vpc)
     = Gcp.Ref (Gcp.router_logicalName (StandardVPC.router vpc)) "name"
  /\ Gcp.cluster_network cl = StandardVPC.networkId vpc
  /\ Gcp.cluster_subnetwork cl = StandardVPC.subnetId vpc
  /\ Gcp.pool_cluster pool = Gcp.Ref (Gcp.cluster_logicalName cl) "name"
  /\ map Gcp.rangeName (Gcp.subnet_secondaryIpRanges (StandardVPC.subnet vpc))
     = ["pod-ranges"; "service-ranges"]
  /\ Gcp.cluster_clusterSecondaryRangeName cl
     = nullish (ClusterOverrides.podRangeName o) "pod-ranges"
  /\ Gcp.cluster_servicesSecondaryRangeName cl
     = nullish (ClusterOverrides.serviceRangeName o) "service-ranges".
Proof.
  intros Hp. apply new_inv in Hp as (nc & c & s & i & Hn & Hc & _ & _ & ->).
  apply getNetworkConfig_default in Hn as (-> & _ & _).
  apply clusterConfigOf_ok in Hc as [-> _].
  destruct (profileOf_fields args) as (_ & _ & Hpe & Hpp).
  cbv zeta. unfold assembled, NetworkConfig.vpcName. cbv zeta.
  cbn [StandardPlatform.vpc StandardPlatform.cluster StandardPlatform.projectId
       StandardPlatform.region StandardPlatform.env StandardPlatform.prefix
       StandardVPC.new StandardVPC.network StandardVPC.subnet
       StandardVPC.router StandardVPC.nat StandardVPC.networkId
       StandardVPC.subnetId StandardCluster.new StandardCluster.cluster
       StandardCluster.nodePool StandardCluster.config
       StandardCluster.networkId StandardCluster.subnetId
       Gcp.network_name Gcp.network_logicalName Gcp.subnet_network
       Gcp.subnet_logicalName Gcp.router_network Gcp.router_logicalName
       Gcp.nat_router Gcp.cluster_network Gcp.cluster_subnetwork
       Gcp.cluster_logicalName Gcp.pool_cluster Gcp.subnet_secondaryIpRanges
       Gcp.cluster_clusterSecondaryRangeName
       Gcp.cluster_servicesSecondaryRangeName Gcp.rangeName map
       NetworkConfig.prefix NetworkConfig.env NetworkConfig.podRangeName
       NetworkConfig.serviceRangeName].
  rewrite Hpe, Hpp.
  repeat apply conj; try reflexivity;
    unfold built, merged;
    destruct (Profile.kind (profileOf args));
    cbn [ClusterConfig.podRangeName ClusterConfig.serviceRangeName
         ClusterOverrides.over ClusterOverrides.withRanges
         ClusterConfigArgs.podRangeName ClusterConfigArgs.serviceRangeName
         ClusterOverrides.podRangeName ClusterOverrides.serviceRangeName
         Profile.literal nullish];
    rewrite !nullish_orElse_None, !nullish_orElse_Some; reflexivity.
Qed.

Lemma composite_wiring_witness :
  exists p,
    StandardPlatform.new "test-platform" baseArgs = Ok p
    /\ Gcp.network_name (StandardVPC.network (StandardPlatform.vpc p))
       = "myapp-dev-vpc".
Proof.
  destruct (StandardPlatform.new "test-platform" baseArgs) as [p|e] eqn:H;
    [|vm_compute in H; discriminate].
  exists p. split; [reflexivity|].
  exact (proj1 (proj2 (@composite_wiring "test-platform" baseArgs p H))).
Defined.

(* ================================================================= *)
(** ** Resource labels *)

Lemma get_spread {V : Type} (k : string) (over : Dict.t V) :
  forall base,
    NoDup (Dict.keys over) ->
    Dict.get k (Dict.spread base over)
    = orElse (Dict.get k over) (Dict.get k base).
Proof.
  unfold Dict.spread.
  induction over as [|[k1 v1] over IH]; intros base Hn; simpl; [reflexivity|].
  inversion Hn as [|? ? Hout Hn']; subst.
  rewrite (IH _ Hn'). destruct (String.eqb_spec k1 k).
  - subst. rewrite get_set_same.
    now rewrite (proj2 (get_None k over) Hout).
  - now rewrite (get_set_other v1 base n).
Qed.

(** X13. The cluster component labels the cluster and its node pool
    alike: a label the caller passes wins over the defaults, and the
    defaults are [environment], the environment of the configuration, and
    [managed-by], [pulumi]; no other key is present. *)
Theorem StandardCluster_labels (name : string) (args : StandardCluster.Args)
    (k : string) :
  let custom := nullish (StandardCluster.labels args) [] in
  let c := StandardCluster.new name args in
  NoDup (Dict.keys custom) ->
  Dict.get k (Gcp.cluster_resourceLabels (StandardCluster.cluster c))
  = orElse (Dict.get k custom)
      (Dict.get k
         [("environment", ClusterConfig.env (StandardCluster.config args));
          ("managed-by", "pulumi")])
  /\ Gcp.pool_labels (StandardCluster.nodePool c)
     = Gcp.cluster_resourceLabels (StandardCluster.cluster c).
Proof.
  intros custom c Hn. subst c custom. unfold StandardCluster.new. cbv zeta.
  cbn [StandardCluster.cluster StandardCluster.nodePool
       Gcp.cluster_resourceLabels Gcp.pool_labels].
  split; [|reflexivity]. now apply get_spread.
Qed.

Lemma StandardCluster_labels_witness :
  Dict.get "environment"
    (Gcp.cluster_resourceLabels
       (StandardCluster.cluster (StandardCluster.new "test-cluster" labelledArgs)))
  = Some "sandbox".
Proof.
  refine (eq_trans
            (proj1 (StandardCluster_labels "test-cluster" labelledArgs
                      "environment" _)) _).
  - simpl. repeat constructor; simpl; intuition discriminate.
  - reflexivity.
Defined.

(* ================================================================= *)
(** ** Profiles, further *)

Lemma NetworkConfig_new_succeeds (args : NetworkConfigArgs.t) :
  (exists c, NetworkConfig.new args = Ok c)
  <-> In (NetworkConfigArgs.env args) Constraints.ALLOWED_ENVIRONMENTS
      /\ In (NetworkConfigArgs.region args) Constraints.ALLOWED_REGIONS.
Proof.
  rewrite <- !includes_In. unfold NetworkConfig.new,
    Constraints.validateEnvironment, Constraints.validateRegion.
  destruct (Constraints.includes Constraints.ALLOWED_ENVIRONMENTS _);
    cbn [negb throwIf bind].
  - destruct (Constraints.includes Constraints.ALLOWED_REGIONS _);
      cbn [negb throwIf bind]; split; eauto.
    + intros [c H]. discriminate.
    + intros [_ H]. discriminate.
  - split; [intros [c H] | intros [H _]]; discriminate.
Qed.

Lemma runtime_NetworkConfig_new_returned (args : Runtime.NetworkConfigArgs.t) :
  (exists c, Runtime.NetworkConfig.new args = Runtime.Returned c)
  <-> Spec.oneOf Constraints.ALLOWED_ENVIRONMENTS
        (Runtime.NetworkConfigArgs.env args)
      /\ Spec.oneOf Constraints.ALLOWED_REGIONS
           (Runtime.NetworkConfigArgs.region args).
Proof.
  unfold Spec.oneOf. rewrite <- !runtime_includes_In.
  unfold Runtime.NetworkConfig.new, Runtime.validateEnvironment,
    Runtime.validateRegion.
  destruct (Runtime.includes Constraints.ALLOWED_ENVIRONMENTS _);
    cbn [negb Runtime.throwIf Runtime.andThen].
  - destruct (Runtime.includes Constraints.ALLOWED_REGIONS _);
      cbn [negb Runtime.throwIf Runtime.andThen]; split; eauto.
    + intros [c H]. discriminate.
    + intros [_ H]. discriminate.
  - split; [intros [c H] | intros [H _]]; discriminate.
Qed.

(** X14. [getNetworkConfig] is the same for every profile. A property the
    overrides have wins over the profile's project, region, environment and
    prefix, also when the value it holds is [undefined]; the result is
    validated like any NetworkConfig: it exists exactly when the effective
    environment and region are allowed strings, an effective environment
    outside the list gives InvalidEnvironment, and the override
    [env: undefined] gives InvalidEnvironment for 'undefined' whatever the
    profile's environment is. The CIDR and range-name fields take the value
    the overrides carry and otherwise, when the property is absent or
    [undefined], the defaults 10.0.0.0/16, 10.11.0.0/21, 10.12.0.0/21,
    pod-ranges and service-ranges. *)
Theorem getNetworkConfig_overrides (p : Profile.PlatformProfile)
    (overrides : option Runtime.NetworkOverrides.t) :
  let o := nullish overrides Runtime.NetworkOverrides.empty in
  let env := Spec.effective (Runtime.NetworkOverrides.env o) (Profile.env p) in
  let region :=
    Spec.effective (Runtime.NetworkOverrides.region o) (Profile.region p) in
  ((exists c, Runtime.Profile.getNetworkConfig p overrides
              = Runtime.Returned c)
   <-> Spec.oneOf Constraints.ALLOWED_ENVIRONMENTS env
       /\ Spec.oneOf Constraints.ALLOWED_REGIONS region)
  /\ (~ Spec.oneOf Constraints.ALLOWED_ENVIRONMENTS env ->
      Runtime.Profile.getNetworkConfig p overrides
      = Runtime.Threw
          (Runtime.Raised (InvalidEnvironment (Runtime.interpolate env))))
  /\ (Runtime.NetworkOverrides.env o = Some None ->
      Runtime.Profile.getNetworkConfig p overrides
      = Runtime.Threw (Runtime.Raised (InvalidEnvironment "undefined")))
  /\ (forall c,
         Runtime.Profile.getNetworkConfig p overrides = Runtime.Returned c ->
         Runtime.NetworkConfig.projectId c
         = Spec.effective (Runtime.NetworkOverrides.projectId o)
             (Profile.projectId p)
         /\ Runtime.NetworkConfig.region c = region
         /\ Runtime.NetworkConfig.env c = env
         /\ Runtime.NetworkConfig.prefix c
            = Spec.effective (Runtime.NetworkOverrides.prefix o)
                (Profile.prefix p)
         /\ Runtime.NetworkConfig.cidr c
            = nullish (Spec.carried (Runtime.NetworkOverrides.cidr o))
                "10.0.0.0/16"
         /\ Runtime.NetworkConfig.podCidr c
            = nullish (Spec.carried (Runtime.NetworkOverrides.podCidr o))
                "10.11.0.0/21"
         /\ Runtime.NetworkConfig.serviceCidr c
            = nullish (Spec.carried (Runtime.NetworkOverrides.serviceCidr o))
                "10.12.0.0/21"
         /\ Runtime.NetworkConfig.podRangeName c
            = nullish (Spec.carried (Runtime.NetworkOverrides.podRangeName o))
                "pod-ranges"
         /\ Runtime.NetworkConfig.serviceRangeName c
            = nullish
                (Spec.carried (Runtime.NetworkOverrides.serviceRangeName o))
                "service-ranges").
Proof.
  intros o env region. subst env region.
  unfold Runtime.Profile.getNetworkConfig. fold o.
  assert (Hthrow :
    ~ Spec.oneOf Constraints.ALLOWED_ENVIRONMENTS
        (Spec.effective (Runtime.NetworkOverrides.env o) (Profile.env p)) ->
    Runtime.NetworkConfig.new
      (Runtime.NetworkOverrides.over
         {| Runtime.NetworkConfigArgs.projectId := Some (Profile.projectId p);
            Runtime.NetworkConfigArgs.region := Some (Profile.region p);
            Runtime.NetworkConfigArgs.env := Some (Profile.env p);
            Runtime.NetworkConfigArgs.prefix := Some (Profile.prefix p);
            Runtime.NetworkConfigArgs.cidr := None;
            Runtime.NetworkConfigArgs.podCidr := None;
            Runtime.NetworkConfigArgs.serviceCidr := None;
            Runtime.NetworkConfigArgs.podRangeName := None;
            Runtime.NetworkConfigArgs.serviceRangeName := None |} o)
    = Runtime.Threw
        (Runtime.Raised
           (InvalidEnvironment
              (Runtime.interpolate
                 (Spec.effective (Runtime.NetworkOverrides.env o)
                    (Profile.env p)))))).
  { intros Hout. unfold Runtime.NetworkConfig.new, Runtime.validateEnvironment.
    cbn [Runtime.NetworkOverrides.over Runtime.NetworkConfigArgs.env].
    rewrite spread_effective.
    destruct (Runtime.includes Constraints.ALLOWED_ENVIRONMENTS _) eqn:Hi;
      [|reflexivity].
    apply runtime_includes_In in Hi. contradiction. }
  split; [|split; [|split]].
  - rewrite runtime_NetworkConfig_new_returned.
    cbn [Runtime.NetworkOverrides.over Runtime.NetworkConfigArgs.env
         Runtime.NetworkConfigArgs.region].
    rewrite !spread_effective. reflexivity.
  - exact Hthrow.
  - intros Hu. rewrite Hthrow; rewrite Hu; [reflexivity|].
    intros (s & Hs & _). discriminate.
  - intros c. unfold Runtime.NetworkConfig.new.
    destruct (Runtime.validateEnvironment _) as [[]|?];
      cbn [Runtime.andThen]; [|discriminate].
    destruct (Runtime.validateRegion _) as [[]|?];
      cbn [Runtime.andThen]; [|discriminate].
    intros [= <-].
    cbn [Runtime.NetworkOverrides.over Runtime.NetworkConfig.projectId
         Runtime.NetworkConfig.region Runtime.NetworkConfig.env
         Runtime.NetworkConfig.prefix Runtime.NetworkConfig.cidr
         Runtime.NetworkConfig.podCidr Runtime.NetworkConfig.serviceCidr
         Runtime.NetworkConfig.podRangeName
         Runtime.NetworkConfig.serviceRangeName
         Runtime.NetworkConfigArgs.projectId Runtime.NetworkConfigArgs.region
         Runtime.NetworkConfigArgs.env Runtime.NetworkConfigArgs.prefix
         Runtime.NetworkConfigArgs.cidr Runtime.NetworkConfigArgs.podCidr
         Runtime.NetworkConfigArgs.serviceCidr
         Runtime.NetworkConfigArgs.podRangeName
         Runtime.NetworkConfigArgs.serviceRangeName].
    rewrite !spread_effective, !nullish_spread_None. repeat split.
Qed.

Lemma getNetworkConfig_overrides_witness :
  Runtime.Profile.getNetworkConfig prodProfile (Some (envNetworkOverride None))
  = Runtime.Threw (Runtime.Raised (InvalidEnvironment "undefined")).
Proof.
  exact (proj1 (proj2 (proj2 (getNetworkConfig_overrides prodProfile
                                (Some (envNetworkOverride None)))))
           eq_refl).
Defined.

(** X15. The defaults of the three profiles are within policy: with no
    overrides, [getClusterConfig] of any profile succeeds exactly when the
    profile's environment and region are allowed ones, and so does
    [getNetworkConfig]. *)
Theorem profile_defaults_within_policy (p : Profile.PlatformProfile) :
  ((exists c, Profile.getClusterConfig p None = Ok c)
   <-> In (Profile.env p) Constraints.ALLOWED_ENVIRONMENTS
       /\ In (Profile.region p) Constraints.ALLOWED_REGIONS)
  /\ ((exists c, Profile.getNetworkConfig p None = Ok c)
      <-> In (Profile.env p) Constraints.ALLOWED_ENVIRONMENTS
          /\ In (Profile.region p) Constraints.ALLOWED_REGIONS).
Proof.
  split; [|apply NetworkConfig_new_succeeds].
  rewrite getClusterConfig_merge, ClusterConfig_new_succeeds.
  unfold Spec.otherFieldsValid, merged.
  assert (He : Constraints.validateEnvironment (Profile.env p) = Ok tt
               <-> In (Profile.env p) Constraints.ALLOWED_ENVIRONMENTS)
    by apply allowList_check.
  assert (Hr : Constraints.validateRegion (Profile.region p) = Ok tt
               <-> In (Profile.region p) Constraints.ALLOWED_REGIONS)
    by apply allowList_check.
  destruct (Profile.kind p);
    cbn [Spec.variantDefaults Spec.d_machineType Spec.d_initialNodeCount
         Spec.d_minNodes Spec.d_maxNodes Spec.d_useSpotInstances
         Spec.d_diskSizeGb ClusterOverrides.over Profile.literal nullish orElse
         ClusterOverrides.empty ClusterOverrides.env ClusterOverrides.region
         ClusterOverrides.machineType ClusterOverrides.maxNodes
         ClusterOverrides.diskSize ClusterOverrides.nodeCount
         ClusterOverrides.minNodes ClusterOverrides.masterCidr
         ClusterConfigArgs.env ClusterConfigArgs.region
         ClusterConfigArgs.machineType ClusterConfigArgs.maxNodes
         ClusterConfigArgs.diskSize ClusterConfigArgs.nodeCount
         ClusterConfigArgs.minNodes ClusterConfigArgs.masterCidr];
    rewrite He, Hr; split;
    [ intros ((? & ? & _) & _); split; assumption
    | intros [? ?]; split; [|lia];
      repeat (split; [first [assumption | vm_compute; reflexivity]|]);
      vm_compute; reflexivity
    | intros ((? & ? & _) & _); split; assumption
    | intros [? ?]; split; [|lia];
      repeat (split; [first [assumption | vm_compute; reflexivity]|]);
      vm_compute; reflexivity
    | intros ((? & ? & _) & _); split; assumption
    | intros [? ?]; split; [|lia];
      repeat (split; [first [assumption | vm_compute; reflexivity]|]);
      vm_compute; reflexivity ].
Qed.

(* ================================================================= *)
(** ** The example program *)

Lemma example_constructs (project : string)
    (regionConfig envConfig : option string) :
  project <> "" ->
  In (BasicExample.orDefault envConfig "dev") Constraints.ALLOWED_ENVIRONMENTS ->
  In (BasicExample.orDefault regionConfig "europe-west1")
     Constraints.ALLOWED_REGIONS ->
  exists p,
    BasicExample.platform project regionConfig envConfig = Ok p
    /\ StandardPlatform.hasSecrets p = true
    /\ StandardPlatform.hasIdentity p = true
    /\ BasicExample.secretIds p = Ok ["db-password"; "api-key"]
    /\ Gcp.pool_maxNodeCount
         (StandardCluster.nodePool (StandardPlatform.cluster p)) = 5
    /\ Dict.get "team"
         (Gcp.pool_labels
            (StandardCluster.nodePool (StandardPlatform.cluster p)))
       = Some "platform".
Proof.
  intros Hp He Hr. unfold BasicExample.platform, BasicExample.args.
  destruct project as [|ch project]; [congruence|].
  simpl in He, Hr.
  destruct He as [<-|[<-|[<-|[]]]];
    destruct Hr as [<-|[<-|[<-|[<-|[<-|[]]]]]];
    (eexists; split; [vm_compute; reflexivity|]; repeat split).
Qed.

(** X16. The example program constructs its platform exactly when the
    configured project is not empty and the environment and the region,
    defaulted to dev and europe-west1 when unset or empty, are allowed ones;
    the platform then has its two secrets and its workload identity, exports
    the two secret ids, and its node pool scales up to 5 nodes and carries
    the label team=platform. *)
Theorem example_deploys (project : string)
    (regionConfig envConfig : option string) :
  let env := BasicExample.orDefault envConfig "dev" in
  let region := BasicExample.orDefault regionConfig "europe-west1" in
  ((exists p, BasicExample.platform project regionConfig envConfig = Ok p)
   <-> project <> ""
       /\ In env Constraints.ALLOWED_ENVIRONMENTS
       /\ In region Constraints.ALLOWED_REGIONS)
  /\ (forall p,
         BasicExample.platform project regionConfig envConfig = Ok p ->
         StandardPlatform.hasSecrets p = true
         /\ StandardPlatform.hasIdentity p = true
         /\ BasicExample.secretIds p = Ok ["db-password"; "api-key"]
         /\ Gcp.pool_maxNodeCount
              (StandardCluster.nodePool (StandardPlatform.cluster p)) = 5
         /\ Dict.get "team"
              (Gcp.pool_labels
                 (StandardCluster.nodePool (StandardPlatform.cluster p)))
            = Some "platform").
Proof.
  intros env region. subst env region.
  assert (Hnec : forall p,
             BasicExample.platform project regionConfig envConfig = Ok p ->
             project <> ""
             /\ In (BasicExample.orDefault envConfig "dev")
                  Constraints.ALLOWED_ENVIRONMENTS
             /\ In (BasicExample.orDefault regionConfig "europe-west1")
                  Constraints.ALLOWED_REGIONS).
  { intros p Hp. unfold BasicExample.platform in Hp.
    apply new_inv in Hp as (nc & c & s & i & Hn & _ & _ & Hi & _).
    apply getNetworkConfig_default in Hn as (_ & He & Hr).
    destruct (profileOf_fields
                (BasicExample.args project regionConfig envConfig))
      as (_ & Hpr & Hpe & _).
    rewrite Hpe in He. rewrite Hpr in Hr. split; [|split; assumption].
    intros ->. vm_compute in Hi. discriminate. }
  split.
  - split.
    + intros [p Hp]. now apply Hnec in Hp.
    + intros (Hp & He & Hr).
      destruct (example_constructs regionConfig envConfig Hp He Hr)
        as (p & Hok & _). eauto.
  - intros p Hp. destruct (Hnec p Hp) as (Hne & He & Hr).
    destruct (example_constructs regionConfig envConfig Hne He Hr)
      as (p' & Hok & Hfacts).
    assert (p' = p) by congruence. subst p'. exact Hfacts.
Qed.

(* ================================================================= *)
(** ** What ClusterConfig does not validate *)

Lemma clusterSteps_ext (a a' : ClusterConfigArgs.t) :
  ClusterConfigArgs.env a = ClusterConfigArgs.env a' ->
  ClusterConfigArgs.region a = ClusterConfigArgs.region a' ->
  ClusterConfigArgs.machineType a = ClusterConfigArgs.machineType a' ->
  ClusterConfigArgs.maxNodes a = ClusterConfigArgs.maxNodes a' ->
  ClusterConfigArgs.diskSize a = ClusterConfigArgs.diskSize a' ->
  ClusterConfigArgs.nodeCount a = ClusterConfigArgs.nodeCount a' ->
  ClusterConfigArgs.minNodes a = ClusterConfigArgs.minNodes a' ->
  ClusterConfigArgs.masterCidr a = ClusterConfigArgs.masterCidr a' ->
  Spec.clusterSteps a = Spec.clusterSteps a'.
Proof.
  intros H1 H2 H3 H4 H5 H6 H7 H8. unfold Spec.clusterSteps.
  now rewrite H1, H2, H3, H4, H5, H6, H7, H8.
Qed.

(** X17. ClusterConfig construction never looks at the project id, the
    prefix, the zone, the spot flag or the two range names: two inputs that
    agree on the eight validated fields fail with the same error or both
    succeed. What is stored is the input, verbatim: the zone given, or
    [{region}-a], is the effective zone, whether or not it lies in the
    region; the cluster name is [{prefix}-{env}-cluster] and the workload
    pool [{projectId}.svc.id.goog], also for an empty prefix or project id. *)
Theorem ClusterConfig_unvalidated_fields :
  (forall a a',
      ClusterConfigArgs.env a = ClusterConfigArgs.env a' ->
      ClusterConfigArgs.region a = ClusterConfigArgs.region a' ->
      ClusterConfigArgs.machineType a = ClusterConfigArgs.machineType a' ->
      ClusterConfigArgs.maxNodes a = ClusterConfigArgs.maxNodes a' ->
      ClusterConfigArgs.diskSize a = ClusterConfigArgs.diskSize a' ->
      ClusterConfigArgs.nodeCount a = ClusterConfigArgs.nodeCount a' ->
      ClusterConfigArgs.minNodes a = ClusterConfigArgs.minNodes a' ->
      ClusterConfigArgs.masterCidr a = ClusterConfigArgs.masterCidr a' ->
      (forall e, ClusterConfig.new a = Err e <-> ClusterConfig.new a' = Err e)
      /\ ((exists c, ClusterConfig.new a = Ok c)
          <-> exists c', ClusterConfig.new a' = Ok c'))
  /\ (forall a c,
         ClusterConfig.new a = Ok c ->
         ClusterConfig.effectiveZone c
         = nullish (ClusterConfigArgs.zone a)
                   (ClusterConfigArgs.region a ++ "-a")
         /\ ClusterConfig.clusterName c
            = ClusterConfigArgs.prefix a ++ "-" ++ ClusterConfigArgs.env a
                ++ "-cluster"
         /\ ClusterConfig.workloadPool c
            = ClusterConfigArgs.projectId a ++ ".svc.id.goog"
         /\ ClusterConfig.spotInstances c
            = nullish (ClusterConfigArgs.spotInstances a) true).
Proof.
  split.
  - intros a a' H1 H2 H3 H4 H5 H6 H7 H8.
    pose proof (clusterSteps_ext a a' H1 H2 H3 H4 H5 H6 H7 H8) as Hs.
    assert (He : forall e,
               ClusterConfig.new a = Err e <-> ClusterConfig.new a' = Err e).
    { intros e. now rewrite !ClusterConfig_new_firstFailure, Hs. }
    split; [exact He|].
    split; intros [c Hc].
    + destruct (ClusterConfig_new_total a') as [Hok|[e Herr]]; [eauto|].
      apply He in Herr. congruence.
    + destruct (ClusterConfig_new_total a) as [Hok|[e Herr]]; [eauto|].
      apply He in Herr. congruence.
  - intros a c Hc. apply ClusterConfig_new_ok in Hc. subst c.
    repeat split.
Qed.

Lemma ClusterConfig_unvalidated_fields_witness :
  exists c,
    ClusterConfig.new foreignZoneArgs = Ok c
    /\ ClusterConfig.effectiveZone c = "asia-east1-b"
    /\ ClusterConfig.clusterName c = "-prod-cluster".
Proof.
  destruct (ClusterConfig.new foreignZoneArgs) as [c|e] eqn:H;
    [|vm_compute in H; discriminate].
  exists c. split; [reflexivity|].
  destruct (proj2 ClusterConfig_unvalidated_fields foreignZoneArgs c H)
    as (Hz & Hn & _).
  split; [exact Hz | exact Hn].
Defined.

(* ================================================================= *)
(** ** The order of the composite's steps *)

Lemma bind_err_iff {A B : Type} (r : Result A) (k : A -> Result B)
    (e : Error) :
  bind r k = Err e <-> r = Err e \/ exists a, r = Ok a /\ k a = Err e.
Proof.
  destruct r as [a|e']; simpl; split.
  - intros H. right. eauto.
  - intros [H|(a' & [= <-] & H)]; [discriminate | exact H].
  - intros [= ->]. now left.
  - intros [[= ->]|(a' & H & _)]; [reflexivity | discriminate].
Qed.

(** X18. The composite fails with the error of the first of its four
    fallible steps that fails -- network configuration, cluster
    configuration, secrets, identity -- and succeeds when none fails: so an
    invalid cluster override is reported even when a secret id is blank, and
    a blank secret id is reported rather than an incomplete workload
    identity. *)
Theorem composite_step_order (name : string) (args : StandardPlatformArgs.t)
    (e : Error) :
  StandardPlatform.new name args = Err e <->
  Profile.getNetworkConfig (profileOf args) None = Err e
  \/ (exists nc,
         Profile.getNetworkConfig (profileOf args) None = Ok nc
         /\ (StandardPlatform.clusterConfigOf (profileOf args) nc
               (StandardPlatformArgs.clusterOverrides args) = Err e
             \/ (exists c,
                    StandardPlatform.clusterConfigOf (profileOf args) nc
                      (StandardPlatformArgs.clusterOverrides args) = Ok c
                    /\ (StandardPlatform.declareSecrets name
                          (StandardPlatformArgs.secretIds args) = Err e
                        \/ (exists s,
                               StandardPlatform.declareSecrets name
                                 (StandardPlatformArgs.secretIds args) = Ok s
                               /\ StandardPlatform.declareIdentity name
                                    (StandardPlatformArgs.projectId args)
                                    (StandardPlatformArgs.workloadIdentity args)
                                  = Err e))))).
Proof.
  unfold StandardPlatform.new, profileOf. cbv zeta. split.
  - intros H. apply bind_err_iff in H as [H|(nc & Hn & H)]; [now left|].
    right. exists nc. split; [exact Hn|].
    apply bind_err_iff in H as [H|(c & Hc & H)]; [now left|].
    right. exists c. split; [exact Hc|].
    apply bind_err_iff in H as [H|(s & Hs & H)]; [now left|].
    right. exists s. split; [exact Hs|].
    apply bind_err_iff in H as [H|(i & Hi & H)]; [exact H | discriminate].
  - intros [H|(nc & Hn & [H|(c & Hc & [H|(s & Hs & H)])])].
    + now rewrite H.
    + rewrite Hn. cbn [bind]. now rewrite H.
    + rewrite Hn. cbn [bind]. rewrite Hc. cbn [bind]. now rewrite H.
    + rewrite Hn. cbn [bind]. rewrite Hc. cbn [bind]. rewrite Hs. cbn [bind].
      now rewrite H.
Qed.
